(** * FakeXRandR (libxcb-randr replacement): the splitting engine

    A shallow embedding of [fakexrandr.h] and [libxcb-randr.cpp]:
    the identifier codec, the configuration walker, the recursive split
    traversal, the screen-resources reply builder and the two detail-query
    correlators, followed by the properties established about them.

    Conventions.
    - A C integer of width w is a [Z] kept in range by an explicit wrap
      ([wrap32], [wrap16], [to_int16], [to_int32]).
    - Memory that the code reads through a [char*] is a [list byte]; a
      pointer into it is a [Z] offset; a read outside the list is a fault.
    - A function that can crash returns an [outcome]: [Done v], [Fault f]
      (the process is gone) or [OutOfFuel] (the model's recursion budget was
      too small; the theorems show when a budget suffices). *)

From Stdlib Require Import ZArith Lia Bool String Ascii.
From Stdlib.Strings Require Import Byte.
From Stdlib Require Import DecimalString.
From Stdlib Require Import List.
Import ListNotations.
Local Open Scope Z_scope.

(* ================================================================== *)
(** ** Machine integers *)

Module CInt.

Definition wrap32 (z : Z) : Z := z mod 2 ^ 32.
Definition wrap16 (z : Z) : Z := z mod 2 ^ 16.

(** Conversion to a signed type keeps the low bits (two's complement). *)
Definition to_int32 (z : Z) : Z :=
  let u := wrap32 z in if u <? 2 ^ 31 then u else u - 2 ^ 32.
Definition to_int16 (z : Z) : Z :=
  let u := wrap16 z in if u <? 2 ^ 15 then u else u - 2 ^ 16.

Definition is_u32 (z : Z) : Prop := 0 <= z < 2 ^ 32.
Definition is_u16 (z : Z) : Prop := 0 <= z < 2 ^ 16.
Definition is_i16 (z : Z) : Prop := - 2 ^ 15 <= z < 2 ^ 15.

(** Bytes are [Byte.byte]; their numeric value is taken with [byte_val]. *)
Definition byte_val (b : byte) : Z := Z.of_N (Byte.to_N b).
Definition byte_of_Z (z : Z) : byte :=
  match Byte.of_N (Z.to_N (z mod 256)) with
  | Some b => b
  | None => x00
  end.

Definition NUL : byte := x00.
Definition is_NUL (b : byte) : bool := Byte.eqb b NUL.

End CInt.
Import CInt.

(* ================================================================== *)
(** ** Crashes and partial results *)

Inductive fault : Type :=
| OutOfBounds        (* a read outside the mapped configuration *)
| DivisionByZero     (* an integer division by zero *)
| AssertionFailed    (* [assert] aborted the process *)
| NullDereference    (* a member access through a null pointer *)
| UseAfterFree       (* a member access through a deleted object *)
| DoubleFree.        (* [deleteObj] on an already deleted object *)

Inductive outcome (A : Type) : Type :=
| Done (a : A)
| Fault (f : fault)
| OutOfFuel.
Arguments Done {A} a.
Arguments Fault {A} f.
Arguments OutOfFuel {A}.

(* ================================================================== *)
(** ** fakexrandr.h: the identifier codec *)

Definition XID_SPLIT_SHIFT : Z := 21.
Definition XID_SPLIT_MASK : Z := 0x7FE00000.

(** [uint32_t augmentXID(uint32_t xid, uint32_t n)]:
    [(xid & ~XID_SPLIT_MASK) | (n << XID_SPLIT_SHIFT)], the shift taken in
    32 bits. *)
Definition augmentXID (xid n : Z) : Z :=
  Z.lor (Z.land xid (Z.lnot XID_SPLIT_MASK)) (wrap32 (Z.shiftl n XID_SPLIT_SHIFT)).

(** The two halves of the decoding, as the header documents them:
    [xid & ~XID_SPLIT_MASK] is the xid of the original output and
    [xid >> XID_SPLIT_SHIFT] is the counter of the split screen. *)
Definition original_xid (xid : Z) : Z := Z.land xid (Z.lnot XID_SPLIT_MASK).
Definition split_counter (xid : Z) : Z := Z.shiftr xid XID_SPLIT_SHIFT.
Definition decodeXID (xid : Z) : Z * Z := (original_xid xid, split_counter xid).

(** The test the reply functions use to tell a fake id from a real one:
    [xid & XID_SPLIT_MASK]. *)
Definition is_fake_xid (xid : Z) : bool := negb (Z.land xid XID_SPLIT_MASK =? 0).

(** The split field is ten bits wide (bits 21 to 30). *)
Definition valid_split_index (i : Z) : Prop := 0 <= i < 2 ^ 10.

(* ================================================================== *)
(** ** The XCB RandR reply structures

    The fixed-size part of each reply is a record with the fields of the
    XCB structure; the variable-length arrays that follow it in memory are
    lists kept next to it. *)

(** [xcb_randr_mode_info_t] *)
Record xcb_randr_mode_info_t : Type := {
  mi_id : Z;
  mi_width : Z;
  mi_height : Z;
  mi_dot_clock : Z;
  mi_hsync_start : Z;
  mi_hsync_end : Z;
  mi_htotal : Z;
  mi_hskew : Z;
  mi_vsync_start : Z;
  mi_vsync_end : Z;
  mi_vtotal : Z;
  mi_name_len : Z;
  mi_mode_flags : Z
}.

(** [xcb_randr_get_screen_resources_reply_t], fixed part.  The
    [_current] reply has the same layout. *)
Record screen_resources_header : Type := {
  sr_response_type : Z;
  sr_pad0 : Z;
  sr_sequence : Z;
  sr_length : Z;
  sr_timestamp : Z;
  sr_config_timestamp : Z;
  sr_num_crtcs : Z;
  sr_num_outputs : Z;
  sr_num_modes : Z;
  sr_names_len : Z;
  sr_pad1 : list byte
}.

Record xcb_randr_get_screen_resources_reply_t : Type := {
  sr_header : screen_resources_header;
  sr_crtcs : list Z;
  sr_outputs : list Z;
  sr_modes : list xcb_randr_mode_info_t;
  sr_names : list byte
}.

(** [xcb_randr_get_output_info_reply_t], fixed part. *)
Record output_info_header : Type := {
  oi_response_type : Z;
  oi_status : Z;
  oi_sequence : Z;
  oi_length : Z;
  oi_timestamp : Z;
  oi_crtc : Z;
  oi_mm_width : Z;
  oi_mm_height : Z;
  oi_connection : Z;
  oi_subpixel_order : Z;
  oi_num_crtcs : Z;
  oi_num_modes : Z;
  oi_num_preferred : Z;
  oi_num_clones : Z;
  oi_name_len : Z
}.

(** The reply with its arrays.  [oi_name] holds the [name_len] bytes of
    the name; [oi_after_name] holds the bytes that follow the name in the
    reply buffer up to, and not including, the first NUL: the name is not
    terminated, and a [%s] conversion reads on into them. *)
Record xcb_randr_get_output_info_reply_t : Type := {
  oi_header : output_info_header;
  oi_crtcs : list Z;
  oi_modes : list Z;
  oi_clones : list Z;
  oi_name : list byte;
  oi_after_name : list byte
}.

(** [xcb_randr_get_crtc_info_reply_t], fixed part. *)
Record crtc_info_header : Type := {
  ci_response_type : Z;
  ci_status : Z;
  ci_sequence : Z;
  ci_length : Z;
  ci_timestamp : Z;
  ci_x : Z;
  ci_y : Z;
  ci_width : Z;
  ci_height : Z;
  ci_mode : Z;
  ci_rotation : Z;
  ci_rotations : Z;
  ci_num_outputs : Z;
  ci_num_possible_outputs : Z
}.

Record xcb_randr_get_crtc_info_reply_t : Type := {
  ci_header : crtc_info_header;
  ci_outputs : list Z;
  ci_possible : list Z
}.

Definition XCB_RANDR_CONNECTION_DISCONNECTED : Z := 1.

(** Field assignments used by the code. *)
Definition set_connection (v : Z) (h : output_info_header) : output_info_header :=
  {| oi_response_type := oi_response_type h; oi_status := oi_status h;
     oi_sequence := oi_sequence h; oi_length := oi_length h;
     oi_timestamp := oi_timestamp h; oi_crtc := oi_crtc h;
     oi_mm_width := oi_mm_width h; oi_mm_height := oi_mm_height h;
     oi_connection := v; oi_subpixel_order := oi_subpixel_order h;
     oi_num_crtcs := oi_num_crtcs h; oi_num_modes := oi_num_modes h;
     oi_num_preferred := oi_num_preferred h; oi_num_clones := oi_num_clones h;
     oi_name_len := oi_name_len h |}.

Definition set_output_crtc (v : Z) (h : output_info_header) : output_info_header :=
  {| oi_response_type := oi_response_type h; oi_status := oi_status h;
     oi_sequence := oi_sequence h; oi_length := oi_length h;
     oi_timestamp := oi_timestamp h; oi_crtc := v;
     oi_mm_width := oi_mm_width h; oi_mm_height := oi_mm_height h;
     oi_connection := oi_connection h; oi_subpixel_order := oi_subpixel_order h;
     oi_num_crtcs := oi_num_crtcs h; oi_num_modes := oi_num_modes h;
     oi_num_preferred := oi_num_preferred h; oi_num_clones := oi_num_clones h;
     oi_name_len := oi_name_len h |}.

Definition with_connection (v : Z) (r : xcb_randr_get_output_info_reply_t)
  : xcb_randr_get_output_info_reply_t :=
  {| oi_header := set_connection v (oi_header r);
     oi_crtcs := oi_crtcs r; oi_modes := oi_modes r; oi_clones := oi_clones r;
     oi_name := oi_name r; oi_after_name := oi_after_name r |}.

(** [info->mode=0; info->x=info->y=info->width=info->height=0;] *)
Definition hide_mode (h : crtc_info_header) : crtc_info_header :=
  {| ci_response_type := ci_response_type h; ci_status := ci_status h;
     ci_sequence := ci_sequence h; ci_length := ci_length h;
     ci_timestamp := ci_timestamp h;
     ci_x := 0; ci_y := 0; ci_width := 0; ci_height := 0; ci_mode := 0;
     ci_rotation := ci_rotation h; ci_rotations := ci_rotations h;
     ci_num_outputs := ci_num_outputs h;
     ci_num_possible_outputs := ci_num_possible_outputs h |}.

(* ================================================================== *)
(** ** C strings and [snprintf] *)

(** The characters of the C string that starts at the head of [bs]: the
    bytes before the first NUL. *)
Fixpoint cstring (bs : list byte) : list byte :=
  match bs with
  | [] => []
  | b :: rest => if is_NUL b then [] else b :: cstring rest
  end.

(** [%d] of an [int]. *)
Definition print_d (z : Z) : list byte :=
  list_byte_of_string (NilZero.string_of_int (Z.to_int z)).

(** [%*s]: the string, padded on the left with spaces up to the width. *)
Definition print_star_s (width : Z) (str : list byte) : list byte :=
  repeat " "%byte (Z.to_nat width - List.length str) ++ str.

(** ["%*s~%d"] with the arguments [name_len, parentName, suffixIndex]. *)
Definition format_output_name (name_len : Z) (parentName : list byte) (suffixIndex : Z)
  : list byte :=
  print_star_s name_len parentName ++ ["~"%byte] ++ print_d (to_int32 suffixIndex).

(** ["%dx%d"] with the arguments [width, height]. *)
Definition format_mode_name (width height : Z) : list byte :=
  print_d width ++ ["x"%byte] ++ print_d height.

Definition Zlength' {A} (l : list A) : Z := Z.of_nat (List.length l).

(* ================================================================== *)
(** ** The fake objects *)

(** [struct FakeCrtcInfo] *)
Record FakeCrtcInfo : Type := {
  fc_xid : Z;
  fc_orig_crtc_info : crtc_info_header;
  fc_output : Z
}.

(** [struct FakeOutputInfo]; [fo_name] is the C string [name]. *)
Record FakeOutputInfo : Type := {
  fo_xid : Z;
  fo_parent_xid : Z;
  fo_orig_output_info : output_info_header;
  fo_modes : list Z;
  fo_clones : list Z;
  fo_name : list byte
}.

(** [struct FakeModeInfo : xcb_randr_mode_info_t]; [fm_name] is the C
    string [name]. *)
Record FakeModeInfo : Type := {
  fm_base : xcb_randr_mode_info_t;
  fm_name : list byte
}.

(** The constructor [FakeCrtcInfo::FakeCrtcInfo].  Its parameters [x], [y]
    are [int16_t] and [width], [height] are [uint16_t]: the arguments are
    converted on the way in. *)
Definition FakeCrtcInfo_ctor (xid output : Z) (crtcInfo : crtc_info_header)
           (x y width height mode : Z) : FakeCrtcInfo :=
  let x := to_int16 x in
  let y := to_int16 y in
  let width := wrap16 width in
  let height := wrap16 height in
  {| fc_xid := xid;
     fc_orig_crtc_info :=
       {| ci_response_type := ci_response_type crtcInfo;
          ci_status := ci_status crtcInfo;
          ci_sequence := ci_sequence crtcInfo;
          ci_length := ci_length crtcInfo;
          ci_timestamp := ci_timestamp crtcInfo;
          ci_x := x; ci_y := y; ci_width := width; ci_height := height;
          ci_mode := mode;
          ci_rotation := ci_rotation crtcInfo;
          ci_rotations := ci_rotations crtcInfo;
          ci_num_outputs := 1;
          ci_num_possible_outputs := 1 |};
     fc_output := output |}.

(** [FakeCrtcInfo::makeReturnValue] *)
Definition FakeCrtcInfo_makeReturnValue (c : FakeCrtcInfo)
  : xcb_randr_get_crtc_info_reply_t :=
  {| ci_header := fc_orig_crtc_info c;
     ci_outputs := [fc_output c];
     ci_possible := [fc_output c] |}.

(** The constructor [FakeOutputInfo::FakeOutputInfo].  The arrays [modes]
    and [clones] are allocated here and filled in by the caller, which is
    why the model takes their contents as arguments.  [parentName] is read
    by [%s] from the original reply, up to the first NUL.  [name_len] is a
    [uint16_t]; the second [snprintf] writes at most [name_len] characters. *)
Definition FakeOutputInfo_ctor (xid parent_xid : Z)
           (origInfo : xcb_randr_get_output_info_reply_t)
           (num_modes num_clones mm_width mm_height suffixIndex : Z)
           (modes clones : list Z) : FakeOutputInfo :=
  let h := oi_header origInfo in
  let parentName := cstring (oi_name origInfo ++ oi_after_name origInfo) in
  let name_len := wrap16 (Zlength' (format_output_name (oi_name_len h) parentName suffixIndex)) in
  let name := firstn (Z.to_nat name_len)
                     (format_output_name (oi_name_len h) parentName suffixIndex) in
  {| fo_xid := xid;
     fo_parent_xid := parent_xid;
     fo_orig_output_info :=
       {| oi_response_type := oi_response_type h; oi_status := oi_status h;
          oi_sequence := oi_sequence h; oi_length := oi_length h;
          oi_timestamp := oi_timestamp h; oi_crtc := oi_crtc h;
          oi_mm_width := mm_width; oi_mm_height := mm_height;
          oi_connection := oi_connection h;
          oi_subpixel_order := oi_subpixel_order h;
          oi_num_crtcs := 1; oi_num_modes := num_modes;
          oi_num_preferred := 0; oi_num_clones := num_clones;
          oi_name_len := name_len |};
     fo_modes := modes;
     fo_clones := clones;
     fo_name := name |}.

(** [FakeOutputInfo::makeReturnValue] *)
Definition FakeOutputInfo_makeReturnValue (o : FakeOutputInfo)
  : xcb_randr_get_output_info_reply_t :=
  let h := fo_orig_output_info o in
  {| oi_header := h;
     oi_crtcs := [oi_crtc h];
     oi_modes := firstn (Z.to_nat (oi_num_modes h)) (fo_modes o);
     oi_clones := firstn (Z.to_nat (oi_num_clones h)) (fo_clones o);
     oi_name := firstn (Z.to_nat (oi_name_len h)) (fo_name o);
     oi_after_name := [] |}.

(** The constructor [FakeModeInfo::FakeModeInfo]; [width] and [height]
    are [uint16_t] parameters, [name_len] a [uint16_t] field. *)
Definition FakeModeInfo_ctor (xid : Z) (baseMode : xcb_randr_mode_info_t)
           (width height : Z) : FakeModeInfo :=
  let width := wrap16 width in
  let height := wrap16 height in
  let name_len := wrap16 (Zlength' (format_mode_name width height)) in
  let name := firstn (Z.to_nat name_len) (format_mode_name width height) in
  {| fm_base :=
       {| mi_id := xid; mi_width := width; mi_height := height;
          mi_dot_clock := mi_dot_clock baseMode;
          mi_hsync_start := mi_hsync_start baseMode;
          mi_hsync_end := mi_hsync_end baseMode;
          mi_htotal := mi_htotal baseMode;
          mi_hskew := mi_hskew baseMode;
          mi_vsync_start := mi_vsync_start baseMode;
          mi_vsync_end := mi_vsync_end baseMode;
          mi_vtotal := mi_vtotal baseMode;
          mi_name_len := name_len;
          mi_mode_flags := mi_mode_flags baseMode |};
     fm_name := name |}.

(** The three linked lists that a rebuild fills through its tail
    pointers: every new object goes to the end of its list. *)
Record fake_lists : Type := {
  fake_crtcs : list FakeCrtcInfo;
  fake_outputs : list FakeOutputInfo;
  fake_modes : list FakeModeInfo
}.

Definition no_fakes : fake_lists :=
  {| fake_crtcs := []; fake_outputs := []; fake_modes := [] |}.

Definition append_output (o : FakeOutputInfo) (l : fake_lists) : fake_lists :=
  {| fake_crtcs := fake_crtcs l;
     fake_outputs := fake_outputs l ++ [o];
     fake_modes := fake_modes l |}.

Definition append_crtc (c : FakeCrtcInfo) (l : fake_lists) : fake_lists :=
  {| fake_crtcs := fake_crtcs l ++ [c];
     fake_outputs := fake_outputs l;
     fake_modes := fake_modes l |}.

Definition append_mode (m : FakeModeInfo) (l : fake_lists) : fake_lists :=
  {| fake_crtcs := fake_crtcs l;
     fake_outputs := fake_outputs l;
     fake_modes := fake_modes l ++ [m] |}.

(** [list_length] and [xid_in_list] (instantiated at [FakeOutputInfo], the
    only type it is used with). *)
Definition list_length {T} (list : list T) : Z := Zlength' list.

Fixpoint xid_in_list (list : list FakeOutputInfo) (xid : Z) : bool :=
  match list with
  | [] => false
  | item :: next =>
      if (fo_xid item =? xid) || (fo_parent_xid item =? xid) then true
      else xid_in_list next xid
  end.

(* ================================================================== *)
(** ** The mapped configuration file

    [config_file] is the region returned by [mmap]: the list holds every
    byte that can be read through the pointer.  A [char*] into it is an
    offset from [config_file]. *)

Definition memory : Type := list byte.

Definition read_u8 (mem : memory) (p : Z) : option byte :=
  if p <? 0 then None else nth_error mem (Z.to_nat p).

(** The four bytes at [p] read as one [unsigned int], little endian. *)
Definition read_u32 (mem : memory) (p : Z) : option Z :=
  match read_u8 mem p, read_u8 mem (p + 1), read_u8 mem (p + 2), read_u8 mem (p + 3) with
  | Some b0, Some b1, Some b2, Some b3 =>
      Some (byte_val b0 + 2 ^ 8 * byte_val b1 + 2 ^ 16 * byte_val b2 + 2 ^ 24 * byte_val b3)
  | _, _, _, _ => None
  end.

(** [strncmp(&mem[p], t, n) == 0], where [t] is given by its characters
    (the terminating NUL is implicit).  [None] when the comparison reads
    outside the mapping. *)
Fixpoint strncmp_eq (mem : memory) (p : Z) (t : list byte) (n : nat) : option bool :=
  match n with
  | O => Some true
  | S n' =>
      match read_u8 mem p with
      | None => None
      | Some a =>
          let b := hd NUL t in
          if negb (Byte.eqb a b) then Some false
          else if is_NUL a then Some true
          else strncmp_eq mem (p + 1) (tl t) n'
      end
  end.

(* ================================================================== *)
(** ** [_config_foreach_split] *)

(** The arguments that every recursive call passes on unchanged. *)
Record split_target : Type := {
  resources : xcb_randr_get_screen_resources_reply_t;
  output : Z;
  output_info : xcb_randr_get_output_info_reply_t;
  crtc_info : crtc_info_header
}.

(** What the recursion updates through pointers: the counter [*n] and the
    three lists. *)
Record split_state : Type := {
  counter : Z;
  lists : fake_lists
}.

(** The [for] loop that looks the parent's mode up in the mode table: the
    first entry, among the first [num_modes], whose id is [crtc_info->mode]. *)
Definition find_mode (res : xcb_randr_get_screen_resources_reply_t) (mode : Z)
  : option xcb_randr_mode_info_t :=
  find (fun m => mi_id m =? mode)
       (firstn (Z.to_nat (sr_num_modes (sr_header res))) (sr_modes res)).

(** The body of the ['N'] case.  The divisions are unsigned 32-bit; a
    zero divisor traps before anything has been allocated. *)
Definition define_fakes (t : split_target) (x y width height : Z) (s : split_state)
  : split_state * outcome unit :=
  let oi := oi_header (output_info t) in
  let ci := crtc_info t in
  if (ci_width ci =? 0) || (ci_height ci =? 0) then (s, Fault DivisionByZero)
  else
    let n := wrap32 (counter s + 1) in
    let num_clones := oi_num_clones oi in
    let clones :=
      map (fun c => augmentXID c n)
          (firstn (Z.to_nat num_clones) (oi_clones (output_info t))) in
    let fake_crtc_xid := augmentXID (oi_crtc oi) n in
    let fake_output_info :=
      FakeOutputInfo_ctor (augmentXID (output t) n) (output t) (output_info t)
                          1 num_clones
                          (wrap32 (oi_mm_width oi * width) / ci_width ci)
                          (wrap32 (oi_mm_height oi * height) / ci_height ci)
                          n [fake_crtc_xid] clones in
    let fake_output_info :=
      {| fo_xid := fo_xid fake_output_info;
         fo_parent_xid := fo_parent_xid fake_output_info;
         fo_orig_output_info :=
           set_output_crtc fake_crtc_xid (fo_orig_output_info fake_output_info);
         fo_modes := fo_modes fake_output_info;
         fo_clones := fo_clones fake_output_info;
         fo_name := fo_name fake_output_info |} in
    let l1 := append_output fake_output_info (lists s) in
    let fake_crtc :=
      FakeCrtcInfo_ctor fake_crtc_xid (augmentXID (output t) n) ci
                        (wrap32 (ci_x ci + x)) (wrap32 (ci_y ci + y)) width height
                        (hd 0 (fo_modes fake_output_info)) in
    let l2 := append_crtc fake_crtc l1 in
    let l3 :=
      match find_mode (resources t) (ci_mode ci) with
      | Some m => append_mode (FakeModeInfo_ctor fake_crtc_xid m width height) l2
      | None => l2
      end in
    ({| counter := n; lists := l3 |}, Done tt).

(** The traversal.  [config] is the offset of the node to read; the result
    is the offset just after the subtree.  The state comes back in every
    case: what has been appended to the lists before a crash stays
    appended. *)
Fixpoint _config_foreach_split (fuel : nat) (mem : memory) (t : split_target)
         (config : Z) (x y width height : Z) (s : split_state)
  : split_state * outcome Z :=
  match fuel with
  | O => (s, OutOfFuel)
  | S fuel' =>
      match read_u8 mem config with
      | None => (s, Fault OutOfBounds)
      | Some tag =>
          if Byte.eqb tag "N"%byte then
            match define_fakes t x y width height s with
            | (s', Done _) => (s', Done (config + 1))
            | (s', Fault f) => (s', Fault f)
            | (s', OutOfFuel) => (s', OutOfFuel)
            end
          else
            match read_u32 mem (config + 1) with
            | None => (s, Fault OutOfBounds)
            | Some split_pos =>
                if Byte.eqb tag "H"%byte then
                  match _config_foreach_split fuel' mem t (config + 1 + 4)
                                              x y width split_pos s with
                  | (s', Done config') =>
                      _config_foreach_split fuel' mem t config'
                        x (wrap32 (y + split_pos)) width (wrap32 (height - split_pos)) s'
                  | stopped => stopped
                  end
                else if Byte.eqb tag "V"%byte then
                  match _config_foreach_split fuel' mem t (config + 1 + 4)
                                              x y split_pos height s with
                  | (s', Done config') =>
                      _config_foreach_split fuel' mem t config'
                        (wrap32 (x + split_pos)) y (wrap32 (width - split_pos)) height s'
                  | stopped => stopped
                  end
                else (s, Fault AssertionFailed)
            end
      end
  end.

(* ================================================================== *)
(** ** The real library

    The functions of the real libxcb-randr that the code calls through the
    [_xcb_randr_...] pointers.  A request that the code issues and fetches
    in one go is a function to an optional reply ([None] is the null
    pointer that a failed request returns); a reply that the client
    fetches later is looked up by the cookie's sequence number. *)

Record real_library : Type := {
  (* [_xcb_randr_get_output_info] followed by its [_reply] *)
  real_output_info : Z -> Z -> option xcb_randr_get_output_info_reply_t;
  (* [_xcb_randr_get_crtc_info] followed by its [_reply] *)
  real_crtc_info : Z -> Z -> option crtc_info_header;
  (* [xcb_intern_atom(c, 1, 4, "EDID")] followed by its [_reply] *)
  real_edid_atom : option Z;
  (* [_xcb_randr_get_output_property] followed by its [_reply]: the data *)
  real_output_property : Z -> Z -> option (list byte);
  (* [_xcb_randr_get_screen_resources{,_current}_reply] *)
  real_screen_resources_reply : Z -> option xcb_randr_get_screen_resources_reply_t;
  (* [_xcb_randr_get_output_info_reply] *)
  real_output_info_reply : Z -> option xcb_randr_get_output_info_reply_t;
  (* [_xcb_randr_get_crtc_info_reply] *)
  real_crtc_info_reply : Z -> option xcb_randr_get_crtc_info_reply_t
}.

(* ================================================================== *)
(** ** [config_handle_output] *)

(** [config_file] and [config_file_size] as [open_configuration] leaves
    them after a successful call. *)
Record configuration : Type := {
  config_file : memory;
  config_file_size : Z
}.

(** One turn of the [for] loop is one unit of fuel; the traversal gets
    the same budget. *)
Fixpoint config_handle_output_from (fuel : nat) (cfg : configuration) (c : real_library)
         (res : xcb_randr_get_screen_resources_reply_t) (output : Z)
         (target_edid : list byte) (config : Z) (l : fake_lists)
  : fake_lists * outcome Z :=
  match fuel with
  | O => (l, OutOfFuel)
  | S fuel' =>
      if to_int32 config <=? to_int32 (config_file_size cfg) then
        let mem := config_file cfg in
        match read_u32 mem config,
              read_u32 mem (config + (4 + 128 + 768)),
              read_u32 mem (config + (4 + 128 + 768 + 4)),
              read_u32 mem (config + (4 + 128 + 768 + 4 + 4)) with
        | Some size, Some width, Some height, Some count =>
            let next := config + wrap32 (4 + size) in
            match strncmp_eq mem (config + (4 + 128)) target_edid 768 with
            | None => (l, Fault OutOfBounds)
            | Some false =>
                config_handle_output_from fuel' cfg c res output target_edid next l
            | Some true =>
                let ts := sr_config_timestamp (sr_header res) in
                match real_output_info c output ts with
                | None => (l, Done 0)
                | Some output_info =>
                    match real_crtc_info c (oi_crtc (oi_header output_info)) ts with
                    | None => (l, Done 0)
                    | Some output_crtc =>
                        if (ci_width output_crtc =? to_int32 width)
                           && (ci_height output_crtc =? to_int32 height)
                        then
                          let t := {| resources := res; output := output;
                                      output_info := output_info;
                                      crtc_info := output_crtc |} in
                          match _config_foreach_split
                                  fuel mem t (config + (4 + 128 + 768 + 4 + 4 + 4))
                                  0 0 width height
                                  {| counter := 0; lists := l |} with
                          | (s, Done _) => (lists s, Done 1)
                          | (s, Fault f) => (lists s, Fault f)
                          | (s, OutOfFuel) => (lists s, OutOfFuel)
                          end
                        else
                          config_handle_output_from fuel' cfg c res output target_edid next l
                    end
                end
            end
        | _, _, _, _ => (l, Fault OutOfBounds)
        end
      else (l, Done 0)
  end.

Definition config_handle_output (fuel : nat) (cfg : configuration) (c : real_library)
           (res : xcb_randr_get_screen_resources_reply_t) (output : Z)
           (target_edid : list byte) (l : fake_lists)
  : fake_lists * outcome Z :=
  config_handle_output_from fuel cfg c res output target_edid 0 l.

(* ================================================================== *)
(** ** [get_output_edid] *)

(** One hexadecimal digit, as the loop body computes it: the nibble plus
    ['0'], moved up to the letters when it is past ['9']. *)
Definition hex_char (nibble : Z) : byte :=
  let ch := nibble + byte_val "0"%byte in
  byte_of_Z (if ch >? byte_val "9"%byte
             then ch + (byte_val "a"%byte - byte_val "0"%byte - 10)
             else ch).

Definition hex_encode (prop : list byte) : list byte :=
  flat_map (fun b => [hex_char (Z.land (Z.shiftr (byte_val b) 4) 0xf);
                      hex_char (Z.land (byte_val b) 0xf)]) prop.

(** The result is the returned [int] and the characters written from
    [edid[0]] on (none when the property is empty: the buffer is left
    untouched).  The loop writes [2 * num_items] characters and a NUL and
    checks no bound: the function returns [2 * num_items] whatever the size
    of the caller's array is.  Every path returns; the result is an
    [outcome] for the callers' sake. *)
Definition get_output_edid (c : real_library) (output : Z) : outcome (Z * list byte) :=
  match real_edid_atom c with
  | None => Done (0, [])
  | Some atom =>
      match real_output_property c output atom with
      | None => Done (0, [])
      | Some prop =>
          let num_items := Zlength' prop in
          if num_items >? 0 then Done (to_int32 (num_items * 2), hex_encode prop)
          else Done (to_int32 (num_items * 2), [])
      end
  end.

(** The array that [updateFakeResources] passes: [char output_edid[768]]. *)
Definition output_edid_size : Z := 768.

(** The number of bytes that [get_output_edid] stores through [edid]: two
    per item and the NUL; nothing when there is no property or no item.
    With more than [output_edid_size] the stores run past the end of the
    caller's array.  The one reader of the array, [strncmp] with the limit
    768 in [config_handle_output], looks at no more than its first 768
    characters. *)
Definition get_output_edid_stores (c : real_library) (output : Z) : Z :=
  match real_edid_atom c with
  | None => 0
  | Some atom =>
      match real_output_property c output atom with
      | None => 0
      | Some prop =>
          let num_items := Zlength' prop in
          if num_items >? 0 then 2 * num_items + 1 else 0
      end
  end.

(* ================================================================== *)
(** ** [open_configuration] *)

(** What the file system answers for a path. *)
Inductive file_status : Type :=
| NotReadable                               (* [access(path, R_OK)] fails *)
| OpenFails                                 (* [open] returns a negative value *)
| MapFails                                  (* [mmap] returns [MAP_FAILED] *)
| Mapped (st_size : Z) (region : memory).   (* the mapping and the file size *)

Record environment : Type := {
  getenv_XDG_CONFIG_HOME : option string;
  getenv_HOME : option string;
  file_at : string -> file_status
}.

Definition strlen (s : string) : Z := Z.of_nat (String.length s).

(** The result is the new value of [config_file] (with its size; [None] is
    the null pointer) and the returned [int].  A mapping left by an earlier
    call is closed first, and the pointer is null on every failing path. *)
Definition open_configuration (env : environment) (old : option configuration)
  : option configuration * Z :=
  let config_dir :=
    match getenv_XDG_CONFIG_HOME env with
    | Some dir => Some dir
    | None =>
        match getenv_HOME env with
        | None => None
        | Some home_dir =>
            if strlen (home_dir ++ "/.config") >=? 512 then None
            else Some (home_dir ++ "/.config")%string
        end
    end in
  match config_dir with
  | None => (None, 1)
  | Some config_dir =>
      let config_file_path := (config_dir ++ "/fakexrandr.bin")%string in
      if strlen config_file_path >=? 512 then (None, 1)
      else
        match file_at env config_file_path with
        | NotReadable => (None, 1)
        | OpenFails => (None, 1)
        | MapFails => (None, 1)
        | Mapped st_size region =>
            (Some {| config_file := region; config_file_size := st_size |}, 0)
        end
  end.

(* ================================================================== *)
(** ** The snapshot and the process-wide state *)

(** [struct FakeScreenResources]: the copy of the real reply and the heads
    of the three lists. *)
Record FakeScreenResources : Type := {
  origRes : xcb_randr_get_screen_resources_reply_t;
  fakes : fake_lists
}.

Definition FakeScreenResources_ctor (originalResources : xcb_randr_get_screen_resources_reply_t)
           (l : fake_lists) : FakeScreenResources :=
  {| origRes := originalResources; fakes := l |}.

(** A pointer to a heap object: null, pointing to a live object, or still
    holding the address of an object that [deleteObj] has destroyed. *)
Inductive pointer (A : Type) : Type :=
| NullPtr
| LivePtr (obj : A)
| DanglingPtr.
Arguments NullPtr {A}.
Arguments LivePtr {A} obj.
Arguments DanglingPtr {A}.

(** [AssocList<Key, Value>] over [List<KeyValuePair>]: [insert] prepends,
    [find] returns the first item with the key, [erase] unlinks the item it
    is given.  An item pointer is the item's position in the list. *)
Module AssocList.

Definition t : Type := list (Z * Z).

Definition insert (key value : Z) (pairs : t) : t := (key, value) :: pairs.

Fixpoint find_from (pos : nat) (key : Z) (pairs : t) : option (nat * Z) :=
  match pairs with
  | [] => None
  | (k, v) :: rest =>
      if k =? key then Some (pos, v) else find_from (S pos) key rest
  end.

Definition find (key : Z) (pairs : t) : option (nat * Z) := find_from 0 key pairs.

Fixpoint erase (item : nat) (pairs : t) : t :=
  match pairs, item with
  | [], _ => []
  | _ :: rest, O => rest
  | p :: rest, S item' => p :: erase item' rest
  end.

End AssocList.

(** The globals: [config_file] with [config_file_size], the pointer
    [fakeScreenResources], and the two cookie tables. *)
Record globals : Type := {
  config_mapping : option configuration;
  fakeScreenResources : pointer FakeScreenResources;
  crtc_info_cookies : AssocList.t;
  output_info_cookies : AssocList.t
}.

Definition initial_globals : globals :=
  {| config_mapping := None; fakeScreenResources := NullPtr;
     crtc_info_cookies := []; output_info_cookies := [] |}.

Definition set_config (cf : option configuration) (g : globals) : globals :=
  {| config_mapping := cf; fakeScreenResources := fakeScreenResources g;
     crtc_info_cookies := crtc_info_cookies g;
     output_info_cookies := output_info_cookies g |}.

Definition set_fakeScreenResources (p : pointer FakeScreenResources) (g : globals) : globals :=
  {| config_mapping := config_mapping g; fakeScreenResources := p;
     crtc_info_cookies := crtc_info_cookies g;
     output_info_cookies := output_info_cookies g |}.

Definition set_crtc_info_cookies (l : AssocList.t) (g : globals) : globals :=
  {| config_mapping := config_mapping g; fakeScreenResources := fakeScreenResources g;
     crtc_info_cookies := l;
     output_info_cookies := output_info_cookies g |}.

Definition set_output_info_cookies (l : AssocList.t) (g : globals) : globals :=
  {| config_mapping := config_mapping g; fakeScreenResources := fakeScreenResources g;
     crtc_info_cookies := crtc_info_cookies g;
     output_info_cookies := l |}.

(* ================================================================== *)
(** ** [FakeScreenResources::makeReturnValue] *)

(** [strcat(dest, src)]: [dest] is given by its characters, [src] is read
    up to its first NUL. *)
Definition strcat (dest src : list byte) : list byte := dest ++ cstring src.

(** The returned reply.  The counts are [uint16_t] fields incremented once
    per appended element; [names_len] is the [strlen] of the names buffer
    after the original names, a NUL, and the [strcat] of every fake name.
    The arrays of the C reply lie one after another, each found through the
    counts before it; the lists of the model describe them as long as no
    count has wrapped. *)
Definition FakeScreenResources_makeReturnValue (r : FakeScreenResources)
  : xcb_randr_get_screen_resources_reply_t :=
  let h := sr_header (origRes r) in
  let orig := origRes r in
  let l := fakes r in
  let crtcs := firstn (Z.to_nat (sr_num_crtcs h)) (sr_crtcs orig)
               ++ map fc_xid (fake_crtcs l) in
  let num_crtcs := fold_left (fun n _ => wrap16 (n + 1)) (fake_crtcs l) (sr_num_crtcs h) in
  let outputs := firstn (Z.to_nat (sr_num_outputs h)) (sr_outputs orig)
                 ++ map fo_xid (fake_outputs l) in
  let num_outputs := fold_left (fun n _ => wrap16 (n + 1)) (fake_outputs l) (sr_num_outputs h) in
  let modes := firstn (Z.to_nat (sr_num_modes h)) (sr_modes orig)
               ++ map fm_base (fake_modes l) in
  let num_modes := fold_left (fun n _ => wrap16 (n + 1)) (fake_modes l) (sr_num_modes h) in
  let namesToFill :=
    fold_left (fun buf mode => strcat buf (fm_name mode)) (fake_modes l)
              (cstring (firstn (Z.to_nat (sr_names_len h)) (sr_names orig))) in
  let names_len := wrap16 (Zlength' namesToFill) in
  {| sr_header :=
       {| sr_response_type := sr_response_type h;
          sr_pad0 := sr_pad0 h;
          sr_sequence := sr_sequence h;
          sr_length := sr_length h;
          sr_timestamp := sr_timestamp h;
          sr_config_timestamp := sr_config_timestamp h;
          sr_num_crtcs := num_crtcs;
          sr_num_outputs := num_outputs;
          sr_num_modes := num_modes;
          sr_names_len := names_len;
          sr_pad1 := sr_pad1 h |};
     sr_crtcs := crtcs;
     sr_outputs := outputs;
     sr_modes := modes;
     sr_names := firstn (Z.to_nat names_len) namesToFill |}.

(* ================================================================== *)
(** ** [updateFakeResources] and the screen-resources entry points *)

(** The [for] loop over the outputs of the reply. *)
Fixpoint handle_outputs (fuel : nat) (cfg : configuration) (c : real_library)
         (res : xcb_randr_get_screen_resources_reply_t) (res_outputs : list Z)
         (l : fake_lists) : fake_lists * outcome unit :=
  match res_outputs with
  | [] => (l, Done tt)
  | out :: rest =>
      match get_output_edid c out with
      | Done (ret, output_edid) =>
          if ret >? 0 then
            match config_handle_output fuel cfg c res out output_edid l with
            | (l', Done _) => handle_outputs fuel cfg c res rest l'
            | (l', Fault f) => (l', Fault f)
            | (l', OutOfFuel) => (l', OutOfFuel)
            end
          else handle_outputs fuel cfg c res rest l
      | Fault f => (l, Fault f)
      | OutOfFuel => (l, OutOfFuel)
      end
  end.

(** [res] is the pointer that the real reply function returned.  Both
    reply shapes keep their outputs in the same place, so [current] makes
    no difference to what is read.  When [open_configuration] fails the
    function returns at once and [fakeScreenResources] keeps its value. *)
Definition updateFakeResources (fuel : nat) (env : environment) (c : real_library)
           (res : option xcb_randr_get_screen_resources_reply_t) (current : bool)
           (g : globals) : globals * outcome unit :=
  match open_configuration env (config_mapping g) with
  | (Some cfg, 0) =>
      let g := set_config (Some cfg) g in
      match res with
      | None => (g, Fault NullDereference)
      | Some r =>
          let res_outputs := firstn (Z.to_nat (sr_num_outputs (sr_header r))) (sr_outputs r) in
          match handle_outputs fuel cfg c r res_outputs no_fakes with
          | (l, Done _) =>
              (set_fakeScreenResources (LivePtr (FakeScreenResources_ctor r l)) g, Done tt)
          | (_, Fault f) => (g, Fault f)
          | (_, OutOfFuel) => (g, OutOfFuel)
          end
      end
  | (cf, _) => (set_config cf g, Done tt)
  end.

(** [if(fakeScreenResources) deleteObj(fakeScreenResources);] the pointer
    keeps its value. *)
Definition delete_snapshot (g : globals) : globals * outcome unit :=
  match fakeScreenResources g with
  | NullPtr => (g, Done tt)
  | LivePtr _ => (set_fakeScreenResources DanglingPtr g, Done tt)
  | DanglingPtr => (g, Fault DoubleFree)
  end.

(** [fakeScreenResources->makeReturnValue()] *)
Definition return_snapshot (g : globals)
  : globals * outcome xcb_randr_get_screen_resources_reply_t :=
  match fakeScreenResources g with
  | NullPtr => (g, Fault NullDereference)
  | DanglingPtr => (g, Fault UseAfterFree)
  | LivePtr r => (g, Done (FakeScreenResources_makeReturnValue r))
  end.

Definition get_screen_resources_reply (current : bool) (fuel : nat) (env : environment)
           (c : real_library) (cookie : Z) (g : globals)
  : globals * outcome xcb_randr_get_screen_resources_reply_t :=
  match delete_snapshot g with
  | (g1, Done _) =>
      let screen_resources := real_screen_resources_reply c cookie in
      match updateFakeResources fuel env c screen_resources current g1 with
      | (g2, Done _) => return_snapshot g2
      | (g2, Fault f) => (g2, Fault f)
      | (g2, OutOfFuel) => (g2, OutOfFuel)
      end
  | (g1, Fault f) => (g1, Fault f)
  | (g1, OutOfFuel) => (g1, OutOfFuel)
  end.

Definition xcb_randr_get_screen_resources_current_reply :=
  get_screen_resources_reply true.

Definition xcb_randr_get_screen_resources_reply :=
  get_screen_resources_reply false.

(* ================================================================== *)
(** ** The detail queries *)

(** What the real library is asked to send. *)
Inductive request : Type :=
| GetCrtcInfo (checked : bool) (crtc : Z) (config_timestamp : Z)
| GetOutputInfo (checked : bool) (output : Z) (config_timestamp : Z).

Definition request_xid (r : request) : Z :=
  match r with
  | GetCrtcInfo _ crtc _ => crtc
  | GetOutputInfo _ output _ => output
  end.

(** The connection, as far as the issue functions see it: the sequence
    number that the next request gets, and the requests handed over to the
    real library, oldest first. *)
Record xcb_connection_t : Type := {
  next_sequence : Z;
  forwarded : list request
}.

(** A call through one of the [_xcb_randr_get_..._info] pointers: the
    cookie's sequence number and the connection afterwards. *)
Definition real_send (r : request) (c : xcb_connection_t) : Z * xcb_connection_t :=
  (next_sequence c,
   {| next_sequence := wrap32 (next_sequence c + 1);
      forwarded := forwarded c ++ [r] |}).

Definition xcb_randr_get_crtc_info (c : xcb_connection_t) (crtc config_timestamp : Z)
           (g : globals) : Z * xcb_connection_t * globals :=
  let (cookie, c') :=
    real_send (GetCrtcInfo true (Z.land crtc (Z.lnot XID_SPLIT_MASK)) config_timestamp) c in
  (cookie, c', set_crtc_info_cookies (AssocList.insert cookie crtc (crtc_info_cookies g)) g).

Definition xcb_randr_get_crtc_info_unchecked (c : xcb_connection_t) (crtc config_timestamp : Z)
           (g : globals) : Z * xcb_connection_t * globals :=
  let (cookie, c') :=
    real_send (GetCrtcInfo false (Z.land crtc (Z.lnot XID_SPLIT_MASK)) config_timestamp) c in
  (cookie, c', set_crtc_info_cookies (AssocList.insert cookie crtc (crtc_info_cookies g)) g).

Definition xcb_randr_get_output_info (c : xcb_connection_t) (output config_timestamp : Z)
           (g : globals) : Z * xcb_connection_t * globals :=
  let (cookie, c') :=
    real_send (GetOutputInfo true (Z.land output (Z.lnot XID_SPLIT_MASK)) config_timestamp) c in
  (cookie, c', set_output_info_cookies (AssocList.insert cookie output (output_info_cookies g)) g).

Definition xcb_randr_get_output_info_unchecked (c : xcb_connection_t) (output config_timestamp : Z)
           (g : globals) : Z * xcb_connection_t * globals :=
  let (cookie, c') :=
    real_send (GetOutputInfo false (Z.land output (Z.lnot XID_SPLIT_MASK)) config_timestamp) c in
  (cookie, c', set_output_info_cookies (AssocList.insert cookie output (output_info_cookies g)) g).

(** The reply functions return a pointer to a reply; [None] is null. *)
Definition xcb_randr_get_output_info_reply (c : real_library) (cookie : Z) (g : globals)
  : globals * outcome (option xcb_randr_get_output_info_reply_t) :=
  match AssocList.find cookie (output_info_cookies g) with
  | None => (g, Done (real_output_info_reply c cookie))
  | Some (fakeOutputItem, outputId) =>
      let g := set_output_info_cookies
                 (AssocList.erase fakeOutputItem (output_info_cookies g)) g in
      match fakeScreenResources g with
      | NullPtr => (g, Done None)
      | DanglingPtr => (g, Fault UseAfterFree)
      | LivePtr snapshot =>
          if negb (is_fake_xid outputId) then
            let outputInfo := real_output_info_reply c cookie in
            if xid_in_list (fake_outputs (fakes snapshot)) outputId then
              match outputInfo with
              | None => (g, Fault NullDereference)
              | Some info =>
                  (g, Done (Some (with_connection XCB_RANDR_CONNECTION_DISCONNECTED info)))
              end
            else (g, Done outputInfo)
          else
            match find (fun o => fo_xid o =? outputId) (fake_outputs (fakes snapshot)) with
            | Some o => (g, Done (Some (FakeOutputInfo_makeReturnValue o)))
            | None => (g, Done None)
            end
      end
  end.

Definition xcb_randr_get_crtc_info_reply (c : real_library) (cookie : Z) (g : globals)
  : globals * outcome (option xcb_randr_get_crtc_info_reply_t) :=
  match AssocList.find cookie (crtc_info_cookies g) with
  | None => (g, Done (real_crtc_info_reply c cookie))
  | Some (fakeCrtcItem, crtcId) =>
      let g := set_crtc_info_cookies
                 (AssocList.erase fakeCrtcItem (crtc_info_cookies g)) g in
      match fakeScreenResources g with
      | NullPtr => (g, Done None)
      | DanglingPtr => (g, Fault UseAfterFree)
      | LivePtr snapshot =>
          if negb (is_fake_xid crtcId) then
            let info := real_crtc_info_reply c cookie in
            if existsb (fun o => Z.land (oi_crtc (fo_orig_output_info o))
                                        (Z.lnot XID_SPLIT_MASK) =? crtcId)
                       (fake_outputs (fakes snapshot)) then
              match info with
              | None => (g, Fault NullDereference)
              | Some i =>
                  (g, Done (Some {| ci_header := hide_mode (ci_header i);
                                    ci_outputs := ci_outputs i;
                                    ci_possible := ci_possible i |}))
              end
            else (g, Done info)
          else
            match find (fun k => fc_xid k =? crtcId) (fake_crtcs (fakes snapshot)) with
            | Some k => (g, Done (Some (FakeCrtcInfo_makeReturnValue k)))
            | None => (g, Done None)
            end
      end
  end.

(* ================================================================== *)
(** ** The split plan and its serialisation

    A plan is the binary tree that the payload of a record spells out in
    document order.  [encode_plan] is the byte sequence that
    [_config_foreach_split] reads back: the tag ['N'] for a leaf; the tag
    ['H'] or ['V'], the four bytes of the offset, the first subtree and the
    second subtree for a split. *)

Inductive plan : Type :=
| Leaf
| HSplit (split_pos : Z) (first second : plan)
| VSplit (split_pos : Z) (first second : plan).

Definition le32 (z : Z) : list byte :=
  [byte_of_Z z; byte_of_Z (z / 2 ^ 8); byte_of_Z (z / 2 ^ 16); byte_of_Z (z / 2 ^ 24)].

Fixpoint encode_plan (p : plan) : list byte :=
  match p with
  | Leaf => ["N"%byte]
  | HSplit s a b => "H"%byte :: le32 s ++ encode_plan a ++ encode_plan b
  | VSplit s a b => "V"%byte :: le32 s ++ encode_plan a ++ encode_plan b
  end.

Fixpoint leaf_count (p : plan) : nat :=
  match p with
  | Leaf => 1
  | HSplit _ a b => leaf_count a + leaf_count b
  | VSplit _ a b => leaf_count a + leaf_count b
  end.

(** The traversal on the tree: what [_config_foreach_split] does on the
    serialisation of [p], with the reading of the bytes taken away. *)
Fixpoint walk_plan (t : split_target) (p : plan) (x y width height : Z) (s : split_state)
  : split_state * outcome unit :=
  match p with
  | Leaf => define_fakes t x y width height s
  | HSplit split_pos a b =>
      let split_pos := wrap32 split_pos in
      match walk_plan t a x y width split_pos s with
      | (s', Done _) =>
          walk_plan t b x (wrap32 (y + split_pos)) width (wrap32 (height - split_pos)) s'
      | stopped => stopped
      end
  | VSplit split_pos a b =>
      let split_pos := wrap32 split_pos in
      match walk_plan t a x y split_pos height s with
      | (s', Done _) =>
          walk_plan t b (wrap32 (x + split_pos)) y (wrap32 (width - split_pos)) height s'
      | stopped => stopped
      end
  end.

(** Every offset of the plan lies inside the side it cuts. *)
Fixpoint fits (p : plan) (width height : Z) : bool :=
  match p with
  | Leaf => true
  | HSplit s a b =>
      (0 <=? s) && (s <=? height) && fits a width s && fits b width (height - s)
  | VSplit s a b =>
      (0 <=? s) && (s <=? width) && fits a s height && fits b (width - s) height
  end.

(** Rectangles and the points they cover. *)
Record rect : Type := { rx : Z; ry : Z; rw : Z; rh : Z }.

Definition covers (r : rect) (px py : Z) : Prop :=
  rx r <= px < rx r + rw r /\ ry r <= py < ry r + rh r.

(** The rectangle of a fake CRTC. *)
Definition crtc_rect (c : FakeCrtcInfo) : rect :=
  let i := fc_orig_crtc_info c in
  {| rx := ci_x i; ry := ci_y i; rw := ci_width i; rh := ci_height i |}.

(** The leaf rectangles of the traversal: the arguments [x], [y], [width],
    [height] with which it reaches each leaf, in document order. *)
Fixpoint leaf_rects (p : plan) (x y width height : Z) : list rect :=
  match p with
  | Leaf => [{| rx := x; ry := y; rw := width; rh := height |}]
  | HSplit split_pos a b =>
      let split_pos := wrap32 split_pos in
      leaf_rects a x y width split_pos
      ++ leaf_rects b x (wrap32 (y + split_pos)) width (wrap32 (height - split_pos))
  | VSplit split_pos a b =>
      let split_pos := wrap32 split_pos in
      leaf_rects a x y split_pos height
      ++ leaf_rects b (wrap32 (x + split_pos)) y (wrap32 (width - split_pos)) height
  end.

(** A set of rectangles tiles [r]: a point is in [r] exactly when one of
    them covers it, and no point is covered by two of them. *)
Definition tiles (rs : list rect) (r : rect) : Prop :=
  (forall px py, covers r px py <-> exists q, In q rs /\ covers q px py)
  /\ (forall i j q1 q2 px py,
        nth_error rs i = Some q1 -> nth_error rs j = Some q2 -> i <> j ->
        covers q1 px py -> covers q2 px py -> False).

(** A payload that goes wrong at a tag: the tree up to the first node, in
    document order, whose tag is none of the three.  [BadTag] is that node;
    [InFirst] and [InSecond] are the splits above it, with the subtree that
    has already been read in full. *)
Inductive broken_plan : Type :=
| BadTag (tag : byte)
| InFirst (horizontal : bool) (split_pos : Z) (first : broken_plan)
| InSecond (horizontal : bool) (split_pos : Z) (first : plan) (second : broken_plan).

Definition split_tag (horizontal : bool) : byte :=
  if horizontal then "H"%byte else "V"%byte.

Definition known_tag (tag : byte) : bool :=
  Byte.eqb tag "N"%byte || Byte.eqb tag "H"%byte || Byte.eqb tag "V"%byte.

Fixpoint encode_broken (b : broken_plan) : list byte :=
  match b with
  | BadTag tag => [tag]
  | InFirst hz s first => split_tag hz :: le32 s ++ encode_broken first
  | InSecond hz s first second =>
      split_tag hz :: le32 s ++ encode_plan first ++ encode_broken second
  end.

Fixpoint bad_tags_unknown (b : broken_plan) : bool :=
  match b with
  | BadTag tag => negb (known_tag tag)
  | InFirst _ _ first => bad_tags_unknown first
  | InSecond _ _ _ second => bad_tags_unknown second
  end.

Fixpoint leaves_before (b : broken_plan) : nat :=
  match b with
  | BadTag _ => 0
  | InFirst _ _ first => leaves_before first
  | InSecond _ _ first second => leaf_count first + leaves_before second
  end.


(* ================================================================== *)
(** ** Records of the configuration file

    The layout that [config_handle_output] reads: the size of the rest of
    the record, a 128-byte name, the 768-byte hexadecimal EDID, the width
    and the height the plan was made for, the length of the payload, and
    the payload: the serialised plan. *)

Record config_record : Type := {
  rec_name : list byte;
  rec_edid : list byte;
  rec_width : Z;
  rec_height : Z;
  rec_plan : plan
}.

Definition encode_record (r : config_record) : list byte :=
  le32 (128 + 768 + 4 + 4 + 4 + Zlength' (encode_plan (rec_plan r)))
  ++ rec_name r ++ rec_edid r
  ++ le32 (rec_width r) ++ le32 (rec_height r)
  ++ le32 (Zlength' (encode_plan (rec_plan r)))
  ++ encode_plan (rec_plan r).

Definition encode_records (rs : list config_record) : list byte :=
  flat_map encode_record rs.

(** Padding of a string field with NUL bytes up to its size. *)
Definition pad_to (n : nat) (bs : list byte) : list byte :=
  bs ++ repeat NUL (n - List.length bs).

(* ================================================================== *)
(** ** A sample deployment

    One wide monitor on output 0x42, driven by CRTC 0x3f in mode 0x50 at
    3840x1080, and one record in the configuration file that cuts it
    vertically at 1920. *)

Module Sample.

Definition bytes (s : string) : list byte := list_byte_of_string s.

Definition wide_mode : xcb_randr_mode_info_t :=
  {| mi_id := 0x50; mi_width := 3840; mi_height := 1080;
     mi_dot_clock := 266500000;
     mi_hsync_start := 3888; mi_hsync_end := 3920; mi_htotal := 4000; mi_hskew := 0;
     mi_vsync_start := 1083; mi_vsync_end := 1093; mi_vtotal := 1111;
     mi_name_len := 9; mi_mode_flags := 0 |}.

Definition screen_resources : xcb_randr_get_screen_resources_reply_t :=
  {| sr_header :=
       {| sr_response_type := 1; sr_pad0 := 0; sr_sequence := 7; sr_length := 13;
          sr_timestamp := 1000; sr_config_timestamp := 900;
          sr_num_crtcs := 1; sr_num_outputs := 1; sr_num_modes := 1;
          sr_names_len := 9; sr_pad1 := repeat NUL 8 |};
     sr_crtcs := [0x3f];
     sr_outputs := [0x42];
     sr_modes := [wide_mode];
     sr_names := bytes "3840x1080" |}.

Definition output_info_42 : xcb_randr_get_output_info_reply_t :=
  {| oi_header :=
       {| oi_response_type := 1; oi_status := 0; oi_sequence := 8; oi_length := 4;
          oi_timestamp := 1000; oi_crtc := 0x3f;
          oi_mm_width := 597; oi_mm_height := 336;
          oi_connection := 0; oi_subpixel_order := 0;
          oi_num_crtcs := 1; oi_num_modes := 1; oi_num_preferred := 1;
          oi_num_clones := 0; oi_name_len := 4 |};
     oi_crtcs := [0x3f];
     oi_modes := [0x50];
     oi_clones := [];
     oi_name := bytes "DP-1";
     oi_after_name := [] |}.

Definition crtc_info_3f : crtc_info_header :=
  {| ci_response_type := 1; ci_status := 0; ci_sequence := 9; ci_length := 2;
     ci_timestamp := 1000;
     ci_x := 0; ci_y := 0; ci_width := 3840; ci_height := 1080; ci_mode := 0x50;
     ci_rotation := 1; ci_rotations := 63;
     ci_num_outputs := 1; ci_num_possible_outputs := 1 |}.

Definition edid_42 : list byte := [x00; xff; xff; xab; xcd; x10].

Definition library : real_library :=
  {| real_output_info := fun out _ => if out =? 0x42 then Some output_info_42 else None;
     real_crtc_info := fun crtc _ => if crtc =? 0x3f then Some crtc_info_3f else None;
     real_edid_atom := Some 77;
     real_output_property :=
       fun out atom => if (out =? 0x42) && (atom =? 77) then Some edid_42 else None;
     real_screen_resources_reply := fun _ => Some screen_resources;
     real_output_info_reply := fun _ => Some output_info_42;
     real_crtc_info_reply :=
       fun _ => Some {| ci_header := crtc_info_3f;
                        ci_outputs := [0x42]; ci_possible := [0x42] |} |}.

Definition two_halves : plan := VSplit 1920 Leaf Leaf.

Definition the_record : config_record :=
  {| rec_name := pad_to 128 (bytes "DP-1");
     rec_edid := pad_to 768 (hex_encode edid_42);
     rec_width := 3840;
     rec_height := 1080;
     rec_plan := two_halves |}.

(** The file and its mapping: the last page is filled up with zeros. *)
Definition file_bytes : list byte := encode_records [the_record].

Definition mapping : configuration :=
  {| config_file := pad_to 4096 file_bytes;
     config_file_size := Zlength' file_bytes |}.

Definition env : environment :=
  {| getenv_XDG_CONFIG_HOME := None;
     getenv_HOME := Some "/home/user"%string;
     file_at := fun path =>
       if String.eqb path "/home/user/.config/fakexrandr.bin"
       then Mapped (config_file_size mapping) (config_file mapping)
       else NotReadable |}.

(** The same machine without a configuration file. *)
Definition env_without_file : environment :=
  {| getenv_XDG_CONFIG_HOME := None;
     getenv_HOME := Some "/home/user"%string;
     file_at := fun _ => NotReadable |}.

Definition target : split_target :=
  {| resources := screen_resources; output := 0x42;
     output_info := output_info_42; crtc_info := crtc_info_3f |}.

Definition start : split_state := {| counter := 0; lists := no_fakes |}.

End Sample.

(* ================================================================== *)
(** ** Well-formedness of the data the properties talk about *)

(** A reply of the real library: the counts of the header are the lengths
    of the arrays. *)
Definition well_formed_resources (r : xcb_randr_get_screen_resources_reply_t) : Prop :=
  sr_num_crtcs (sr_header r) = Zlength' (sr_crtcs r)
  /\ sr_num_outputs (sr_header r) = Zlength' (sr_outputs r)
  /\ sr_num_modes (sr_header r) = Zlength' (sr_modes r)
  /\ sr_names_len (sr_header r) = Zlength' (sr_names r).

Definition NUL_free (bs : list byte) : Prop := Forall (fun b => is_NUL b = false) bs.

(** Every fake output of the snapshot has an identifier that the reply
    functions recognise as fake. *)
Definition fake_ids_marked (s : FakeScreenResources) : Prop :=
  Forall (fun o => is_fake_xid (fo_xid o) = true) (fake_outputs (fakes s)).

(** The names of the fake modes, as [strcat] reads them. *)
Definition fake_mode_names (l : fake_lists) : list byte :=
  flat_map (fun m => cstring (fm_name m)) (fake_modes l).

(** States of the sample deployment after a rebuild and after a detail
    query. *)
Module SampleRun.

Definition globals_after_rebuild : globals :=
  fst (xcb_randr_get_screen_resources_reply 100 Sample.env Sample.library 5 initial_globals).

Definition snapshot : FakeScreenResources :=
  match fakeScreenResources globals_after_rebuild with
  | LivePtr s => s
  | _ => FakeScreenResources_ctor Sample.screen_resources no_fakes
  end.

Definition connection : xcb_connection_t := {| next_sequence := 11; forwarded := [] |}.

(** The client asks for the split output 0x42, or for an output 0x43
    that has not been split. *)
Definition globals_after_query (xid : Z) : globals :=
  snd (xcb_randr_get_output_info connection xid 900 globals_after_rebuild).

End SampleRun.

(** The sample deployment with a real mode whose name has a NUL byte in
    the middle. *)
Module NulName.

Definition odd_mode : xcb_randr_mode_info_t :=
  {| mi_id := 0x50; mi_width := 3840; mi_height := 1080;
     mi_dot_clock := 266500000;
     mi_hsync_start := 3888; mi_hsync_end := 3920; mi_htotal := 4000; mi_hskew := 0;
     mi_vsync_start := 1083; mi_vsync_end := 1093; mi_vtotal := 1111;
     mi_name_len := 3; mi_mode_flags := 0 |}.

Definition screen_resources : xcb_randr_get_screen_resources_reply_t :=
  {| sr_header :=
       {| sr_response_type := 1; sr_pad0 := 0; sr_sequence := 7; sr_length := 12;
          sr_timestamp := 1000; sr_config_timestamp := 900;
          sr_num_crtcs := 1; sr_num_outputs := 1; sr_num_modes := 1;
          sr_names_len := 3; sr_pad1 := repeat NUL 8 |};
     sr_crtcs := [0x3f];
     sr_outputs := [0x42];
     sr_modes := [odd_mode];
     sr_names := ["a"%byte; NUL; "b"%byte] |}.

Definition library : real_library :=
  {| real_output_info := real_output_info Sample.library;
     real_crtc_info := real_crtc_info Sample.library;
     real_edid_atom := real_edid_atom Sample.library;
     real_output_property := real_output_property Sample.library;
     real_screen_resources_reply := fun _ => Some screen_resources;
     real_output_info_reply := real_output_info_reply Sample.library;
     real_crtc_info_reply := real_crtc_info_reply Sample.library |}.

End NulName.

(** The recursion depth that the traversal needs for a plan. *)
Fixpoint depth (p : plan) : nat :=
  match p with
  | Leaf => 1
  | HSplit _ a b => S (Nat.max (depth a) (depth b))
  | VSplit _ a b => S (Nat.max (depth a) (depth b))
  end.

Fixpoint broken_depth (b : broken_plan) : nat :=
  match b with
  | BadTag _ => 1
  | InFirst _ _ first => S (broken_depth first)
  | InSecond _ _ first second => S (Nat.max (depth first) (broken_depth second))
  end.

(** Where a leaf rectangle ends up in the fake CRTC: moved by the origin
    of the parent CRTC and cut to the 16-bit fields of the reply. *)
Definition placed (t : split_target) (q : rect) : rect :=
  {| rx := to_int16 (wrap32 (ci_x (crtc_info t) + rx q));
     ry := to_int16 (wrap32 (ci_y (crtc_info t) + ry q));
     rw := wrap16 (rw q);
     rh := wrap16 (rh q) |}.

(** The physical size that the code gives to the fake output of a leaf
    rectangle: each side scaled on its own, in unsigned 32-bit arithmetic. *)
Definition physical_size (t : split_target) (q : rect) : Z * Z :=
  (wrap32 (oi_mm_width (oi_header (output_info t)) * rw q) / ci_width (crtc_info t),
   wrap32 (oi_mm_height (oi_header (output_info t)) * rh q) / ci_height (crtc_info t)).

Definition output_physical_size (o : FakeOutputInfo) : Z * Z :=
  (oi_mm_width (fo_orig_output_info o), oi_mm_height (fo_orig_output_info o)).

(** The physical size as the specification words it: the parent's size
    apportioned by the area ratio w*h / (parentW*parentH), in exact
    integer arithmetic. *)
Definition apportion_by_area (mm w h parentW parentH : Z) : Z :=
  mm * (w * h) / (parentW * parentH).

(** The result of the traversal on a serialised plan, from the result of
    the walk on the tree: the same state, and the offset after the plan
    when the walk completes. *)
Definition located (after : Z) (r : split_state * outcome unit) : split_state * outcome Z :=
  (fst r,
   match snd r with
   | Done _ => Done after
   | Fault f => Fault f
   | OutOfFuel => OutOfFuel
   end).

Definition rect_of (x y width height : Z) : rect :=
  {| rx := x; ry := y; rw := width; rh := height |}.

(** The parent CRTC has an area: neither side is zero. *)
Definition has_area (t : split_target) : Prop :=
  ci_width (crtc_info t) <> 0 /\ ci_height (crtc_info t) <> 0.

(** How many fake modes a plan with [leaves] leaves gets: one per leaf
    when the mode of the parent CRTC is in the mode table, none when it is
    not. *)
Definition modes_for (t : split_target) (leaves : nat) : nat :=
  match find_mode (resources t) (ci_mode (crtc_info t)) with
  | Some _ => leaves
  | None => 0
  end.

(** A rectangle moved by an offset. *)
Definition moved (dx dy : Z) (q : rect) : rect :=
  {| rx := dx + rx q; ry := dy + ry q; rw := rw q; rh := rh q |}.

(** Variants of the sample deployment. *)
Module SampleVariants.

(** The mode table of the reply does not list the mode 0x50 that the
    CRTC is in: it holds one other mode, 0x51. *)
Definition other_mode : xcb_randr_mode_info_t :=
  {| mi_id := 0x51; mi_width := 1920; mi_height := 1080;
     mi_dot_clock := 148500000;
     mi_hsync_start := 2008; mi_hsync_end := 2052; mi_htotal := 2200; mi_hskew := 0;
     mi_vsync_start := 1084; mi_vsync_end := 1089; mi_vtotal := 1125;
     mi_name_len := 9; mi_mode_flags := 0 |}.

Definition resources_without_mode : xcb_randr_get_screen_resources_reply_t :=
  {| sr_header := sr_header Sample.screen_resources;
     sr_crtcs := [0x3f];
     sr_outputs := [0x42];
     sr_modes := [other_mode];
     sr_names := Sample.bytes "1920x1080" |}.

Definition target_without_mode : split_target :=
  {| resources := resources_without_mode; output := 0x42;
     output_info := Sample.output_info_42; crtc_info := Sample.crtc_info_3f |}.

(** A plan whose offset, 2000, is larger than the height 1080 that it
    cuts. *)
Definition overlong : plan := HSplit 2000 Leaf Leaf.

(** A payload whose second child has the tag ['X']. *)
Definition bad_second : broken_plan := InSecond true 540 Leaf (BadTag "X"%byte).

End SampleVariants.

(** A rectangle lies inside another one, side by side. *)
Definition inside (outer q : rect) : Prop :=
  rx outer <= rx q /\ rx q + rw q <= rx outer + rw outer
  /\ ry outer <= ry q /\ ry q + rh q <= ry outer + rh outer
  /\ 0 <= rw q /\ 0 <= rh q.

(** The outcome that the specification asks of a malformed plan: the
    application fails, and the lists are what they were before. *)
Definition fails_atomically (before : split_state) (r : split_state * outcome Z) : Prop :=
  (exists f, snd r = Fault f) /\ lists (fst r) = lists before.

(** More of the sample deployment: configuration files that [mmap] maps
    without any slack, and a record with the overlong plan. *)
Module SampleFiles.

(** The record of the sample monitor with the plan whose offset does not
    fit. *)
Definition overlong_record : config_record :=
  {| rec_name := pad_to 128 (Sample.bytes "DP-1");
     rec_edid := pad_to 768 (hex_encode Sample.edid_42);
     rec_width := 3840;
     rec_height := 1080;
     rec_plan := SampleVariants.overlong |}.

Definition overlong_mapping : configuration :=
  {| config_file := pad_to 4096 (encode_records [overlong_record]);
     config_file_size := Zlength' (encode_records [overlong_record]) |}.

(** A plan of [n] vertical cuts, each taking 10 pixels off the left. *)
Fixpoint strips (n : nat) : plan :=
  match n with
  | O => Leaf
  | S n' => VSplit 10 Leaf (strips n')
  end.

(** Records of other monitors: none has the EDID of the sample monitor. *)
Definition other_monitor (name edid : string) (p : plan) : config_record :=
  {| rec_name := pad_to 128 (Sample.bytes name);
     rec_edid := pad_to 768 (Sample.bytes edid);
     rec_width := 1920;
     rec_height := 1080;
     rec_plan := p |}.

(** Four records that fill one page of 4096 bytes exactly: three with a
    one-leaf plan (913 bytes each) and one with 74 cuts (1357 bytes). *)
Definition full_page_records : list config_record :=
  [ other_monitor "HDMI-1" "00ffffffffffff0010ac" Leaf;
    other_monitor "HDMI-2" "00ffffffffffff004c2d" Leaf;
    other_monitor "DP-2" "00ffffffffffff0009d1" Leaf;
    other_monitor "DP-3" "00ffffffffffff001e6d" (strips 74) ].

(** The mapping of that file ends where the file ends. *)
Definition full_page_mapping : configuration :=
  {| config_file := encode_records full_page_records;
     config_file_size := Zlength' (encode_records full_page_records) |}.

Definition full_page_env : environment :=
  {| getenv_XDG_CONFIG_HOME := None;
     getenv_HOME := Some "/home/user"%string;
     file_at := fun path =>
       if String.eqb path "/home/user/.config/fakexrandr.bin"
       then Mapped (config_file_size full_page_mapping) (config_file full_page_mapping)
       else NotReadable |}.

(** The same records in a mapping that has room after them. *)
Definition roomy_mapping : configuration :=
  {| config_file := encode_records full_page_records ++ repeat NUL 4096;
     config_file_size := Zlength' (encode_records full_page_records) |}.

End SampleFiles.

(* ================================================================== *)
(** ** What the walk over the records looks for *)

(** [strncmp(a, t, n) == 0] on the bytes of the field [a] themselves; [t]
    is given by its characters. *)
Fixpoint strn_equal (a t : list byte) (n : nat) {struct n} : bool :=
  match n with
  | O => true
  | S n' =>
      match a with
      | [] => false
      | x :: a' =>
          if negb (Byte.eqb x (hd NUL t)) then false
          else if is_NUL x then true
          else strn_equal a' (tl t) n'
      end
  end.

Definition well_formed_record (r : config_record) : Prop :=
  length (rec_name r) = 128%nat
  /\ length (rec_edid r) = 768%nat
  /\ is_u32 (rec_width r)
  /\ is_u32 (rec_height r).

(** The two tests of [config_handle_output]: the EDID of the record is the
    EDID of the output, and the size of the record is the size of the CRTC. *)
Definition record_matches (target_edid : list byte) (crtc : crtc_info_header)
           (r : config_record) : bool :=
  strn_equal (rec_edid r) target_edid 768
  && (ci_width crtc =? rec_width r)
  && (ci_height crtc =? rec_height r).

(** The plan of a record applied to the output, as [config_handle_output]
    reports it: the lists afterwards and the result 1. *)
Definition apply_record (t : split_target) (r : config_record) (l : fake_lists)
  : fake_lists * outcome Z :=
  let '(s, o) := walk_plan t (rec_plan r) 0 0 (rec_width r) (rec_height r)
                           {| counter := 0; lists := l |} in
  (lists s,
   match o with
   | Done _ => Done 1
   | Fault f => Fault f
   | OutOfFuel => OutOfFuel
   end).

(** The bytes of a record before its payload. *)
Definition record_header (r : config_record) : list byte :=
  le32 (128 + 768 + 4 + 4 + 4 + Zlength' (encode_plan (rec_plan r)))
  ++ rec_name r ++ rec_edid r
  ++ le32 (rec_width r) ++ le32 (rec_height r)
  ++ le32 (Zlength' (encode_plan (rec_plan r))).

(* ================================================================== *)
(** ** A client issuing detail queries

    The four issue functions as one call, and a client that makes any
    number of such calls. *)

Inductive issue_call : Type :=
| CallCrtcInfo (crtc config_timestamp : Z)
| CallCrtcInfoUnchecked (crtc config_timestamp : Z)
| CallOutputInfo (output config_timestamp : Z)
| CallOutputInfoUnchecked (output config_timestamp : Z).

Definition issue (call : issue_call) (c : xcb_connection_t) (g : globals)
  : Z * xcb_connection_t * globals :=
  match call with
  | CallCrtcInfo crtc ts => xcb_randr_get_crtc_info c crtc ts g
  | CallCrtcInfoUnchecked crtc ts => xcb_randr_get_crtc_info_unchecked c crtc ts g
  | CallOutputInfo output ts => xcb_randr_get_output_info c output ts g
  | CallOutputInfoUnchecked output ts => xcb_randr_get_output_info_unchecked c output ts g
  end.

Fixpoint issue_all (calls : list issue_call) (c : xcb_connection_t) (g : globals)
  : xcb_connection_t * globals :=
  match calls with
  | [] => (c, g)
  | call :: rest =>
      let '(_, c', g') := issue call c g in issue_all rest c' g'
  end.

Definition call_xid (call : issue_call) : Z :=
  match call with
  | CallCrtcInfo crtc _ => crtc
  | CallCrtcInfoUnchecked crtc _ => crtc
  | CallOutputInfo output _ => output
  | CallOutputInfoUnchecked output _ => output
  end.

Definition carries_real_id (r : request) : Prop :=
  Z.land (request_xid r) XID_SPLIT_MASK = 0.

(* ================================================================== *)
(** ** Issuing and fetching, by kind of query *)

(** The cookie table that a call adds to. *)
Definition pending_of (call : issue_call) (g : globals) : AssocList.t :=
  match call with
  | CallCrtcInfo _ _ | CallCrtcInfoUnchecked _ _ => crtc_info_cookies g
  | CallOutputInfo _ _ | CallOutputInfoUnchecked _ _ => output_info_cookies g
  end.

(** The globals after the reply function of the call's kind has run. *)
Definition after_fetch (call : issue_call) (lib : real_library) (cookie : Z) (g : globals)
  : globals :=
  match call with
  | CallCrtcInfo _ _ | CallCrtcInfoUnchecked _ _ =>
      fst (xcb_randr_get_crtc_info_reply lib cookie g)
  | CallOutputInfo _ _ | CallOutputInfoUnchecked _ _ =>
      fst (xcb_randr_get_output_info_reply lib cookie g)
  end.

(** The sequence numbers of a table are pairwise different. *)
Definition distinct_sequences (pairs : AssocList.t) : Prop := NoDup (map fst pairs).

(** The CRTC that a fake output was split from: the [crtc] field of its
    reply with the split field cleared. *)
Definition parent_crtc (o : FakeOutputInfo) : Z :=
  Z.land (oi_crtc (fo_orig_output_info o)) (Z.lnot XID_SPLIT_MASK).

(** Two outstanding output queries and two outstanding CRTC queries in the
    sample deployment, after the rebuild. *)
Module SamplePending.

Definition calls : list issue_call :=
  [ CallOutputInfo 0x42 900;
    CallOutputInfo (augmentXID 0x42 1) 900;
    CallCrtcInfo 0x3f 900;
    CallCrtcInfo (augmentXID 0x3f 2) 900;
    CallCrtcInfo 0x40 900 ].

(** The sequence numbers are 11 to 15, in this order. *)
Definition globals_with_queries : globals :=
  snd (issue_all calls SampleRun.connection SampleRun.globals_after_rebuild).

End SamplePending.

(* ================================================================== *)
(** ** The leaves of a plan, one after the other *)

(** What the traversal does with the leaf rectangles of a plan: the body
    of the ['N'] case for each rectangle in turn, until one fails. *)
Fixpoint emit_leaves (t : split_target) (rs : list rect) (s : split_state)
  : split_state * outcome unit :=
  match rs with
  | [] => (s, Done tt)
  | q :: rest =>
      match define_fakes t (rx q) (ry q) (rw q) (rh q) s with
      | (s', Done _) => emit_leaves t rest s'
      | stopped => stopped
      end
  end.

(** The numbers [c + 1], ..., [c + n]. *)
Definition leaf_numbers (c : Z) (n : nat) : list Z :=
  map (fun k => c + Z.of_nat k) (seq 1 n).

Definition mode_id (m : FakeModeInfo) : Z := mi_id (fm_base m).

(* ================================================================== *)
(** ** Reading a hexadecimal EDID back *)

(** The value of a lower-case hexadecimal digit; [None] for any other
    character. *)
Definition hex_digit_value (ch : byte) : option Z :=
  let v := byte_val ch in
  if (byte_val "0"%byte <=? v) && (v <=? byte_val "9"%byte) then Some (v - byte_val "0"%byte)
  else if (byte_val "a"%byte <=? v) && (v <=? byte_val "f"%byte)
       then Some (v - byte_val "a"%byte + 10)
       else None.

(** The bytes that a string of hexadecimal digit pairs stands for. *)
Fixpoint hex_decode (s : list byte) : option (list byte) :=
  match s with
  | [] => Some []
  | hi :: lo :: rest =>
      match hex_digit_value hi, hex_digit_value lo, hex_decode rest with
      | Some h, Some l, Some bs => Some (byte_of_Z (16 * h + l) :: bs)
      | _, _, _ => None
      end
  | [_] => None
  end.

(** Three records in one file: another monitor, the sample monitor, and a
    second record for the sample monitor with another plan. *)
Module SampleSelection.

Definition records : list config_record :=
  [ SampleFiles.other_monitor "HDMI-1" "00ffffffffffff0010ac" Leaf;
    Sample.the_record;
    SampleFiles.overlong_record ].

Definition mapping : configuration :=
  {| config_file := encode_records records ++ repeat NUL 912;
     config_file_size := Zlength' (encode_records records) |}.

End SampleSelection.

(* ================================================================== *)
(** ** Outputs that the rebuild leaves alone *)


(** The sample machine with a configuration file that holds records of
    other monitors only. *)
Module SampleUnsplit.

Definition env : environment :=
  {| getenv_XDG_CONFIG_HOME := Some "/etc/xdg"%string;
     getenv_HOME := None;
     file_at := fun path =>
       if String.eqb path "/etc/xdg/fakexrandr.bin"
       then Mapped (config_file_size SampleFiles.roomy_mapping)
                   (config_file SampleFiles.roomy_mapping)
       else NotReadable |}.

End SampleUnsplit.

(* ================================================================== *)
(** ** The replies built from the fake objects *)

(** An output-info reply whose counts are the lengths of its arrays. *)
Definition well_formed_output_info (r : xcb_randr_get_output_info_reply_t) : Prop :=
  oi_num_crtcs (oi_header r) = Zlength' (oi_crtcs r)
  /\ oi_num_modes (oi_header r) = Zlength' (oi_modes r)
  /\ oi_num_clones (oi_header r) = Zlength' (oi_clones r)
  /\ oi_name_len (oi_header r) = Zlength' (oi_name r).

(** The output-info reply of the fake output [o] is the one of leaf
    number [k] of the monitor [t]. *)
Definition reply_of_leaf (t : split_target) (k : Z) (o : FakeOutputInfo) : Prop :=
  let parent := output_info t in
  let crtc := augmentXID (oi_crtc (oi_header parent)) k in
  let r := FakeOutputInfo_makeReturnValue o in
  fo_xid o = augmentXID (output t) k
  /\ well_formed_output_info r
  /\ oi_name r = oi_name parent ++ ["~"%byte] ++ print_d k
  /\ oi_crtcs r = [crtc]
  /\ oi_modes r = [crtc]
  /\ oi_clones r = map (fun c => augmentXID c k) (oi_clones parent)
  /\ oi_crtc (oi_header r) = crtc
  /\ oi_num_preferred (oi_header r) = 0
  /\ oi_connection (oi_header r) = oi_connection (oi_header parent)
  /\ oi_timestamp (oi_header r) = oi_timestamp (oi_header parent).

(** A mapping whose first record has the size field 0xFFFFFFFC. *)
Module SampleWrappedSize.

Definition mapping : configuration :=
  {| config_file := le32 0xFFFFFFFC ++ repeat NUL 908;
     config_file_size := 912 |}.

End SampleWrappedSize.

(* ================================================================== *)
(** ** A server that does not answer *)

(** One of the two queries that [config_handle_output] makes for an output
    comes back with a null pointer. *)
Definition unanswered (c : real_library) (res : xcb_randr_get_screen_resources_reply_t)
           (output : Z) : Prop :=
  let ts := sr_config_timestamp (sr_header res) in
  real_output_info c output ts = None
  \/ exists oi, real_output_info c output ts = Some oi
                /\ real_crtc_info c (oi_crtc (oi_header oi)) ts = None.

(** The sample machine when the CRTC query of the monitor fails. *)
Module SampleSilent.

Definition library : real_library :=
  {| real_output_info := real_output_info Sample.library;
     real_crtc_info := fun _ _ => None;
     real_edid_atom := real_edid_atom Sample.library;
     real_output_property := real_output_property Sample.library;
     real_screen_resources_reply := real_screen_resources_reply Sample.library;
     real_output_info_reply := real_output_info_reply Sample.library;
     real_crtc_info_reply := real_crtc_info_reply Sample.library |}.

End SampleSilent.

(* ================================================================== *)
(** ** The fake modes *)

(** [check] holds for the [n] integers from [z] on. *)
Fixpoint all_from (check : Z -> bool) (n : nat) (z : Z) : bool :=
  match n with
  | O => true
  | S n' => check z && all_from check n' (z + 1)
  end.

(** The fake mode [m] is the one of a leaf with the rectangle [q], made
    from the mode [pm] of the parent CRTC: the size of the leaf cut to 16
    bits, the name ["<width>x<height>"] in decimal with its length, and
    the timings of [pm]. *)
Definition mode_of_leaf (pm : xcb_randr_mode_info_t) (q : rect) (m : FakeModeInfo) : Prop :=
  let b := fm_base m in
  mi_width b = wrap16 (rw q)
  /\ mi_height b = wrap16 (rh q)
  /\ fm_name m = print_d (wrap16 (rw q)) ++ ["x"%byte] ++ print_d (wrap16 (rh q))
  /\ mi_name_len b = Zlength' (fm_name m)
  /\ NUL_free (fm_name m)
  /\ mi_dot_clock b = mi_dot_clock pm
  /\ mi_hsync_start b = mi_hsync_start pm
  /\ mi_hsync_end b = mi_hsync_end pm
  /\ mi_htotal b = mi_htotal pm
  /\ mi_hskew b = mi_hskew pm
  /\ mi_vsync_start b = mi_vsync_start pm
  /\ mi_vsync_end b = mi_vsync_end pm
  /\ mi_vtotal b = mi_vtotal pm
  /\ mi_mode_flags b = mi_mode_flags pm.

(** The sample monitor when its CRTC reports a width of zero. *)
Module SampleZero.

Definition flat_crtc : crtc_info_header :=
  {| ci_response_type := 1; ci_status := 0; ci_sequence := 9; ci_length := 2;
     ci_timestamp := 1000;
     ci_x := 0; ci_y := 0; ci_width := 0; ci_height := 1080; ci_mode := 0x50;
     ci_rotation := 1; ci_rotations := 63;
     ci_num_outputs := 1; ci_num_possible_outputs := 1 |}.

Definition target : split_target :=
  {| resources := Sample.screen_resources; output := 0x42;
     output_info := Sample.output_info_42; crtc_info := flat_crtc |}.

End SampleZero.

(* ================================================================== *)
(** ** Lists of fake objects put together *)

(** The three lists of [b] after the three lists of [a]. *)
Definition append_lists (a b : fake_lists) : fake_lists :=
  {| fake_crtcs := fake_crtcs a ++ fake_crtcs b;
     fake_outputs := fake_outputs a ++ fake_outputs b;
     fake_modes := fake_modes a ++ fake_modes b |}.

(** A result computed on empty lists, put after the lists [l]. *)
Definition after_lists {A} (l : fake_lists) (r : fake_lists * outcome A)
  : fake_lists * outcome A :=
  (append_lists l (fst r), snd r).

Definition state_after_lists {A} (l : fake_lists) (r : split_state * outcome A)
  : split_state * outcome A :=
  ({| counter := counter (fst r); lists := append_lists l (lists (fst r)) |}, snd r).

(** The sample machine when the real library has no reply for the detail
    queries of the client. *)
Module SampleNoReply.

Definition library : real_library :=
  {| real_output_info := real_output_info Sample.library;
     real_crtc_info := real_crtc_info Sample.library;
     real_edid_atom := real_edid_atom Sample.library;
     real_output_property := real_output_property Sample.library;
     real_screen_resources_reply := real_screen_resources_reply Sample.library;
     real_output_info_reply := fun _ => None;
     real_crtc_info_reply := fun _ => None |}.

End SampleNoReply.

(** The sample monitor with a record whose plan has 1024 leaves: 1023
    vertical cuts of 10 pixels each. *)
Module SampleManyLeaves.

Definition the_record : config_record :=
  {| rec_name := pad_to 128 (Sample.bytes "DP-1");
     rec_edid := pad_to 768 (hex_encode Sample.edid_42);
     rec_width := 3840;
     rec_height := 1080;
     rec_plan := SampleFiles.strips 1023 |}.

Definition mapping : configuration :=
  {| config_file := pad_to (2 * 4096) (encode_records [the_record]);
     config_file_size := Zlength' (encode_records [the_record]) |}.

Definition env : environment :=
  {| getenv_XDG_CONFIG_HOME := None;
     getenv_HOME := Some "/home/user"%string;
     file_at := fun path =>
       if String.eqb path "/home/user/.config/fakexrandr.bin"
       then Mapped (config_file_size mapping) (config_file mapping)
       else NotReadable |}.

Definition globals_after_rebuild : globals :=
  fst (xcb_randr_get_screen_resources_reply 1100 env Sample.library 5 initial_globals).

Definition pointee (p : pointer FakeScreenResources) : FakeScreenResources :=
  match p with
  | LivePtr s => s
  | _ => FakeScreenResources_ctor Sample.screen_resources no_fakes
  end.

Definition snapshot : FakeScreenResources :=
  pointee (fakeScreenResources globals_after_rebuild).

(** The identifier of the fake output of leaf 1024. *)
Definition last_leaf : Z := augmentXID 0x42 1024.

(** The client asks for that output. *)
Definition globals_after_query : globals :=
  snd (xcb_randr_get_output_info SampleRun.connection last_leaf 900 globals_after_rebuild).

End SampleManyLeaves.

(** The sample machine when the server refuses the screen-resources
    request: the real library hands back a null pointer. *)
Module SampleNoScreen.

Definition library : real_library :=
  {| real_output_info := real_output_info Sample.library;
     real_crtc_info := real_crtc_info Sample.library;
     real_edid_atom := real_edid_atom Sample.library;
     real_output_property := real_output_property Sample.library;
     real_screen_resources_reply := fun _ => None;
     real_output_info_reply := real_output_info_reply Sample.library;
     real_crtc_info_reply := real_crtc_info_reply Sample.library |}.

End SampleNoScreen.

(* ================================================================== *)
(** * Properties *)

(** A [Forall] over a list that computes to explicit elements, each
    element checked by evaluation. *)
Ltac forall_by_evaluation :=
  match goal with
  | |- Forall ?P ?l =>
      let l' := eval vm_compute in l in
      change (Forall P l');
      repeat (constructor; [vm_compute; reflexivity|]);
      try constructor
  end.

(** ** Machine integers *)

Lemma wrap32_small z : is_u32 z -> wrap32 z = z.
Proof. unfold is_u32, wrap32. intros. apply Z.mod_small. lia. Qed.

Lemma wrap16_small z : is_u16 z -> wrap16 z = z.
Proof. unfold is_u16, wrap16. intros. apply Z.mod_small. lia. Qed.

Lemma to_int16_small z : is_i16 z -> to_int16 z = z.
Proof.
  unfold is_i16, to_int16, wrap16. intros H.
  destruct (Z_lt_le_dec z 0) as [Hneg | Hpos].
  - assert (E : z mod 2 ^ 16 = z + 2 ^ 16).
    { symmetry. apply Z.mod_unique with (q := -1); lia. }
    rewrite E. destruct (Z.ltb_spec (z + 2 ^ 16) (2 ^ 15)); lia.
  - rewrite Z.mod_small by lia.
    destruct (Z.ltb_spec z (2 ^ 15)); lia.
Qed.

Lemma to_int16_wrap32 z : to_int16 (wrap32 z) = to_int16 z.
Proof.
  unfold to_int16, wrap16, wrap32.
  assert (E : (z mod 2 ^ 32) mod 2 ^ 16 = z mod 2 ^ 16).
  { apply Z.mod_mod_divide. exists (2 ^ 16). reflexivity. }
  rewrite E. reflexivity.
Qed.

Lemma to_int32_small z : 0 <= z < 2 ^ 31 -> to_int32 z = z.
Proof.
  intros H. unfold to_int32, wrap32. rewrite Z.mod_small by lia.
  destruct (Z.ltb_spec z (2 ^ 31)); lia.
Qed.

(** ** The identifier codec *)

Lemma XID_SPLIT_MASK_bits k :
  0 <= k -> Z.testbit XID_SPLIT_MASK k = (21 <=? k) && (k <? 31).
Proof.
  intros Hk.
  change XID_SPLIT_MASK with (Z.shiftl (Z.ones 10) 21).
  rewrite Z.shiftl_spec by lia.
  destruct (Z.leb_spec 21 k) as [H21 | H21]; simpl.
  - destruct (Z.ltb_spec k 31) as [H31 | H31].
    + apply Z.ones_spec_low. lia.
    + apply Z.ones_spec_high. lia.
  - apply Z.testbit_neg_r. lia.
Qed.

(** A real identifier with a clear split field is untouched by masking. *)
Lemma original_xid_of_real xid :
  Z.land xid XID_SPLIT_MASK = 0 -> Z.land xid (Z.lnot XID_SPLIT_MASK) = xid.
Proof.
  intros H. apply Z.bits_inj'. intros k Hk.
  rewrite Z.land_spec, Z.lnot_spec by lia.
  assert (B := f_equal (fun z => Z.testbit z k) H). cbv beta in B.
  rewrite Z.land_spec, Z.bits_0 in B.
  destruct (Z.testbit xid k), (Z.testbit XID_SPLIT_MASK k); simpl in *; congruence.
Qed.

(** Masking always clears the split field. *)
Lemma masked_xid_is_real xid :
  Z.land (Z.land xid (Z.lnot XID_SPLIT_MASK)) XID_SPLIT_MASK = 0.
Proof.
  apply Z.bits_inj'. intros k Hk.
  rewrite !Z.land_spec, Z.lnot_spec, Z.bits_0 by lia.
  destruct (Z.testbit xid k), (Z.testbit XID_SPLIT_MASK k); reflexivity.
Qed.

Lemma small_real_bits real k :
  0 <= real < 2 ^ 31 -> Z.land real XID_SPLIT_MASK = 0 -> 21 <= k ->
  Z.testbit real k = false.
Proof.
  intros Hr Hm Hk.
  destruct (Z.ltb_spec k 31) as [H31 | H31].
  - assert (B := f_equal (fun z => Z.testbit z k) Hm). cbv beta in B.
    rewrite Z.land_spec, Z.bits_0, XID_SPLIT_MASK_bits in B by lia.
    destruct (Z.leb_spec 21 k); destruct (Z.ltb_spec k 31); try lia.
    simpl in B. rewrite andb_true_r in B. exact B.
  - destruct (Z.eq_dec real 0) as [-> | Hnz]; [apply Z.bits_0|].
    apply Z.bits_above_log2; [lia|].
    assert (Z.log2 real < 31) by (apply Z.log2_lt_pow2; lia). lia.
Qed.

Lemma index_bits i k : valid_split_index i -> 10 <= k -> Z.testbit i k = false.
Proof.
  unfold valid_split_index. intros Hi Hk.
  destruct (Z.eq_dec i 0) as [-> | Hnz]; [apply Z.bits_0|].
  apply Z.bits_above_log2; [lia|].
  assert (Z.log2 i < 10) by (apply Z.log2_lt_pow2; lia). lia.
Qed.

Lemma shifted_index_fits i :
  valid_split_index i -> wrap32 (Z.shiftl i XID_SPLIT_SHIFT) = Z.shiftl i XID_SPLIT_SHIFT.
Proof.
  unfold valid_split_index, XID_SPLIT_SHIFT. intros Hi.
  apply wrap32_small. unfold is_u32. rewrite Z.shiftl_mul_pow2 by lia. lia.
Qed.

(** C2, as stated, fails: the mask leaves bit 31 alone, so a real
    identifier with a clear split field can still have it set, and the
    right shift then returns it on top of the index. *)
Lemma codec_roundtrip_counterexample :
  is_u32 0x80000000
  /\ Z.land 0x80000000 XID_SPLIT_MASK = 0
  /\ valid_split_index 1
  /\ decodeXID (augmentXID 0x80000000 1) <> (0x80000000, 1).
Proof.
  repeat split; try (vm_compute; congruence).
Qed.

(** C2, amended: for every real identifier below 2^31 whose split field
    (mask 0x7FE00000) is zero and every index from 0 to 1023, decoding the
    encoded identifier gives back the identifier and the index; and
    encoding with index 0 gives the identifier itself. *)
Theorem codec_roundtrip real i :
  0 <= real < 2 ^ 31 ->
  Z.land real XID_SPLIT_MASK = 0 ->
  valid_split_index i ->
  decodeXID (augmentXID real i) = (real, i) /\ augmentXID real 0 = real.
Proof.
  intros Hr Hm Hi. split.
  - unfold decodeXID, augmentXID, original_xid, split_counter.
    rewrite shifted_index_fits by assumption.
    rewrite (original_xid_of_real real Hm).
    f_equal.
    + apply Z.bits_inj'. intros k Hk.
      rewrite Z.land_spec, Z.lor_spec, Z.lnot_spec, XID_SPLIT_MASK_bits by lia.
      unfold XID_SPLIT_SHIFT. rewrite Z.shiftl_spec by lia.
      destruct (Z.leb_spec 21 k) as [H21 | H21].
      * rewrite (small_real_bits real k Hr Hm) by lia.
        destruct (Z.ltb_spec k 31); simpl; [apply andb_false_r|].
        rewrite (index_bits i (k - 21) Hi) by lia. reflexivity.
      * rewrite (Z.testbit_neg_r i (k - 21)) by lia.
        simpl. rewrite orb_false_r, andb_true_r. reflexivity.
    + apply Z.bits_inj'. intros k Hk.
      unfold XID_SPLIT_SHIFT.
      rewrite Z.shiftr_spec, Z.lor_spec, Z.shiftl_spec by lia.
      rewrite (small_real_bits real (k + 21) Hr Hm) by lia. simpl.
      f_equal. lia.
  - unfold augmentXID. rewrite (original_xid_of_real real Hm).
    rewrite Z.shiftl_0_l. unfold wrap32. rewrite Z.mod_0_l by lia.
    apply Z.lor_0_r.
Qed.

Lemma codec_roundtrip_witness :
  decodeXID (augmentXID 0x4a 2) = (0x4a, 2) /\ augmentXID 0x4a 0 = 0x4a.
Proof.
  apply (codec_roundtrip 0x4a 2).
  - lia.
  - reflexivity.
  - unfold valid_split_index. lia.
Defined.

(** ** Issuing detail queries *)

(** Each of the four issue functions hands exactly one request to the
    real library: the one for the identifier with its split field cleared. *)
Lemma issue_forwards_one_real_id call c g :
  exists r, forwarded (snd (fst (issue call c g))) = forwarded c ++ [r]
            /\ request_xid r = Z.land (call_xid call) (Z.lnot XID_SPLIT_MASK)
            /\ carries_real_id r.
Proof.
  destruct call; eexists;
    (split; [reflexivity | split; [reflexivity | apply masked_xid_is_real]]).
Qed.

(** C10: whatever identifiers, synthetic or real, a client passes to
    xcb_randr_get_crtc_info, xcb_randr_get_output_info and their unchecked
    variants, in any number of calls and from any state, each call hands
    one request to the real library, for the identifier it was given with
    the split field (mask 0x7FE00000) cleared; so every request that
    reaches the real library carries an identifier whose split field is
    zero. *)
Theorem issued_requests_carry_real_ids calls :
  forall c g,
  exists rs,
    forwarded (fst (issue_all calls c g)) = forwarded c ++ rs
    /\ map request_xid rs
       = map (fun call => Z.land (call_xid call) (Z.lnot XID_SPLIT_MASK)) calls
    /\ Forall carries_real_id rs.
Proof.
  induction calls as [| call rest IH]; intros c g.
  - exists []. cbn. rewrite app_nil_r. repeat split. constructor.
  - cbn [issue_all].
    destruct (issue_forwards_one_real_id call c g) as [r [Er [Ex Hr]]].
    destruct (issue call c g) as [[cookie c'] g']. cbn [fst snd] in Er.
    destruct (IH c' g') as [rs [Ers [Hmap Hall]]].
    exists (r :: rs). rewrite Ers, Er, <- app_assoc. cbn [app map].
    repeat split; [now rewrite Hmap, Ex | now constructor].
Qed.

(** The identifier that was asked for is what the table remembers under
    the cookie. *)
Lemma issued_output_query_is_recorded c xid config_timestamp g :
  let '(cookie, _, g') := xcb_randr_get_output_info c xid config_timestamp g in
  exists item, AssocList.find cookie (output_info_cookies g') = Some (item, xid).
Proof.
  cbn. exists 0%nat. unfold AssocList.find. cbn. rewrite Z.eqb_refl. reflexivity.
Qed.

(** ** Output-info replies *)

Lemma xid_in_list_true l xid :
  xid_in_list l xid = true <->
  exists o, In o l /\ (fo_xid o = xid \/ fo_parent_xid o = xid).
Proof.
  induction l as [| o l IH]; simpl.
  - split; [discriminate | intros [o [[] _]]].
  - destruct (fo_xid o =? xid) eqn:Ex; simpl.
    + split; [intros _ | reflexivity].
      exists o. split; [now left | left; now apply Z.eqb_eq].
    + destruct (fo_parent_xid o =? xid) eqn:Ep.
      * split; [intros _ | reflexivity].
        exists o. split; [now left | right; now apply Z.eqb_eq].
      * rewrite IH. split.
        -- intros [o' [Hin H]]. exists o'. split; [now right | exact H].
        -- intros [o' [[-> | Hin] H]].
           ++ apply Z.eqb_neq in Ex, Ep. destruct H; contradiction.
           ++ exists o'. split; assumption.
Qed.

Lemma real_xid_not_fake xid : Z.land xid XID_SPLIT_MASK = 0 -> is_fake_xid xid = false.
Proof. intros H. unfold is_fake_xid. rewrite H. reflexivity. Qed.

(** C8, as stated, fails in three ways.  (1) Without a snapshot the reply
    function returns a null pointer for every recorded query: a client that
    asks for the real output 0x42 before any screen-resources call gets no
    reply, although the output has no fake children and the real library
    has a reply.  (2) With a live snapshot in which 0x42 is split, a null
    reply of the real library is written through: the call does not return
    a reply.  (3) The test on the snapshot looks for the identifier among
    the fake outputs' own identifiers as well as among their parents'.
    Leaf 1024 of a plan gets the identifier 0x80000042, whose split field
    is zero: it is the parent of no fake output, and the reply for it is
    the real library's reply with the connection set to DISCONNECTED (1
    instead of 0), not the reply as it came. *)
Lemma output_info_reply_counterexample :
  (let '(cookie, _, g) :=
     xcb_randr_get_output_info SampleRun.connection 0x42 900 initial_globals in
   Z.land 0x42 XID_SPLIT_MASK = 0
   /\ AssocList.find cookie (output_info_cookies g) = Some (0%nat, 0x42)
   /\ fakeScreenResources g = NullPtr
   /\ real_output_info_reply Sample.library cookie = Some Sample.output_info_42
   /\ snd (xcb_randr_get_output_info_reply Sample.library cookie g) = Done None)
  /\ (AssocList.find 11 (output_info_cookies SamplePending.globals_with_queries)
      = Some (1%nat, 0x42)
      /\ fakeScreenResources SamplePending.globals_with_queries = LivePtr SampleRun.snapshot
      /\ existsb (fun o => fo_parent_xid o =? 0x42) (fake_outputs (fakes SampleRun.snapshot))
         = true
      /\ real_output_info_reply SampleNoReply.library 11 = None
      /\ snd (xcb_randr_get_output_info_reply SampleNoReply.library 11
                SamplePending.globals_with_queries) = Fault NullDereference)
  /\ (SampleManyLeaves.last_leaf = 0x80000042
      /\ Z.land SampleManyLeaves.last_leaf XID_SPLIT_MASK = 0
      /\ AssocList.find 11 (output_info_cookies SampleManyLeaves.globals_after_query)
         = Some (0%nat, SampleManyLeaves.last_leaf)
      /\ fakeScreenResources SampleManyLeaves.globals_after_query
         = LivePtr SampleManyLeaves.snapshot
      /\ Zlength' (fake_outputs (fakes SampleManyLeaves.snapshot)) = 1024
      /\ existsb (fun o => fo_parent_xid o =? SampleManyLeaves.last_leaf)
                 (fake_outputs (fakes SampleManyLeaves.snapshot)) = false
      /\ real_output_info_reply Sample.library 11 = Some Sample.output_info_42
      /\ oi_connection (oi_header Sample.output_info_42) = 0
      /\ exists r,
           snd (xcb_randr_get_output_info_reply Sample.library 11
                  SampleManyLeaves.globals_after_query) = Done (Some r)
           /\ oi_connection (oi_header r) = 1
           /\ r <> Sample.output_info_42).
Proof.
  split; [|split].
  - repeat split; vm_compute; reflexivity.
  - repeat split; vm_compute; reflexivity.
  - split; [vm_compute; reflexivity|].
    split; [vm_compute; reflexivity|].
    split; [vm_compute; reflexivity|].
    split; [vm_compute; reflexivity|].
    split; [vm_compute; reflexivity|].
    split; [vm_compute; reflexivity|].
    split; [reflexivity|]. split; [reflexivity|].
    eexists. split; [vm_compute; reflexivity|].
    split; [reflexivity | discriminate].
Qed.

(** C8, amended: when the cookie resolves to a real identifier (split
    field zero), a snapshot is live and the real library has a reply, then:
    if the identifier is the parent identifier, or the own identifier, of
    at least one fake output of the snapshot, the returned reply is the
    real library's reply with its connection state set to DISCONNECTED and
    every other field and every array as they came; if it is neither for
    any fake output, the real reply is returned unmodified.  In a snapshot
    whose fake outputs all carry identifiers with a nonzero split field
    (every plan of fewer than 1024 leaves builds such a one), the
    identifier can only be a parent's: the condition is then the one of the
    claim, being the parent of at least one fake output. *)
Theorem output_info_reply_of_real_output c cookie g item outputId snapshot info :
  AssocList.find cookie (output_info_cookies g) = Some (item, outputId) ->
  fakeScreenResources g = LivePtr snapshot ->
  Z.land outputId XID_SPLIT_MASK = 0 ->
  real_output_info_reply c cookie = Some info ->
  ((exists o, In o (fake_outputs (fakes snapshot))
              /\ (fo_parent_xid o = outputId \/ fo_xid o = outputId)) ->
   snd (xcb_randr_get_output_info_reply c cookie g)
   = Done (Some {| oi_header :=
                     {| oi_response_type := oi_response_type (oi_header info);
                        oi_status := oi_status (oi_header info);
                        oi_sequence := oi_sequence (oi_header info);
                        oi_length := oi_length (oi_header info);
                        oi_timestamp := oi_timestamp (oi_header info);
                        oi_crtc := oi_crtc (oi_header info);
                        oi_mm_width := oi_mm_width (oi_header info);
                        oi_mm_height := oi_mm_height (oi_header info);
                        oi_connection := XCB_RANDR_CONNECTION_DISCONNECTED;
                        oi_subpixel_order := oi_subpixel_order (oi_header info);
                        oi_num_crtcs := oi_num_crtcs (oi_header info);
                        oi_num_modes := oi_num_modes (oi_header info);
                        oi_num_preferred := oi_num_preferred (oi_header info);
                        oi_num_clones := oi_num_clones (oi_header info);
                        oi_name_len := oi_name_len (oi_header info) |};
                   oi_crtcs := oi_crtcs info;
                   oi_modes := oi_modes info;
                   oi_clones := oi_clones info;
                   oi_name := oi_name info;
                   oi_after_name := oi_after_name info |}))
  /\ ((forall o, In o (fake_outputs (fakes snapshot)) ->
                 fo_parent_xid o <> outputId /\ fo_xid o <> outputId) ->
      snd (xcb_randr_get_output_info_reply c cookie g) = Done (Some info))
  /\ (fake_ids_marked snapshot ->
      ((exists o, In o (fake_outputs (fakes snapshot))
                  /\ (fo_parent_xid o = outputId \/ fo_xid o = outputId))
       <-> (exists o, In o (fake_outputs (fakes snapshot)) /\ fo_parent_xid o = outputId)))
  /\ XCB_RANDR_CONNECTION_DISCONNECTED = 1.
Proof.
  intros Hfind Hlive Hreal Hinfo.
  unfold xcb_randr_get_output_info_reply.
  rewrite Hfind. cbn [fakeScreenResources set_output_info_cookies].
  rewrite Hlive, (real_xid_not_fake outputId Hreal), Hinfo. cbn [negb].
  split; [|split; [|split; [|reflexivity]]].
  - intros [o [Hin Hor]].
    assert (E : xid_in_list (fake_outputs (fakes snapshot)) outputId = true).
    { apply xid_in_list_true. exists o. split; [exact Hin | tauto]. }
    rewrite E. reflexivity.
  - intros Hnone.
    destruct (xid_in_list (fake_outputs (fakes snapshot)) outputId) eqn:E; [|reflexivity].
    apply xid_in_list_true in E. destruct E as [o [Hin Hor]].
    destruct (Hnone o Hin) as [Hp Hx]. exfalso. tauto.
  - intros Hmarked. split.
    + intros [o [Hin [Hp | Hx]]]; [exists o; auto|].
      unfold fake_ids_marked in Hmarked. rewrite Forall_forall in Hmarked.
      specialize (Hmarked o Hin). rewrite Hx, (real_xid_not_fake outputId Hreal) in Hmarked.
      discriminate.
    + intros [o [Hin Hp]]. exists o. auto.
Qed.

Lemma output_info_reply_of_real_output_witness :
  (exists r,
     snd (xcb_randr_get_output_info_reply Sample.library 11
            (SampleRun.globals_after_query 0x42)) = Done (Some r)
     /\ oi_connection (oi_header r) = 1
     /\ oi_name r = Sample.bytes "DP-1")
  /\ snd (xcb_randr_get_output_info_reply Sample.library 11 (SampleRun.globals_after_query 0x43))
     = Done (Some Sample.output_info_42).
Proof.
  assert (Hlive : forall xid,
            fakeScreenResources (SampleRun.globals_after_query xid)
            = LivePtr SampleRun.snapshot)
    by (intros xid; vm_compute; reflexivity).
  assert (Hfind : forall xid,
            AssocList.find 11 (output_info_cookies (SampleRun.globals_after_query xid))
            = Some (0%nat, xid))
    by (intros xid; vm_compute; reflexivity).
  assert (Hinfo : real_output_info_reply Sample.library 11 = Some Sample.output_info_42)
    by (vm_compute; reflexivity).
  split.
  - eexists. split.
    + apply (proj1 (output_info_reply_of_real_output
                      Sample.library 11 (SampleRun.globals_after_query 0x42)
                      0%nat 0x42 SampleRun.snapshot Sample.output_info_42
                      (Hfind 0x42) (Hlive 0x42)
                      ltac:(vm_compute; reflexivity) Hinfo)).
      exists (hd (FakeOutputInfo_ctor 0 0 Sample.output_info_42 0 0 0 0 0 [] [])
                 (fake_outputs (fakes SampleRun.snapshot))).
      split; [vm_compute; left; reflexivity | left; vm_compute; reflexivity].
    + split; reflexivity.
  - apply (proj1 (proj2 (output_info_reply_of_real_output
                    Sample.library 11 (SampleRun.globals_after_query 0x43)
                    0%nat 0x43 SampleRun.snapshot Sample.output_info_42
                    (Hfind 0x43) (Hlive 0x43)
                    ltac:(vm_compute; reflexivity) Hinfo))).
    intros o Hin. vm_compute in Hin.
    destruct Hin as [<- | [<- | []]]; vm_compute; split; discriminate.
Defined.

(** ** A rebuild without a configuration *)

(** C1 at its failing input: on the first screen-resources reply fetch of
    a process whose configuration file cannot be read, both entry points
    dereference the null [fakeScreenResources] instead of returning the
    real reply. *)
Theorem rebuild_without_configuration_crashes :
  snd (xcb_randr_get_screen_resources_reply
         100 Sample.env_without_file Sample.library 5 initial_globals)
  = Fault NullDereference
  /\ snd (xcb_randr_get_screen_resources_current_reply
            100 Sample.env_without_file Sample.library 5 initial_globals)
     = Fault NullDereference.
Proof. split; reflexivity. Qed.

(** The same holds in every state and for every way the opening can fail:
    the call ends in a crash, never in a reply. *)
Lemma failed_open_never_returns current fuel env c cookie g :
  snd (open_configuration env (config_mapping g)) <> 0 ->
  exists f, snd (get_screen_resources_reply current fuel env c cookie g) = Fault f.
Proof.
  intros Hfail. unfold get_screen_resources_reply, delete_snapshot.
  assert (Hupd : forall g1, config_mapping g1 = config_mapping g ->
            updateFakeResources fuel env c (real_screen_resources_reply c cookie) current g1
            = (set_config (fst (open_configuration env (config_mapping g))) g1, Done tt)).
  { intros g1 E. unfold updateFakeResources. rewrite E.
    destruct (open_configuration env (config_mapping g)) as [cf rc] eqn:Eo.
    simpl in Hfail |- *.
    destruct cf as [cfg|]; [|reflexivity].
    destruct rc as [| p | p]; [contradiction | reflexivity | reflexivity]. }
  destruct (fakeScreenResources g) eqn:Ep.
  - rewrite Hupd by reflexivity. unfold return_snapshot.
    cbn [fakeScreenResources set_config]. rewrite Ep.
    exists NullDereference. reflexivity.
  - rewrite Hupd by reflexivity. unfold return_snapshot.
    exists UseAfterFree. reflexivity.
  - exists DoubleFree. reflexivity.
Qed.

(** ** The composed screen-resources reply *)

Lemma firstn_Zlength {A} (l : list A) : firstn (Z.to_nat (Zlength' l)) l = l.
Proof. unfold Zlength'. rewrite Nat2Z.id. apply firstn_all. Qed.

Lemma Zlength_app {A} (l1 l2 : list A) : Zlength' (l1 ++ l2) = Zlength' l1 + Zlength' l2.
Proof. unfold Zlength'. rewrite length_app. lia. Qed.

Lemma Zlength_nonneg {A} (l : list A) : 0 <= Zlength' l.
Proof. unfold Zlength'. lia. Qed.

Lemma Zlength_cons {A} (a : A) l : Zlength' (a :: l) = 1 + Zlength' l.
Proof.
  unfold Zlength'. change (length (a :: l)) with (S (length l)).
  rewrite Nat2Z.inj_succ. lia.
Qed.

(** A [uint16_t] count incremented once per element. *)
Lemma count_up {A} (l : list A) n :
  0 <= n -> n + Zlength' l < 2 ^ 16 ->
  fold_left (fun k _ => wrap16 (k + 1)) l n = n + Zlength' l.
Proof.
  revert n. induction l as [| a l IH]; intros n Hn Hb.
  - unfold Zlength'. simpl. lia.
  - rewrite Zlength_cons in *. pose proof (Zlength_nonneg l) as Hl.
    cbn [fold_left].
    rewrite wrap16_small by (unfold is_u16; lia).
    rewrite IH by lia. lia.
Qed.

Lemma cstring_NUL_free bs : NUL_free bs -> cstring bs = bs.
Proof.
  induction 1 as [| b bs Hb _ IH]; simpl; [reflexivity|].
  rewrite Hb, IH. reflexivity.
Qed.

Lemma strcat_all (ms : list FakeModeInfo) buf :
  fold_left (fun b m => strcat b (fm_name m)) ms buf
  = buf ++ flat_map (fun m => cstring (fm_name m)) ms.
Proof.
  revert buf. induction ms as [| m ms IH]; intros buf; simpl.
  - now rewrite app_nil_r.
  - rewrite IH. unfold strcat. now rewrite <- app_assoc.
Qed.

(** C7, as stated, fails: the names are put together with [strcat], which
    starts writing at the first NUL of the real names.  When the real blob
    has a NUL inside (a mode named "a", NUL, "b"), the fake names overwrite
    the rest of it. *)
Lemma reply_names_counterexample :
  well_formed_resources NulName.screen_resources
  /\ exists p,
       snd (xcb_randr_get_screen_resources_reply
              100 Sample.env NulName.library 5 initial_globals) = Done p
       /\ sr_names p = Sample.bytes "a1920x10801920x1080"
       /\ sr_names p
          <> sr_names NulName.screen_resources ++ Sample.bytes "1920x10801920x1080".
Proof.
  split.
  - repeat split.
  - eexists. split; [vm_compute; reflexivity|].
    split; [vm_compute; reflexivity | vm_compute; discriminate].
Qed.

(** C7, amended: when the real name blob holds no NUL byte and the real
    and fake entries together fit the 16-bit count fields, the composed
    reply has the fixed header of the real reply, each of the CRTC, output
    and mode arrays holds the real entries followed by the fake ones, each
    count is the real count plus the number of fake objects, and the names
    are the real name blob followed by the names of the fake modes. *)
Theorem composed_reply_layout r :
  let orig := origRes r in
  let l := fakes r in
  let p := FakeScreenResources_makeReturnValue r in
  well_formed_resources orig ->
  NUL_free (sr_names orig) ->
  Zlength' (sr_crtcs orig) + Zlength' (fake_crtcs l) < 2 ^ 16 ->
  Zlength' (sr_outputs orig) + Zlength' (fake_outputs l) < 2 ^ 16 ->
  Zlength' (sr_modes orig) + Zlength' (fake_modes l) < 2 ^ 16 ->
  Zlength' (sr_names orig) + Zlength' (fake_mode_names l) < 2 ^ 16 ->
  (sr_response_type (sr_header p) = sr_response_type (sr_header orig)
   /\ sr_pad0 (sr_header p) = sr_pad0 (sr_header orig)
   /\ sr_sequence (sr_header p) = sr_sequence (sr_header orig)
   /\ sr_length (sr_header p) = sr_length (sr_header orig)
   /\ sr_timestamp (sr_header p) = sr_timestamp (sr_header orig)
   /\ sr_config_timestamp (sr_header p) = sr_config_timestamp (sr_header orig)
   /\ sr_pad1 (sr_header p) = sr_pad1 (sr_header orig))
  /\ (sr_crtcs p = sr_crtcs orig ++ map fc_xid (fake_crtcs l)
      /\ sr_outputs p = sr_outputs orig ++ map fo_xid (fake_outputs l)
      /\ sr_modes p = sr_modes orig ++ map fm_base (fake_modes l))
  /\ (sr_num_crtcs (sr_header p) = sr_num_crtcs (sr_header orig) + list_length (fake_crtcs l)
      /\ sr_num_outputs (sr_header p)
         = sr_num_outputs (sr_header orig) + list_length (fake_outputs l)
      /\ sr_num_modes (sr_header p) = sr_num_modes (sr_header orig) + list_length (fake_modes l))
  /\ (sr_names p = sr_names orig ++ fake_mode_names l
      /\ sr_names_len (sr_header p) = sr_names_len (sr_header orig) + Zlength' (fake_mode_names l)).
Proof.
  intros orig l p [Hc [Ho [Hm Hn]]] Hnul Bc Bo Bm Bn.
  subst p. unfold FakeScreenResources_makeReturnValue.
  fold orig. fold l. cbn [sr_header sr_crtcs sr_outputs sr_modes sr_names
    sr_response_type sr_pad0 sr_sequence sr_length sr_timestamp sr_config_timestamp
    sr_num_crtcs sr_num_outputs sr_num_modes sr_names_len sr_pad1].
  rewrite Hc, Ho, Hm, Hn, !firstn_Zlength.
  rewrite !count_up by (auto using Zlength_nonneg).
  rewrite strcat_all, (cstring_NUL_free _ Hnul).
  fold (fake_mode_names l).
  rewrite wrap16_small
    by (unfold is_u16; rewrite Zlength_app;
        pose proof (Zlength_nonneg (sr_names orig));
        pose proof (Zlength_nonneg (fake_mode_names l)); lia).
  rewrite firstn_Zlength, Zlength_app.
  unfold list_length. repeat split; reflexivity.
Qed.

Lemma composed_reply_layout_witness :
  sr_crtcs (FakeScreenResources_makeReturnValue SampleRun.snapshot) = [0x3f; 0x20003f; 0x40003f]
  /\ sr_num_crtcs (sr_header (FakeScreenResources_makeReturnValue SampleRun.snapshot)) = 3
  /\ sr_names (FakeScreenResources_makeReturnValue SampleRun.snapshot)
     = Sample.bytes "3840x10801920x10801920x1080".
Proof.
  pose proof (composed_reply_layout SampleRun.snapshot
                ltac:(vm_compute; repeat split)
                ltac:(unfold NUL_free; forall_by_evaluation)
                ltac:(vm_compute; reflexivity) ltac:(vm_compute; reflexivity)
                ltac:(vm_compute; reflexivity) ltac:(vm_compute; reflexivity))
    as [_ [[Hc _] [[Hn _] [Hs _]]]].
  split; [rewrite Hc; vm_compute; reflexivity|].
  split; [rewrite Hn; vm_compute; reflexivity|].
  rewrite Hs. vm_compute. reflexivity.
Defined.

(** ** Reading the mapped bytes *)

Lemma byte_val_of_Z z : byte_val (byte_of_Z z) = z mod 256.
Proof.
  unfold byte_val, byte_of_Z.
  assert (Hr : 0 <= z mod 256 < 256) by (apply Z.mod_pos_bound; lia).
  destruct (Byte.of_N (Z.to_N (z mod 256))) as [b|] eqn:E.
  - apply Byte.to_of_N in E. rewrite E. rewrite Z2N.id; lia.
  - apply Byte.of_N_None_iff in E. lia.
Qed.

Lemma read_u8_at (pre post : list byte) b :
  read_u8 (pre ++ b :: post) (Zlength' pre) = Some b.
Proof.
  unfold read_u8, Zlength'.
  destruct (Z.ltb_spec (Z.of_nat (length pre)) 0); [lia|].
  rewrite Nat2Z.id, nth_error_app2 by lia.
  now rewrite Nat.sub_diag.
Qed.

Lemma read_u8_in (pre bs post : list byte) (k : Z) b :
  0 <= k ->
  nth_error bs (Z.to_nat k) = Some b ->
  read_u8 (pre ++ bs ++ post) (Zlength' pre + k) = Some b.
Proof.
  intros Hk0 Hk. unfold read_u8, Zlength'.
  destruct (Z.ltb_spec (Z.of_nat (length pre) + k) 0); [lia|].
  replace (Z.to_nat (Z.of_nat (length pre) + k)) with (length pre + Z.to_nat k)%nat by lia.
  rewrite nth_error_app2 by lia.
  replace (length pre + Z.to_nat k - length pre)%nat with (Z.to_nat k) by lia.
  rewrite nth_error_app1; [exact Hk|].
  apply nth_error_Some. congruence.
Qed.

Lemma le32_value z :
  z mod 256 + 2 ^ 8 * ((z / 2 ^ 8) mod 256) + 2 ^ 16 * ((z / 2 ^ 16) mod 256)
  + 2 ^ 24 * ((z / 2 ^ 24) mod 256) = wrap32 z.
Proof.
  unfold wrap32.
  change (2 ^ 32) with (256 * (256 * (256 * 256))).
  change (2 ^ 24) with (256 * (256 * 256)).
  change (2 ^ 16) with (256 * 256).
  change (2 ^ 8) with 256.
  rewrite (Z.rem_mul_r z 256 (256 * (256 * 256))) by lia.
  rewrite (Z.rem_mul_r (z / 256) 256 (256 * 256)) by lia.
  rewrite (Z.rem_mul_r (z / 256 / 256) 256 256) by lia.
  rewrite <- !Z.div_div by lia.
  ring.
Qed.

Lemma read_u32_of_bytes (pre post : list byte) b0 b1 b2 b3 :
  read_u32 (pre ++ [b0; b1; b2; b3] ++ post) (Zlength' pre)
  = Some (byte_val b0 + 2 ^ 8 * byte_val b1 + 2 ^ 16 * byte_val b2 + 2 ^ 24 * byte_val b3).
Proof.
  unfold read_u32.
  rewrite <- (Z.add_0_r (Zlength' pre)) at 1.
  rewrite (read_u8_in pre [b0; b1; b2; b3] post 0 b0 ltac:(lia) eq_refl).
  rewrite (read_u8_in pre [b0; b1; b2; b3] post 1 b1 ltac:(lia) eq_refl).
  rewrite (read_u8_in pre [b0; b1; b2; b3] post 2 b2 ltac:(lia) eq_refl).
  rewrite (read_u8_in pre [b0; b1; b2; b3] post 3 b3 ltac:(lia) eq_refl).
  reflexivity.
Qed.

Lemma read_u32_at (pre post : list byte) z :
  read_u32 (pre ++ le32 z ++ post) (Zlength' pre) = Some (wrap32 z).
Proof.
  unfold le32. rewrite read_u32_of_bytes.
  rewrite !byte_val_of_Z. f_equal. apply le32_value.
Qed.

Lemma Zlength_le32 z : Zlength' (le32 z) = 4.
Proof. reflexivity. Qed.

(** ** The traversal reads a serialised plan as the tree it spells *)

(** Two ways of bracketing the same sequence of bytes. *)
Ltac same_bytes :=
  repeat first [rewrite <- app_assoc | rewrite <- app_comm_cons]; reflexivity.

Lemma split_layout_offset (pre post a b : list byte) tag z :
  pre ++ (tag :: le32 z ++ a ++ b) ++ post = (pre ++ [tag]) ++ le32 z ++ (a ++ b ++ post).
Proof. same_bytes. Qed.

Lemma split_layout_first (pre post a b : list byte) tag z :
  pre ++ (tag :: le32 z ++ a ++ b) ++ post = (pre ++ tag :: le32 z) ++ a ++ (b ++ post).
Proof. same_bytes. Qed.

Lemma split_layout_second (pre post a b : list byte) tag z :
  pre ++ (tag :: le32 z ++ a ++ b) ++ post = (pre ++ tag :: le32 z ++ a) ++ b ++ post.
Proof. same_bytes. Qed.

Lemma split_header (pre post a b : list byte) tag z :
  read_u8 (pre ++ (tag :: le32 z ++ a ++ b) ++ post) (Zlength' pre) = Some tag
  /\ read_u32 (pre ++ (tag :: le32 z ++ a ++ b) ++ post) (Zlength' pre + 1) = Some (wrap32 z).
Proof.
  split.
  - simpl. apply read_u8_at.
  - rewrite split_layout_offset.
    replace (Zlength' pre + 1) with (Zlength' (pre ++ [tag]))
      by (rewrite Zlength_app; reflexivity).
    apply read_u32_at.
Qed.

Lemma offset_of_first (pre : list byte) tag z :
  Zlength' pre + 1 + 4 = Zlength' (pre ++ tag :: le32 z).
Proof. rewrite Zlength_app, Zlength_cons, Zlength_le32. lia. Qed.

Lemma offset_of_second (pre a : list byte) tag z :
  Zlength' (pre ++ tag :: le32 z) + Zlength' a = Zlength' (pre ++ tag :: le32 z ++ a).
Proof. rewrite !Zlength_app, !Zlength_cons, Zlength_app, Zlength_le32. lia. Qed.

Lemma offset_after_split (pre a b : list byte) tag z :
  Zlength' (pre ++ tag :: le32 z ++ a) + Zlength' b
  = Zlength' pre + Zlength' (tag :: le32 z ++ a ++ b).
Proof.
  rewrite !Zlength_app, !Zlength_cons, !Zlength_app, Zlength_le32. lia.
Qed.

Lemma traversal_of_encoding p :
  forall fuel pre post t x y width height s,
    (depth p <= fuel)%nat ->
    _config_foreach_split fuel (pre ++ encode_plan p ++ post) t (Zlength' pre)
                          x y width height s
    = located (Zlength' pre + Zlength' (encode_plan p)) (walk_plan t p x y width height s).
Proof.
  induction p as [| z a IHa b IHb | z a IHa b IHb];
    intros fuel pre post t x y width height s Hfuel;
    (destruct fuel as [| fuel]; [simpl in Hfuel; lia|]).
  - simpl. rewrite read_u8_at. simpl.
    destruct (define_fakes t x y width height s) as [s' [u | f |]]; reflexivity.
  - simpl in Hfuel.
    cbn [_config_foreach_split encode_plan walk_plan].
    destruct (split_header pre post (encode_plan a) (encode_plan b) "H"%byte z) as [Et Ez].
    rewrite Et, Ez. cbn [Byte.eqb]. cbv beta iota.
    change (Byte.eqb "H" "N") with false. change (Byte.eqb "H" "H") with true.
    cbv iota.
    rewrite split_layout_first, (offset_of_first pre "H"%byte z).
    rewrite IHa by lia.
    destruct (walk_plan t a x y width (wrap32 z) s) as [s1 [u | f |]];
      unfold located at 1; cbn [fst snd]; try reflexivity.
    rewrite offset_of_second.
    rewrite <- split_layout_first, split_layout_second.
    rewrite IHb by lia.
    rewrite offset_after_split. reflexivity.
  - simpl in Hfuel.
    cbn [_config_foreach_split encode_plan walk_plan].
    destruct (split_header pre post (encode_plan a) (encode_plan b) "V"%byte z) as [Et Ez].
    rewrite Et, Ez. cbv beta iota.
    change (Byte.eqb "V" "N") with false. change (Byte.eqb "V" "H") with false.
    change (Byte.eqb "V" "V") with true.
    cbv iota.
    rewrite split_layout_first, (offset_of_first pre "V"%byte z).
    rewrite IHa by lia.
    destruct (walk_plan t a x y (wrap32 z) height s) as [s1 [u | f |]];
      unfold located at 1; cbn [fst snd]; try reflexivity.
    rewrite offset_of_second.
    rewrite <- split_layout_first, split_layout_second.
    rewrite IHb by lia.
    rewrite offset_after_split. reflexivity.
Qed.

(** ** What a leaf and a whole plan append to the lists *)

Lemma define_fakes_spec t x y width height s :
  has_area t ->
  exists s' o c,
    define_fakes t x y width height s = (s', Done tt)
    /\ counter s' = wrap32 (counter s + 1)
    /\ fake_outputs (lists s') = fake_outputs (lists s) ++ [o]
    /\ fake_crtcs (lists s') = fake_crtcs (lists s) ++ [c]
    /\ length (fake_modes (lists s')) = (length (fake_modes (lists s)) + modes_for t 1)%nat
    /\ fo_xid o = augmentXID (output t) (counter s')
    /\ fo_parent_xid o = output t
    /\ output_physical_size o = physical_size t (rect_of x y width height)
    /\ crtc_rect c = placed t (rect_of x y width height).
Proof.
  intros [Hw Hh]. unfold define_fakes, modes_for.
  apply Z.eqb_neq in Hw, Hh. rewrite Hw, Hh. cbn [orb].
  eexists. eexists. eexists. split; [reflexivity|].
  cbn [counter lists].
  destruct (find_mode (resources t) (ci_mode (crtc_info t)));
    cbn [append_mode append_crtc append_output fake_outputs fake_crtcs fake_modes];
    repeat split; try reflexivity.
  - rewrite length_app. reflexivity.
  - lia.
Qed.

Lemma walk_plan_spec p :
  forall t x y width height s,
    has_area t ->
    exists s' os cs,
      walk_plan t p x y width height s = (s', Done tt)
      /\ fake_outputs (lists s') = fake_outputs (lists s) ++ os
      /\ fake_crtcs (lists s') = fake_crtcs (lists s) ++ cs
      /\ length (fake_modes (lists s'))
         = (length (fake_modes (lists s)) + modes_for t (leaf_count p))%nat
      /\ length os = leaf_count p
      /\ length cs = leaf_count p
      /\ map output_physical_size os = map (physical_size t) (leaf_rects p x y width height)
      /\ map crtc_rect cs = map (placed t) (leaf_rects p x y width height)
      /\ Forall (fun o => fo_parent_xid o = output t) os.
Proof.
  assert (Hmodes : forall t m n, modes_for t (m + n) = (modes_for t m + modes_for t n)%nat).
  { intros t m n. unfold modes_for. destruct (find_mode _ _); lia. }
  induction p as [| z a IHa b IHb | z a IHa b IHb]; intros t x y width height s Ht.
  - destruct (define_fakes_spec t x y width height s Ht)
      as [s' [o [c [E [_ [Ho [Hc [Hm [_ [Hp [Hs Hr]]]]]]]]]]].
    exists s', [o], [c]. cbn [walk_plan leaf_count leaf_rects map length].
    repeat split; auto. 
    + now rewrite Hs.
    + now rewrite Hr.
  - cbn [walk_plan leaf_count leaf_rects].
    destruct (IHa t x y width (wrap32 z) s Ht)
      as [s1 [os1 [cs1 [E1 [Ho1 [Hc1 [Hm1 [Lo1 [Lc1 [Hs1 [Hr1 Hp1]]]]]]]]]]].
    rewrite E1.
    destruct (IHb t x (wrap32 (y + wrap32 z)) width (wrap32 (height - wrap32 z)) s1 Ht)
      as [s2 [os2 [cs2 [E2 [Ho2 [Hc2 [Hm2 [Lo2 [Lc2 [Hs2 [Hr2 Hp2]]]]]]]]]]].
    exists s2, (os1 ++ os2), (cs1 ++ cs2).
    rewrite E2, Ho2, Ho1, Hc2, Hc1, Hm2, Hm1, Hmodes, !map_app, !length_app, <- !app_assoc.
    rewrite Hs1, Hs2, Hr1, Hr2, Lo1, Lo2, Lc1, Lc2.
    repeat split; try reflexivity; try lia.
    apply Forall_app. split; assumption.
  - cbn [walk_plan leaf_count leaf_rects].
    destruct (IHa t x y (wrap32 z) height s Ht)
      as [s1 [os1 [cs1 [E1 [Ho1 [Hc1 [Hm1 [Lo1 [Lc1 [Hs1 [Hr1 Hp1]]]]]]]]]]].
    rewrite E1.
    destruct (IHb t (wrap32 (x + wrap32 z)) y (wrap32 (width - wrap32 z)) height s1 Ht)
      as [s2 [os2 [cs2 [E2 [Ho2 [Hc2 [Hm2 [Lo2 [Lc2 [Hs2 [Hr2 Hp2]]]]]]]]]]].
    exists s2, (os1 ++ os2), (cs1 ++ cs2).
    rewrite E2, Ho2, Ho1, Hc2, Hc1, Hm2, Hm1, Hmodes, !map_app, !length_app, <- !app_assoc.
    rewrite Hs1, Hs2, Hr1, Hr2, Lo1, Lo2, Lc1, Lc2.
    repeat split; try reflexivity; try lia.
    apply Forall_app. split; assumption.
Qed.

Lemma traversal_completes p fuel pre post t x y width height s :
  has_area t ->
  (depth p <= fuel)%nat ->
  exists s' os cs,
    _config_foreach_split fuel (pre ++ encode_plan p ++ post) t (Zlength' pre)
                          x y width height s
    = (s', Done (Zlength' pre + Zlength' (encode_plan p)))
    /\ fake_outputs (lists s') = fake_outputs (lists s) ++ os
    /\ fake_crtcs (lists s') = fake_crtcs (lists s) ++ cs
    /\ length (fake_modes (lists s'))
       = (length (fake_modes (lists s)) + modes_for t (leaf_count p))%nat
    /\ length os = leaf_count p
    /\ length cs = leaf_count p
    /\ map output_physical_size os = map (physical_size t) (leaf_rects p x y width height)
    /\ map crtc_rect cs = map (placed t) (leaf_rects p x y width height)
    /\ Forall (fun o => fo_parent_xid o = output t) os.
Proof.
  intros Ht Hfuel.
  destruct (walk_plan_spec p t x y width height s Ht) as [s' [os [cs [E H]]]].
  exists s', os, cs. split; [|exact H].
  rewrite traversal_of_encoding by exact Hfuel.
  rewrite E. reflexivity.
Qed.

(** ** Rectangles *)

Lemma tiles_one r : tiles [r] r.
Proof.
  split.
  - intros px py. split.
    + intros H. exists r. split; [now left | exact H].
    + intros [q [[<- | []] H]]. exact H.
  - intros i j q1 q2 px py Hi Hj Hij _ _.
    destruct i as [| i]; destruct j as [| j]; try congruence.
    + destruct j; discriminate.
    + destruct i; discriminate.
    + destruct i; discriminate.
Qed.

Lemma tiles_app l1 l2 r1 r2 r :
  tiles l1 r1 -> tiles l2 r2 ->
  (forall px py, covers r px py <-> covers r1 px py \/ covers r2 px py) ->
  (forall px py, covers r1 px py -> covers r2 px py -> False) ->
  tiles (l1 ++ l2) r.
Proof.
  intros [U1 D1] [U2 D2] Hsplit Hapart. split.
  - intros px py. rewrite Hsplit, U1, U2. split.
    + intros [[q [Hin H]] | [q [Hin H]]]; exists q; (split; [apply in_or_app; auto | exact H]).
    + intros [q [Hin H]]. apply in_app_or in Hin. destruct Hin; [left | right]; eauto.
  - intros i j q1 q2 px py Hi Hj Hij C1 C2.
    destruct (Nat.lt_ge_cases i (length l1)) as [Li | Li];
      destruct (Nat.lt_ge_cases j (length l1)) as [Lj | Lj].
    + rewrite nth_error_app1 in Hi, Hj by assumption.
      exact (D1 i j q1 q2 px py Hi Hj Hij C1 C2).
    + rewrite nth_error_app1 in Hi by assumption.
      rewrite nth_error_app2 in Hj by assumption.
      apply (Hapart px py).
      * apply U1. exists q1. split; [eapply nth_error_In; eassumption | exact C1].
      * apply U2. exists q2. split; [eapply nth_error_In; eassumption | exact C2].
    + rewrite nth_error_app2 in Hi by assumption.
      rewrite nth_error_app1 in Hj by assumption.
      apply (Hapart px py).
      * apply U1. exists q2. split; [eapply nth_error_In; eassumption | exact C2].
      * apply U2. exists q1. split; [eapply nth_error_In; eassumption | exact C1].
    + rewrite nth_error_app2 in Hi, Hj by assumption.
      apply (D2 (i - length l1)%nat (j - length l1)%nat q1 q2 px py Hi Hj); [lia | assumption..].
Qed.

Lemma tiles_moved dx dy l r :
  tiles l r -> tiles (map (moved dx dy) l) (moved dx dy r).
Proof.
  assert (Hc : forall q px py, covers (moved dx dy q) px py <-> covers q (px - dx) (py - dy)).
  { intros q px py. unfold covers, moved. simpl. lia. }
  intros [U D]. split.
  - intros px py. rewrite Hc, U. split.
    + intros [q [Hin H]]. exists (moved dx dy q). split; [now apply in_map | now apply Hc].
    + intros [q' [Hin H]]. apply in_map_iff in Hin. destruct Hin as [q [<- Hin]].
      exists q. split; [exact Hin | now apply Hc].
  - intros i j q1 q2 px py Hi Hj Hij C1 C2.
    rewrite nth_error_map in Hi, Hj.
    destruct (nth_error l i) as [a |] eqn:Ea; [|discriminate].
    destruct (nth_error l j) as [b |] eqn:Eb; [|discriminate].
    injection Hi as <-. injection Hj as <-.
    apply Hc in C1, C2.
    exact (D i j a b _ _ Ea Eb Hij C1 C2).
Qed.

Lemma inside_trans a b c : inside a b -> inside b c -> inside a c.
Proof. unfold inside. lia. Qed.

(** The leaf rectangles of a plan whose offsets fit tile the rectangle
    and lie inside it. *)
Lemma leaf_rects_tile p :
  forall x y width height,
    fits p width height = true ->
    0 <= x -> 0 <= y -> 0 <= width -> 0 <= height ->
    x + width < 2 ^ 32 -> y + height < 2 ^ 32 ->
    tiles (leaf_rects p x y width height) (rect_of x y width height)
    /\ Forall (inside (rect_of x y width height)) (leaf_rects p x y width height).
Proof.
  induction p as [| z a IHa b IHb | z a IHa b IHb];
    intros x y width height Hfit Hx Hy Hw Hh Bx By.
  - split; [apply tiles_one|].
    constructor; [|constructor]. unfold inside, rect_of. simpl. lia.
  - cbn [fits] in Hfit. apply andb_prop in Hfit. destruct Hfit as [Hfit Fb].
    apply andb_prop in Hfit. destruct Hfit as [Hfit Fa].
    apply andb_prop in Hfit. destruct Hfit as [Z0 Zh].
    apply Z.leb_le in Z0, Zh.
    cbn [leaf_rects].
    rewrite (wrap32_small z) by (unfold is_u32; lia).
    rewrite (wrap32_small (y + z)) by (unfold is_u32; lia).
    rewrite (wrap32_small (height - z)) by (unfold is_u32; lia).
    destruct (IHa x y width z Fa) as [Ta Ia]; try lia.
    destruct (IHb x (y + z) width (height - z) Fb) as [Tb Ib]; try lia.
    split.
    + apply (tiles_app _ _ _ _ _ Ta Tb); unfold covers, rect_of; simpl; intros; lia.
    + apply Forall_app. split.
      * eapply Forall_impl; [|exact Ia]. intros q. apply inside_trans.
        unfold inside, rect_of. simpl. lia.
      * eapply Forall_impl; [|exact Ib]. intros q. apply inside_trans.
        unfold inside, rect_of. simpl. lia.
  - cbn [fits] in Hfit. apply andb_prop in Hfit. destruct Hfit as [Hfit Fb].
    apply andb_prop in Hfit. destruct Hfit as [Hfit Fa].
    apply andb_prop in Hfit. destruct Hfit as [Z0 Zw].
    apply Z.leb_le in Z0, Zw.
    cbn [leaf_rects].
    rewrite (wrap32_small z) by (unfold is_u32; lia).
    rewrite (wrap32_small (x + z)) by (unfold is_u32; lia).
    rewrite (wrap32_small (width - z)) by (unfold is_u32; lia).
    destruct (IHa x y z height Fa) as [Ta Ia]; try lia.
    destruct (IHb (x + z) y (width - z) height Fb) as [Tb Ib]; try lia.
    split.
    + apply (tiles_app _ _ _ _ _ Ta Tb); unfold covers, rect_of; simpl; intros; lia.
    + apply Forall_app. split.
      * eapply Forall_impl; [|exact Ia]. intros q. apply inside_trans.
        unfold inside, rect_of. simpl. lia.
      * eapply Forall_impl; [|exact Ib]. intros q. apply inside_trans.
        unfold inside, rect_of. simpl. lia.
Qed.

(** ** One output, one CRTC and one mode per leaf *)

(** C4, as stated, fails: the fake mode of a leaf is a copy of the entry of
    the mode table whose id is the mode of the parent CRTC, and a leaf gets
    no mode when the table has no such entry.  Here the plan has two
    leaves; two outputs and two CRTCs come out, and no mode. *)
Lemma leaf_triples_counterexample :
  leaf_count Sample.two_halves = 2%nat
  /\ exists s' after,
       _config_foreach_split 10 (encode_plan Sample.two_halves)
                             SampleVariants.target_without_mode 0 0 0 3840 1080 Sample.start
       = (s', Done after)
       /\ length (fake_outputs (lists s')) = 2%nat
       /\ length (fake_crtcs (lists s')) = 2%nat
       /\ length (fake_modes (lists s')) = 0%nat.
Proof.
  split; [reflexivity|].
  eexists. eexists. split; [vm_compute; reflexivity|].
  repeat split.
Qed.

(** C4, amended: for every plan with L leaves applied to a monitor whose
    CRTC has a nonzero width and height, the traversal of the serialised
    plan completes and appends exactly L fake outputs and exactly L fake
    CRTCs; it appends exactly L fake modes when the mode of the parent CRTC
    is listed in the real mode table, and no fake mode when it is not. *)
Theorem one_object_per_leaf p fuel pre post t x y width height s :
  has_area t ->
  (depth p <= fuel)%nat ->
  exists s' after,
    _config_foreach_split fuel (pre ++ encode_plan p ++ post) t (Zlength' pre)
                          x y width height s
    = (s', Done after)
    /\ length (fake_outputs (lists s'))
       = (length (fake_outputs (lists s)) + leaf_count p)%nat
    /\ length (fake_crtcs (lists s'))
       = (length (fake_crtcs (lists s)) + leaf_count p)%nat
    /\ length (fake_modes (lists s'))
       = (length (fake_modes (lists s))
          + match find_mode (resources t) (ci_mode (crtc_info t)) with
            | Some _ => leaf_count p
            | None => 0
            end)%nat.
Proof.
  intros Ht Hfuel.
  destruct (traversal_completes p fuel pre post t x y width height s Ht Hfuel)
    as [s' [os [cs [E [Ho [Hc [Hm [Lo [Lc _]]]]]]]]].
  exists s', (Zlength' pre + Zlength' (encode_plan p)).
  split; [exact E|].
  rewrite Ho, Hc, Hm, !length_app, Lo, Lc. repeat split.
Qed.

Lemma one_object_per_leaf_witness :
  exists s' after,
    _config_foreach_split 2 ([] ++ encode_plan Sample.two_halves ++ []) Sample.target
                          (Zlength' (@nil byte)) 0 0 3840 1080 Sample.start
    = (s', Done after)
    /\ length (fake_outputs (lists s')) = (0 + 2)%nat
    /\ length (fake_crtcs (lists s')) = (0 + 2)%nat
    /\ length (fake_modes (lists s')) = (0 + 2)%nat.
Proof.
  apply (one_object_per_leaf Sample.two_halves 2 [] [] Sample.target 0 0 3840 1080 Sample.start).
  - split; vm_compute; discriminate.
  - simpl. lia.
Defined.

(** ** The physical size of a fake output *)

(** C9, as stated, fails: the code scales the width in millimetres by the
    ratio of the widths and the height by the ratio of the heights, not
    both by the ratio of the areas, and each division rounds down.  For the
    left half of the sample monitor (597 mm x 336 mm, 3840x1080) the code
    gives 298 mm x 336 mm; the area ratio 1/2 applied to the sides gives
    298 mm x 168 mm, and applied to the area gives 100296 square
    millimetres, not the 298 * 336 = 100128 of the code. *)
Lemma physical_size_counterexample :
  exists s' after o1 o2,
    _config_foreach_split 10 (encode_plan Sample.two_halves) Sample.target
                          0 0 0 3840 1080 Sample.start
    = (s', Done after)
    /\ fake_outputs (lists s') = [o1; o2]
    /\ map crtc_rect (fake_crtcs (lists s'))
       = [rect_of 0 0 1920 1080; rect_of 1920 0 1920 1080]
    /\ output_physical_size o1 = (298, 336)
    /\ output_physical_size o1
       <> (apportion_by_area 597 1920 1080 3840 1080, apportion_by_area 336 1920 1080 3840 1080)
    /\ fst (output_physical_size o1) * snd (output_physical_size o1)
       <> apportion_by_area (597 * 336) 1920 1080 3840 1080.
Proof.
  eexists. eexists. eexists. eexists.
  split; [vm_compute; reflexivity|].
  split; [reflexivity|].
  split; [reflexivity|].
  split; [reflexivity|].
  split; vm_compute; discriminate.
Qed.

(** C9, amended: for the leaf of rectangle w x h of a plan applied to a
    parent CRTC of nonzero size parentW x parentH, the fake output has the
    width [(mm_width * w mod 2^32) / parentW] and the height
    [(mm_height * h mod 2^32) / parentH] in millimetres, the divisions
    rounding down: each side of the parent's physical size is scaled by
    the ratio of that side alone. *)
Theorem leaf_physical_sizes p fuel pre post t x y width height s :
  has_area t ->
  (depth p <= fuel)%nat ->
  exists s' after os,
    _config_foreach_split fuel (pre ++ encode_plan p ++ post) t (Zlength' pre)
                          x y width height s
    = (s', Done after)
    /\ fake_outputs (lists s') = fake_outputs (lists s) ++ os
    /\ map output_physical_size os
       = map (fun q =>
                (wrap32 (oi_mm_width (oi_header (output_info t)) * rw q)
                 / ci_width (crtc_info t),
                 wrap32 (oi_mm_height (oi_header (output_info t)) * rh q)
                 / ci_height (crtc_info t)))
             (leaf_rects p x y width height).
Proof.
  intros Ht Hfuel.
  destruct (traversal_completes p fuel pre post t x y width height s Ht Hfuel)
    as [s' [os [cs [E [Ho [_ [_ [_ [_ [Hs _]]]]]]]]]].
  exists s', (Zlength' pre + Zlength' (encode_plan p)), os.
  repeat split; assumption.
Qed.

Lemma leaf_physical_sizes_witness :
  exists s' after os,
    _config_foreach_split 2 ([] ++ encode_plan Sample.two_halves ++ []) Sample.target
                          (Zlength' (@nil byte)) 0 0 3840 1080 Sample.start
    = (s', Done after)
    /\ fake_outputs (lists s') = fake_outputs (lists Sample.start) ++ os
    /\ map output_physical_size os
       = map (fun q =>
                (wrap32 (oi_mm_width (oi_header (output_info Sample.target)) * rw q)
                 / ci_width (crtc_info Sample.target),
                 wrap32 (oi_mm_height (oi_header (output_info Sample.target)) * rh q)
                 / ci_height (crtc_info Sample.target)))
             (leaf_rects Sample.two_halves 0 0 3840 1080).
Proof.
  apply (leaf_physical_sizes Sample.two_halves 2 [] [] Sample.target 0 0 3840 1080 Sample.start).
  - split; vm_compute; discriminate.
  - simpl. lia.
Defined.

(** ** The leaves tile the rectangle *)

Lemma placed_inside t x y width height q :
  is_i16 (ci_x (crtc_info t)) -> is_i16 (ci_y (crtc_info t)) ->
  0 <= x -> 0 <= y ->
  - 2 ^ 15 <= ci_x (crtc_info t) + x -> ci_x (crtc_info t) + x + width < 2 ^ 15 ->
  - 2 ^ 15 <= ci_y (crtc_info t) + y -> ci_y (crtc_info t) + y + height < 2 ^ 15 ->
  inside (rect_of x y width height) q ->
  placed t q = moved (ci_x (crtc_info t)) (ci_y (crtc_info t)) q.
Proof.
  unfold is_i16, inside, rect_of, placed, moved. simpl.
  intros Hcx Hcy Hx Hy Bx1 Bx2 By1 By2 Hin.
  rewrite !to_int16_wrap32.
  rewrite !to_int16_small by (unfold is_i16; lia).
  rewrite !wrap16_small by (unfold is_u16; lia).
  reflexivity.
Qed.

(** C3, as stated, fails: the traversal does not compare an offset with
    the side it cuts.  A horizontal split at 2000 of the 3840x1080
    rectangle gives the leaves (0,0,3840,2000) and (0,2000,3840,h) with
    h = 1080 - 2000 wrapped to 32 bits (and to 16 bits in the fake CRTC);
    they reach far below the rectangle. *)
Lemma tiling_counterexample :
  leaf_rects SampleVariants.overlong 0 0 3840 1080
  = [rect_of 0 0 3840 2000; rect_of 0 2000 3840 4294966376]
  /\ ~ tiles (leaf_rects SampleVariants.overlong 0 0 3840 1080) (rect_of 0 0 3840 1080)
  /\ exists s' after,
       _config_foreach_split 10 (encode_plan SampleVariants.overlong) Sample.target
                             0 0 0 3840 1080 Sample.start
       = (s', Done after)
       /\ map crtc_rect (fake_crtcs (lists s'))
          = [rect_of 0 0 3840 2000; rect_of 0 2000 3840 64616]
       /\ ~ tiles (map crtc_rect (fake_crtcs (lists s'))) (rect_of 0 0 3840 1080).
Proof.
  assert (Hno : forall q rest, covers q 0 1500 ->
                               ~ tiles (q :: rest) (rect_of 0 0 3840 1080)).
  { intros q rest Hq [U _].
    assert (C : covers (rect_of 0 0 3840 1080) 0 1500).
    { apply U. exists q. split; [now left | exact Hq]. }
    unfold covers, rect_of in C. simpl in C. lia. }
  split; [reflexivity|].
  split.
  - change (leaf_rects SampleVariants.overlong 0 0 3840 1080)
      with [rect_of 0 0 3840 2000; rect_of 0 2000 3840 4294966376].
    apply Hno. unfold covers, rect_of. simpl. lia.
  - eexists. eexists. split; [vm_compute; reflexivity|].
    split; [reflexivity|].
    change (map crtc_rect _) with [rect_of 0 0 3840 2000; rect_of 0 2000 3840 64616].
    apply Hno. unfold covers, rect_of. simpl. lia.
Qed.

(** C3, amended: for every plan each of whose offsets lies within the side
    it cuts, applied to a parent CRTC of nonzero size, and every starting
    rectangle (x, y, w, h) that, moved by the origin of the parent CRTC,
    stays within the signed 16-bit coordinates of a CRTC, the traversal of
    the serialised plan completes, and the rectangles of the fake CRTCs it
    appends tile the starting rectangle (moved by that origin): every point
    of the rectangle is in one of them, every point of one of them is in
    the rectangle, and no point is in two of them. *)
Theorem leaves_tile_rectangle p fuel pre post t x y width height s :
  fits p width height = true ->
  has_area t ->
  is_i16 (ci_x (crtc_info t)) -> is_i16 (ci_y (crtc_info t)) ->
  0 <= x -> 0 <= y -> 0 <= width -> 0 <= height ->
  - 2 ^ 15 <= ci_x (crtc_info t) + x -> ci_x (crtc_info t) + x + width < 2 ^ 15 ->
  - 2 ^ 15 <= ci_y (crtc_info t) + y -> ci_y (crtc_info t) + y + height < 2 ^ 15 ->
  (depth p <= fuel)%nat ->
  exists s' after cs,
    _config_foreach_split fuel (pre ++ encode_plan p ++ post) t (Zlength' pre)
                          x y width height s
    = (s', Done after)
    /\ fake_crtcs (lists s') = fake_crtcs (lists s) ++ cs
    /\ length cs = leaf_count p
    /\ tiles (map crtc_rect cs)
             (rect_of (ci_x (crtc_info t) + x) (ci_y (crtc_info t) + y) width height).
Proof.
  intros Hfit Ht Hcx Hcy Hx Hy Hw Hh Bx1 Bx2 By1 By2 Hfuel.
  destruct (traversal_completes p fuel pre post t x y width height s Ht Hfuel)
    as [s' [os [cs [E [_ [Hc [_ [_ [Lc [_ [Hr _]]]]]]]]]]].
  exists s', (Zlength' pre + Zlength' (encode_plan p)), cs.
  split; [exact E|]. split; [exact Hc|]. split; [exact Lc|].
  unfold is_i16 in Hcx, Hcy.
  destruct (leaf_rects_tile p x y width height Hfit) as [T I]; try lia.
  rewrite Hr.
  assert (Em : map (placed t) (leaf_rects p x y width height)
               = map (moved (ci_x (crtc_info t)) (ci_y (crtc_info t)))
                     (leaf_rects p x y width height)).
  { apply map_ext_in. intros q Hq. rewrite Forall_forall in I.
    apply (placed_inside t x y width height); auto. }
  rewrite Em.
  apply (tiles_moved (ci_x (crtc_info t)) (ci_y (crtc_info t))) in T.
  exact T.
Qed.

Lemma leaves_tile_rectangle_witness :
  exists s' after cs,
    _config_foreach_split 2 ([] ++ encode_plan Sample.two_halves ++ []) Sample.target
                          (Zlength' (@nil byte)) 0 0 3840 1080 Sample.start
    = (s', Done after)
    /\ fake_crtcs (lists s') = fake_crtcs (lists Sample.start) ++ cs
    /\ length cs = leaf_count Sample.two_halves
    /\ tiles (map crtc_rect cs)
             (rect_of (ci_x (crtc_info Sample.target) + 0)
                      (ci_y (crtc_info Sample.target) + 0) 3840 1080).
Proof.
  apply (leaves_tile_rectangle Sample.two_halves 2 [] [] Sample.target
                               0 0 3840 1080 Sample.start).
  - reflexivity.
  - split; vm_compute; discriminate.
  - unfold is_i16. simpl. lia.
  - unfold is_i16. simpl. lia.
  - lia.
  - lia.
  - lia.
  - lia.
  - simpl. lia.
  - simpl. lia.
  - simpl. lia.
  - simpl. lia.
  - simpl. lia.
Defined.

(** ** Payloads with an unknown tag *)

Lemma read_u32_some (pre post : list byte) :
  (4 <= length post)%nat -> exists v, read_u32 (pre ++ post) (Zlength' pre) = Some v.
Proof.
  intros H.
  destruct post as [| b0 [| b1 [| b2 [| b3 rest]]]]; simpl in H; try lia.
  change (b0 :: b1 :: b2 :: b3 :: rest) with ([b0; b1; b2; b3] ++ rest).
  rewrite read_u32_of_bytes. eauto.
Qed.

Lemma node_header (pre rest : list byte) tag z :
  read_u8 (pre ++ tag :: le32 z ++ rest) (Zlength' pre) = Some tag
  /\ read_u32 (pre ++ tag :: le32 z ++ rest) (Zlength' pre + 1) = Some (wrap32 z).
Proof.
  split.
  - apply read_u8_at.
  - change (pre ++ tag :: le32 z ++ rest) with (pre ++ [tag] ++ le32 z ++ rest).
    rewrite app_assoc.
    replace (Zlength' pre + 1) with (Zlength' (pre ++ [tag]))
      by (rewrite Zlength_app; reflexivity).
    apply read_u32_at.
Qed.

Lemma node_children (pre rest : list byte) tag z :
  pre ++ tag :: le32 z ++ rest = (pre ++ tag :: le32 z) ++ rest.
Proof. rewrite <- app_assoc. reflexivity. Qed.

Lemma split_tag_unfolds hz :
  Byte.eqb (split_tag hz) "N" = false
  /\ Byte.eqb (split_tag hz) "H" = hz
  /\ (hz = false -> Byte.eqb (split_tag hz) "V" = true).
Proof. destruct hz; repeat split; intros; try reflexivity; discriminate. Qed.

(** C5, amended: for every payload that contains a node whose tag is none
    of the leaf, horizontal-split and vertical-split tags, applied to a
    monitor whose CRTC has a nonzero size, the traversal stops at the first
    such node in document order on a failed assertion, which ends the
    process; it is not an error that the caller could handle.  By then the
    fake outputs and CRTCs of the leaves that come before that node have
    been appended, one per leaf, and nothing is appended for what comes
    after it.  (The four bytes after a tag are read before the tag is
    judged, so they have to be readable.) *)
Theorem unknown_tag_aborts b :
  forall fuel pre post t x y width height s,
    bad_tags_unknown b = true ->
    has_area t ->
    (4 <= length post)%nat ->
    (broken_depth b <= fuel)%nat ->
    exists s',
      _config_foreach_split fuel (pre ++ encode_broken b ++ post) t (Zlength' pre)
                            x y width height s
      = (s', Fault AssertionFailed)
      /\ length (fake_outputs (lists s'))
         = (length (fake_outputs (lists s)) + leaves_before b)%nat
      /\ length (fake_crtcs (lists s'))
         = (length (fake_crtcs (lists s)) + leaves_before b)%nat.
Proof.
  induction b as [tag | hz z first IH | hz z first second IH];
    intros fuel pre post t x y width height s Hbad Ht Hpost Hfuel;
    (destruct fuel as [| fuel]; [simpl in Hfuel; lia|]).
  - cbn [bad_tags_unknown known_tag] in Hbad.
    apply negb_true_iff in Hbad.
    apply orb_false_elim in Hbad. destruct Hbad as [Hbad HV].
    apply orb_false_elim in Hbad. destruct Hbad as [HN HH].
    exists s. cbn [_config_foreach_split encode_broken leaves_before].
    change (pre ++ [tag] ++ post) with (pre ++ tag :: post).
    rewrite read_u8_at, HN.
    change (pre ++ tag :: post) with (pre ++ [tag] ++ post). rewrite app_assoc.
    replace (Zlength' pre + 1) with (Zlength' (pre ++ [tag]))
      by (rewrite Zlength_app; reflexivity).
    destruct (read_u32_some (pre ++ [tag]) post Hpost) as [v Ev].
    rewrite Ev, HH, HV. repeat split; lia.
  - cbn [bad_tags_unknown] in Hbad. simpl in Hfuel.
    cbn [_config_foreach_split encode_broken leaves_before].
    replace (pre ++ (split_tag hz :: le32 z ++ encode_broken first) ++ post)
      with (pre ++ split_tag hz :: le32 z ++ encode_broken first ++ post)
      by same_bytes.
    destruct (node_header pre (encode_broken first ++ post) (split_tag hz) z) as [Et Ez].
    rewrite Et, Ez.
    destruct (split_tag_unfolds hz) as [EN [EH EV]]. rewrite EN, EH.
    rewrite node_children, (offset_of_first pre (split_tag hz) z).
    destruct hz.
    + destruct (IH fuel (pre ++ split_tag true :: le32 z) post t x y width (wrap32 z) s
                   Hbad Ht Hpost ltac:(lia)) as [s' [E H]].
      exists s'. rewrite E. split; [reflexivity | exact H].
    + rewrite (EV eq_refl).
      destruct (IH fuel (pre ++ split_tag false :: le32 z) post t x y (wrap32 z) height s
                   Hbad Ht Hpost ltac:(lia)) as [s' [E H]].
      exists s'. rewrite E. split; [reflexivity | exact H].
  - cbn [bad_tags_unknown] in Hbad. simpl in Hfuel.
    cbn [_config_foreach_split encode_broken leaves_before].
    replace (pre ++ (split_tag hz :: le32 z ++ encode_plan first ++ encode_broken second)
                 ++ post)
      with (pre ++ split_tag hz :: le32 z ++ encode_plan first ++ encode_broken second ++ post)
      by same_bytes.
    destruct (node_header pre (encode_plan first ++ encode_broken second ++ post)
                          (split_tag hz) z) as [Et Ez].
    rewrite Et, Ez.
    destruct (split_tag_unfolds hz) as [EN [EH EV]]. rewrite EN, EH.
    rewrite node_children, (offset_of_first pre (split_tag hz) z).
    destruct hz.
    + destruct (traversal_completes first fuel (pre ++ split_tag true :: le32 z)
                  (encode_broken second ++ post) t x y width (wrap32 z) s Ht ltac:(lia))
        as [s1 [os [cs [E1 [Ho [Hc [_ [Lo [Lc _]]]]]]]]].
      rewrite E1, offset_of_second.
      rewrite <- node_children.
      replace (pre ++ split_tag true :: le32 z ++ encode_plan first ++ encode_broken second ++ post)
        with ((pre ++ split_tag true :: le32 z ++ encode_plan first)
              ++ encode_broken second ++ post)
        by same_bytes.
      destruct (IH fuel (pre ++ split_tag true :: le32 z ++ encode_plan first) post t
                   x (wrap32 (y + wrap32 z)) width (wrap32 (height - wrap32 z)) s1
                   Hbad Ht Hpost ltac:(lia)) as [s' [E [Ho' Hc']]].
      exists s'. rewrite E. split; [reflexivity|].
      rewrite Ho', Hc', Ho, Hc, !length_app, Lo, Lc. lia.
    + rewrite (EV eq_refl).
      destruct (traversal_completes first fuel (pre ++ split_tag false :: le32 z)
                  (encode_broken second ++ post) t x y (wrap32 z) height s Ht ltac:(lia))
        as [s1 [os [cs [E1 [Ho [Hc [_ [Lo [Lc _]]]]]]]]].
      rewrite E1, offset_of_second.
      rewrite <- node_children.
      replace (pre ++ split_tag false :: le32 z ++ encode_plan first ++ encode_broken second ++ post)
        with ((pre ++ split_tag false :: le32 z ++ encode_plan first)
              ++ encode_broken second ++ post)
        by same_bytes.
      destruct (IH fuel (pre ++ split_tag false :: le32 z ++ encode_plan first) post t
                   (wrap32 (x + wrap32 z)) y (wrap32 (width - wrap32 z)) height s1
                   Hbad Ht Hpost ltac:(lia)) as [s' [E [Ho' Hc']]].
      exists s'. rewrite E. split; [reflexivity|].
      rewrite Ho', Hc', Ho, Hc, !length_app, Lo, Lc. lia.
Qed.

Lemma unknown_tag_aborts_witness :
  exists s',
    _config_foreach_split 2 ([] ++ encode_broken SampleVariants.bad_second ++ repeat NUL 4)
                          Sample.target (Zlength' (@nil byte)) 0 0 3840 1080 Sample.start
    = (s', Fault AssertionFailed)
    /\ length (fake_outputs (lists s'))
       = (length (fake_outputs (lists Sample.start))
          + leaves_before SampleVariants.bad_second)%nat
    /\ length (fake_crtcs (lists s'))
       = (length (fake_crtcs (lists Sample.start))
          + leaves_before SampleVariants.bad_second)%nat.
Proof.
  apply (unknown_tag_aborts SampleVariants.bad_second 2 [] (repeat NUL 4) Sample.target
                            0 0 3840 1080 Sample.start).
  - reflexivity.
  - split; vm_compute; discriminate.
  - simpl. lia.
  - simpl. lia.
Defined.

(** C5, as stated, fails on both counts.  Offsets are never checked: the
    plan that cuts the height 1080 at 2000 is applied in full, by the
    traversal and by [config_handle_output], which reports a match.  And a
    payload with an unknown tag is not refused as a whole: with ['X'] as the
    second child of a split, the leaf of the first child has been appended
    when the assertion fails. *)
Lemma malformed_plan_counterexample :
  (fits SampleVariants.overlong 3840 1080 = false
   /\ ~ fails_atomically Sample.start
        (_config_foreach_split 10 (encode_plan SampleVariants.overlong) Sample.target
                               0 0 0 3840 1080 Sample.start)
   /\ exists l,
        config_handle_output 10 SampleFiles.overlong_mapping Sample.library
                             Sample.screen_resources 0x42 (hex_encode Sample.edid_42) no_fakes
        = (l, Done 1)
        /\ length (fake_outputs l) = 2%nat)
  /\ (bad_tags_unknown SampleVariants.bad_second = true
      /\ ~ fails_atomically Sample.start
           (_config_foreach_split 10 (encode_broken SampleVariants.bad_second ++ repeat NUL 4)
                                  Sample.target 0 0 0 3840 1080 Sample.start)
      /\ exists s',
           _config_foreach_split 10 (encode_broken SampleVariants.bad_second ++ repeat NUL 4)
                                 Sample.target 0 0 0 3840 1080 Sample.start
           = (s', Fault AssertionFailed)
           /\ length (fake_outputs (lists s')) = 1%nat).
Proof.
  split; split; try reflexivity; split.
  - intros [[f Hf] _]. vm_compute in Hf. discriminate.
  - eexists. split; [vm_compute; reflexivity | reflexivity].
  - intros [_ Hl]. vm_compute in Hl. congruence.
  - eexists. split; [vm_compute; reflexivity | reflexivity].
Qed.

(** ** The walk over the records *)

(** C6 at its failing input: a configuration file of four well-formed
    records that fills its page exactly (4096 bytes), none of them for the
    monitor.  After the last record the loop test
    [config - config_file <= config_file_size] still holds, and the next
    turn reads a record size at offset 4096, outside the mapping, instead of
    reporting that nothing matched. *)
Theorem walk_reads_past_the_end :
  config_file_size SampleFiles.full_page_mapping = 4096
  /\ Zlength' (config_file SampleFiles.full_page_mapping) = 4096
  /\ config_handle_output 100 SampleFiles.full_page_mapping Sample.library
                          Sample.screen_resources 0x42 (hex_encode Sample.edid_42) no_fakes
     = (no_fakes, Fault OutOfBounds)
  /\ snd (xcb_randr_get_screen_resources_reply
            100 SampleFiles.full_page_env Sample.library 5 initial_globals)
     = Fault OutOfBounds.
Proof.
  repeat split; vm_compute; reflexivity.
Qed.

(** With room after the file the same walk ends as the claim says: no
    record matches, nothing is appended, and the result is 0. *)
Lemma walk_with_room_finds_nothing :
  config_handle_output 100 SampleFiles.roomy_mapping Sample.library
                       Sample.screen_resources 0x42 (hex_encode Sample.edid_42) no_fakes
  = (no_fakes, Done 0).
Proof. vm_compute. reflexivity. Qed.

(** ** The identifiers of the fake outputs *)

(** An identifier augmented with an index from 1 to 1023 is recognised as
    fake. *)
Lemma augmented_xid_is_fake xid n :
  0 < n < 2 ^ 10 -> is_fake_xid (augmentXID xid n) = true.
Proof.
  intros Hn.
  assert (Hi : valid_split_index n) by (unfold valid_split_index; lia).
  assert (E : Z.land (augmentXID xid n) XID_SPLIT_MASK = Z.shiftl n XID_SPLIT_SHIFT).
  { unfold augmentXID. rewrite (shifted_index_fits n Hi).
    apply Z.bits_inj'. intros k Hk.
    rewrite !Z.land_spec, Z.lor_spec, Z.land_spec, Z.lnot_spec, XID_SPLIT_MASK_bits by lia.
    unfold XID_SPLIT_SHIFT. rewrite Z.shiftl_spec by lia.
    destruct (Z.leb_spec 21 k) as [H21 | H21].
    - destruct (Z.ltb_spec k 31) as [H31 | H31]; simpl.
      + rewrite andb_false_r, andb_true_r. reflexivity.
      + rewrite (index_bits n (k - 21) Hi) by lia. apply andb_false_r.
    - rewrite (Z.testbit_neg_r n (k - 21)) by lia. simpl. apply andb_false_r. }
  unfold is_fake_xid. rewrite E.
  unfold XID_SPLIT_SHIFT. rewrite Z.shiftl_mul_pow2 by lia.
  destruct (Z.eqb_spec (n * 2 ^ 21) 0); [lia | reflexivity].
Qed.

(** A plan that does not take the counter past 1023 gives every fake
    output an identifier that the reply functions recognise as fake: the
    condition on the snapshot in the output-info property holds for the
    snapshots that such plans build. *)
Lemma walk_plan_marks_outputs p :
  forall t x y width height s,
    has_area t ->
    0 <= counter s ->
    counter s + Z.of_nat (leaf_count p) < 2 ^ 10 ->
    Forall (fun o => is_fake_xid (fo_xid o) = true) (fake_outputs (lists s)) ->
    counter (fst (walk_plan t p x y width height s)) = counter s + Z.of_nat (leaf_count p)
    /\ Forall (fun o => is_fake_xid (fo_xid o) = true)
              (fake_outputs (lists (fst (walk_plan t p x y width height s)))).
Proof.
  induction p as [| z a IHa b IHb | z a IHa b IHb];
    intros t x y width height s Ht Hc Hb Hm.
  - cbn [leaf_count] in Hb. cbn [walk_plan leaf_count].
    destruct (define_fakes_spec t x y width height s Ht)
      as [s' [o [c [E [Hn [Ho [_ [_ [Hx _]]]]]]]]].
    rewrite E. cbn [fst].
    rewrite wrap32_small in Hn by (unfold is_u32; lia).
    split; [lia|].
    rewrite Ho. apply Forall_app. split; [exact Hm|].
    constructor; [|constructor].
    rewrite Hx, Hn. apply augmented_xid_is_fake. lia.
  - cbn [leaf_count] in Hb. rewrite Nat2Z.inj_add in Hb.
    cbn [walk_plan leaf_count].
    destruct (walk_plan_spec a t x y width (wrap32 z) s Ht) as [s1 [os [cs [E1 _]]]].
    destruct (IHa t x y width (wrap32 z) s Ht Hc ltac:(lia) Hm) as [C1 M1].
    rewrite E1 in C1, M1 |- *. cbn [fst] in C1, M1.
    destruct (IHb t x (wrap32 (y + wrap32 z)) width (wrap32 (height - wrap32 z)) s1 Ht
                  ltac:(lia) ltac:(lia) M1) as [C2 M2].
    split; [rewrite C2, C1, Nat2Z.inj_add; lia | exact M2].
  - cbn [leaf_count] in Hb. rewrite Nat2Z.inj_add in Hb.
    cbn [walk_plan leaf_count].
    destruct (walk_plan_spec a t x y (wrap32 z) height s Ht) as [s1 [os [cs [E1 _]]]].
    destruct (IHa t x y (wrap32 z) height s Ht Hc ltac:(lia) Hm) as [C1 M1].
    rewrite E1 in C1, M1 |- *. cbn [fst] in C1, M1.
    destruct (IHb t (wrap32 (x + wrap32 z)) y (wrap32 (width - wrap32 z)) height s1 Ht
                  ltac:(lia) ltac:(lia) M1) as [C2 M2].
    split; [rewrite C2, C1, Nat2Z.inj_add; lia | exact M2].
Qed.

(** ** The walk over a well-formed file with room after it *)

Lemma Zlength_of_length {A} (l : list A) n : length l = n -> Zlength' l = Z.of_nat n.
Proof. intros <-. reflexivity. Qed.

Lemma byte_eqb_refl b : Byte.eqb b b = true.
Proof. now apply Byte.byte_dec_lb. Qed.

Lemma byte_eqb_neq a b : a <> b -> Byte.eqb a b = false.
Proof.
  intros H. destruct (Byte.eqb a b) eqn:E; [|reflexivity].
  apply Byte.byte_dec_bl in E. contradiction.
Qed.

(** [strncmp] on the mapping reads the field and compares it. *)
Lemma strncmp_on_field n :
  forall pre bs post t,
    (n <= length bs)%nat ->
    strncmp_eq (pre ++ bs ++ post) (Zlength' pre) t n = Some (strn_equal bs t n).
Proof.
  induction n as [| n IH]; intros pre bs post t Hn; [reflexivity|].
  destruct bs as [| x bs]; [simpl in Hn; lia|].
  cbn [strncmp_eq strn_equal].
  change (pre ++ (x :: bs) ++ post) with (pre ++ x :: bs ++ post).
  rewrite read_u8_at.
  destruct (negb (Byte.eqb x (hd NUL t))); [reflexivity|].
  destruct (is_NUL x); [reflexivity|].
  replace (pre ++ x :: bs ++ post) with ((pre ++ [x]) ++ bs ++ post) by same_bytes.
  replace (Zlength' pre + 1) with (Zlength' (pre ++ [x]))
    by (rewrite Zlength_app; reflexivity).
  apply IH. simpl in Hn. lia.
Qed.

(** Two fields compare equal exactly when they hold the same string in
    their first [n] bytes. *)
Lemma strn_equal_strings n :
  forall a t,
    (n <= length a)%nat ->
    strn_equal a t n = true <-> cstring (firstn n a) = cstring (firstn n t).
Proof.
  induction n as [| n IH]; intros a t Hn; [simpl; tauto|].
  destruct a as [| x a]; [simpl in Hn; lia|].
  simpl in Hn. cbn [strn_equal firstn cstring].
  destruct t as [| y t]; cbn [hd tl firstn cstring].
  - unfold is_NUL. destruct (Byte.eqb x NUL) eqn:Ex; cbn [negb].
    + tauto.
    + split; discriminate.
  - destruct (Byte.eqb x y) eqn:Exy; cbn [negb].
    + apply Byte.byte_dec_bl in Exy. subst y.
      destruct (is_NUL x); [tauto|].
      rewrite (IH a t) by lia. split; [intros ->; reflexivity | intros H; now injection H].
    + assert (Hne : x <> y) by (intros ->; rewrite byte_eqb_refl in Exy; discriminate).
      split; [discriminate|]. intros H. exfalso.
      unfold is_NUL in H.
      destruct (Byte.eqb x NUL) eqn:Ex; destruct (Byte.eqb y NUL) eqn:Ey;
        try discriminate.
      * apply Byte.byte_dec_bl in Ex, Ey. congruence.
      * injection H as H _. contradiction.
Qed.

(** Reads in the zero-filled room after the file. *)
Lemma read_u8_in_room (pre : list byte) k d :
  0 <= d < Z.of_nat k ->
  read_u8 (pre ++ repeat NUL k) (Zlength' pre + d) = Some NUL.
Proof.
  intros Hd.
  rewrite <- (app_nil_r (repeat NUL k)).
  apply read_u8_in; [lia|].
  apply nth_error_repeat. lia.
Qed.

Lemma read_u32_in_room (pre : list byte) k d :
  0 <= d -> d + 4 <= Z.of_nat k ->
  read_u32 (pre ++ repeat NUL k) (Zlength' pre + d) = Some 0.
Proof.
  intros Hd Hk. unfold read_u32.
  rewrite <- !Z.add_assoc.
  rewrite (read_u8_in_room pre k d) by lia.
  rewrite !read_u8_in_room by lia.
  reflexivity.
Qed.

Lemma strncmp_first_differs mem p t n a :
  read_u8 mem p = Some a -> a <> hd NUL t -> strncmp_eq mem p t (S n) = Some false.
Proof.
  intros Hr Hne. cbn [strncmp_eq]. rewrite Hr, (byte_eqb_neq _ _ Hne). reflexivity.
Qed.

Lemma int_compare_of_unsigned cw w :
  is_u16 cw -> is_u32 w -> (cw =? to_int32 w) = (cw =? w).
Proof.
  unfold is_u16, is_u32, to_int32, wrap32. intros Hc Hw.
  rewrite Z.mod_small by lia.
  destruct (Z.ltb_spec w (2 ^ 31)); [reflexivity|].
  destruct (Z.eqb_spec cw (w - 2 ^ 32)); destruct (Z.eqb_spec cw w); try reflexivity; lia.
Qed.

Lemma Zlength_record_header r :
  well_formed_record r -> Zlength' (record_header r) = 912.
Proof.
  intros [Hn [He _]]. unfold record_header.
  rewrite !Zlength_app, !Zlength_le32.
  rewrite (Zlength_of_length _ _ Hn), (Zlength_of_length _ _ He). reflexivity.
Qed.

Lemma encode_record_parts r :
  encode_record r = record_header r ++ encode_plan (rec_plan r).
Proof. unfold encode_record, record_header. same_bytes. Qed.

Lemma Zlength_record r :
  well_formed_record r ->
  Zlength' (encode_record r) = 912 + Zlength' (encode_plan (rec_plan r)).
Proof.
  intros H. now rewrite encode_record_parts, Zlength_app, Zlength_record_header.
Qed.

(** What the loop reads at a record. *)
Lemma record_fields (pre tail : list byte) r t :
  well_formed_record r ->
  read_u32 (pre ++ encode_record r ++ tail) (Zlength' pre)
  = Some (wrap32 (128 + 768 + 4 + 4 + 4 + Zlength' (encode_plan (rec_plan r))))
  /\ read_u32 (pre ++ encode_record r ++ tail) (Zlength' pre + (4 + 128 + 768))
     = Some (rec_width r)
  /\ read_u32 (pre ++ encode_record r ++ tail) (Zlength' pre + (4 + 128 + 768 + 4))
     = Some (rec_height r)
  /\ (exists count,
        read_u32 (pre ++ encode_record r ++ tail) (Zlength' pre + (4 + 128 + 768 + 4 + 4))
        = Some count)
  /\ strncmp_eq (pre ++ encode_record r ++ tail) (Zlength' pre + (4 + 128)) t 768
     = Some (strn_equal (rec_edid r) t 768).
Proof.
  intros [Hn [He [Hw Hh]]].
  pose proof (Zlength_of_length _ _ Hn) as Ln.
  pose proof (Zlength_of_length _ _ He) as Le.
  unfold encode_record.
  set (S := le32 (128 + 768 + 4 + 4 + 4 + Zlength' (encode_plan (rec_plan r)))).
  set (N := rec_name r) in *. set (E := rec_edid r) in *.
  set (W := le32 (rec_width r)). set (H := le32 (rec_height r)).
  set (C := le32 (Zlength' (encode_plan (rec_plan r)))).
  set (P := encode_plan (rec_plan r)).
  assert (LS : Zlength' S = 4) by reflexivity.
  assert (LW : Zlength' W = 4) by reflexivity.
  assert (LH : Zlength' H = 4) by reflexivity.
  repeat split.
  - replace (pre ++ (S ++ N ++ E ++ W ++ H ++ C ++ P) ++ tail)
      with (pre ++ S ++ (N ++ E ++ W ++ H ++ C ++ P ++ tail)) by same_bytes.
    apply read_u32_at.
  - replace (pre ++ (S ++ N ++ E ++ W ++ H ++ C ++ P) ++ tail)
      with ((pre ++ S ++ N ++ E) ++ W ++ (H ++ C ++ P ++ tail)) by same_bytes.
    replace (Zlength' pre + (4 + 128 + 768)) with (Zlength' (pre ++ S ++ N ++ E))
      by (rewrite !Zlength_app, LS, Ln, Le; lia).
    unfold W. rewrite read_u32_at. now rewrite wrap32_small.
  - replace (pre ++ (S ++ N ++ E ++ W ++ H ++ C ++ P) ++ tail)
      with ((pre ++ S ++ N ++ E ++ W) ++ H ++ (C ++ P ++ tail)) by same_bytes.
    replace (Zlength' pre + (4 + 128 + 768 + 4)) with (Zlength' (pre ++ S ++ N ++ E ++ W))
      by (rewrite !Zlength_app, LS, LW, Ln, Le; lia).
    unfold H. rewrite read_u32_at. now rewrite wrap32_small.
  - eexists.
    replace (pre ++ (S ++ N ++ E ++ W ++ H ++ C ++ P) ++ tail)
      with ((pre ++ S ++ N ++ E ++ W ++ H) ++ C ++ (P ++ tail)) by same_bytes.
    replace (Zlength' pre + (4 + 128 + 768 + 4 + 4))
      with (Zlength' (pre ++ S ++ N ++ E ++ W ++ H))
      by (rewrite !Zlength_app, LS, LW, LH, Ln, Le; lia).
    apply read_u32_at.
  - replace (pre ++ (S ++ N ++ E ++ W ++ H ++ C ++ P) ++ tail)
      with ((pre ++ S ++ N) ++ E ++ (W ++ H ++ C ++ P ++ tail)) by same_bytes.
    replace (Zlength' pre + (4 + 128)) with (Zlength' (pre ++ S ++ N))
      by (rewrite !Zlength_app, LS, Ln; lia).
    apply strncmp_on_field. rewrite He. lia.
Qed.

(** One turn of the loop at a well-formed record: the plan of the record
    is applied when the record passes both tests, and the walk goes on
    behind the record when it does not. *)
Lemma walk_step fuel cfg pre tail r c res output target l oi ci :
  config_file cfg = pre ++ encode_record r ++ tail ->
  Zlength' pre + Zlength' (encode_record r) <= config_file_size cfg ->
  config_file_size cfg + 4 < 2 ^ 31 ->
  well_formed_record r ->
  (depth (rec_plan r) <= S fuel)%nat ->
  real_output_info c output (sr_config_timestamp (sr_header res)) = Some oi ->
  real_crtc_info c (oi_crtc (oi_header oi)) (sr_config_timestamp (sr_header res)) = Some ci ->
  is_u16 (ci_width ci) -> is_u16 (ci_height ci) ->
  config_handle_output_from (S fuel) cfg c res output target (Zlength' pre) l
  = if record_matches target ci r
    then apply_record {| resources := res; output := output;
                         output_info := oi; crtc_info := ci |} r l
    else config_handle_output_from fuel cfg c res output target
                                   (Zlength' (pre ++ encode_record r)) l.
Proof.
  intros Hmem Hsize Hbound Hr Hdepth Hoi Hci Hcw Hch.
  rewrite (Zlength_record r Hr) in Hsize.
  pose proof (Zlength_nonneg pre) as Hpre.
  pose proof (Zlength_nonneg (encode_plan (rec_plan r))) as Hplan.
  destruct (record_fields pre tail r target Hr) as [Fsize [Fw [Fh [[count Fc] Fcmp]]]].
  cbn [config_handle_output_from].
  rewrite (to_int32_small (Zlength' pre)) by lia.
  rewrite (to_int32_small (config_file_size cfg)) by lia.
  destruct (Z.leb_spec (Zlength' pre) (config_file_size cfg)) as [_ | Hlt]; [|lia].
  rewrite Hmem, Fsize, Fw, Fh, Fc, Fcmp.
  rewrite <- Hmem.
  assert (Hnext : Zlength' pre
                  + wrap32 (4 + wrap32 (128 + 768 + 4 + 4 + 4
                                        + Zlength' (encode_plan (rec_plan r))))
                  = Zlength' (pre ++ encode_record r)).
  { rewrite Zlength_app, (Zlength_record r Hr).
    rewrite !wrap32_small by (unfold is_u32; rewrite ?wrap32_small by (unfold is_u32; lia); lia).
    lia. }
  rewrite Hnext.
  unfold record_matches.
  destruct (strn_equal (rec_edid r) target 768); cbn [andb]; [|reflexivity].
  rewrite Hoi, Hci.
  pose proof Hr as [Hn [He [Hw Hh]]].
  rewrite (int_compare_of_unsigned _ _ Hcw Hw), (int_compare_of_unsigned _ _ Hch Hh).
  destruct ((ci_width ci =? rec_width r) && (ci_height ci =? rec_height r));
    [|reflexivity].
  rewrite Hmem, encode_record_parts.
  replace (pre ++ (record_header r ++ encode_plan (rec_plan r)) ++ tail)
    with ((pre ++ record_header r) ++ encode_plan (rec_plan r) ++ tail)
    by same_bytes.
  replace (Zlength' pre + (4 + 128 + 768 + 4 + 4 + 4))
    with (Zlength' (pre ++ record_header r))
    by (rewrite Zlength_app, (Zlength_record_header r Hr); lia).
  rewrite traversal_of_encoding by exact Hdepth.
  unfold apply_record, located.
  destruct (walk_plan _ (rec_plan r) 0 0 (rec_width r) (rec_height r) _) as [s [u | f |]];
    reflexivity.
Qed.

(** The turn after the last record, with zero-filled room behind the
    file: the room reads as a record of size 0 with an empty EDID, which
    the output's EDID does not equal, and the turn after that is past the
    end. *)
Lemma walk_end_with_room fuel cfg pre k c res output target l :
  config_file cfg = pre ++ repeat NUL k ->
  config_file_size cfg = Zlength' pre ->
  config_file_size cfg + 4 < 2 ^ 31 ->
  (912 <= k)%nat ->
  hd NUL target <> NUL ->
  config_handle_output_from (S (S fuel)) cfg c res output target (Zlength' pre) l
  = (l, Done 0).
Proof.
  intros Hmem Hsize Hbound Hk Htarget.
  pose proof (Zlength_nonneg pre) as Hpre.
  cbn [config_handle_output_from].
  rewrite Hsize in *.
  rewrite (to_int32_small (Zlength' pre)) by lia.
  rewrite Z.leb_refl, Hmem.
  rewrite <- (Z.add_0_r (Zlength' pre)) at 1.
  rewrite !read_u32_in_room by lia.
  rewrite (strncmp_first_differs _ _ target 767 NUL).
  - rewrite ?Z.add_0_r.
    change (wrap32 4) with 4.
    rewrite (to_int32_small (Zlength' pre + 4)) by lia.
    destruct (Z.leb_spec (Zlength' pre + 4) (Zlength' pre)); [lia | reflexivity].
  - apply read_u8_in_room. lia.
  - congruence.
Qed.

(** The turn after the last record when the mapping ends with the file:
    the record size is read outside the mapping. *)
Lemma walk_end_without_room fuel cfg c res output target l :
  config_file_size cfg = Zlength' (config_file cfg) ->
  config_file_size cfg < 2 ^ 31 ->
  config_handle_output_from (S fuel) cfg c res output target
                            (Zlength' (config_file cfg)) l
  = (l, Fault OutOfBounds).
Proof.
  intros Hsize Hbound.
  pose proof (Zlength_nonneg (config_file cfg)) as Hpre.
  cbn [config_handle_output_from].
  rewrite Hsize, Z.leb_refl.
  assert (E : read_u32 (config_file cfg) (Zlength' (config_file cfg)) = None).
  { unfold read_u32, read_u8.
    destruct (Z.ltb_spec (Zlength' (config_file cfg)) 0); [reflexivity|].
    unfold Zlength'. rewrite Nat2Z.id.
    assert (N : nth_error (config_file cfg) (length (config_file cfg)) = None)
      by (apply nth_error_None; lia).
    rewrite N. reflexivity. }
  rewrite E. reflexivity.
Qed.

(** On a file of well-formed records with zero-filled room after it, the
    walk applies the plan of the first record that passes both tests, and
    returns 0 with the lists untouched when there is none. *)
Lemma walk_records rs :
  forall fuel D cfg pre k c res output target l oi ci,
    config_file cfg = pre ++ encode_records rs ++ repeat NUL k ->
    config_file_size cfg = Zlength' pre + Zlength' (encode_records rs) ->
    Forall well_formed_record rs ->
    Forall (fun r => (depth (rec_plan r) <= D)%nat) rs ->
    (912 <= k)%nat ->
    hd NUL target <> NUL ->
    real_output_info c output (sr_config_timestamp (sr_header res)) = Some oi ->
    real_crtc_info c (oi_crtc (oi_header oi)) (sr_config_timestamp (sr_header res)) = Some ci ->
    is_u16 (ci_width ci) -> is_u16 (ci_height ci) ->
    config_file_size cfg + 4 < 2 ^ 31 ->
    (length rs + 2 + D <= fuel)%nat ->
    config_handle_output_from fuel cfg c res output target (Zlength' pre) l
    = match find (record_matches target ci) rs with
      | Some r =>
          apply_record {| resources := res; output := output;
                          output_info := oi; crtc_info := ci |} r l
      | None => (l, Done 0)
      end.
Proof.
  induction rs as [| r rest IH];
    intros fuel D cfg pre k c res output target l oi ci
           Hmem Hsize Hwf Hdepth Hk Htarget Hoi Hci Hcw Hch Hbound Hfuel.
  - destruct fuel as [| [| fuel]]; [simpl in Hfuel; lia | simpl in Hfuel; lia |].
    cbn [encode_records flat_map app] in Hmem, Hsize.
    change (Zlength' (@nil byte)) with 0 in Hsize. rewrite Z.add_0_r in Hsize.
    cbn [find].
    apply (walk_end_with_room fuel cfg pre k); assumption.
  - destruct fuel as [| fuel]; [simpl in Hfuel; lia|].
    inversion Hwf as [| r' rest' Hr Hrest]; subst r' rest'.
    inversion Hdepth as [| r' rest' Dr Drest]; subst r' rest'.
    cbn [encode_records flat_map] in Hmem, Hsize.
    fold (encode_records rest) in Hmem, Hsize.
    rewrite Zlength_app in Hsize.
    pose proof (Zlength_nonneg (encode_records rest)) as Hrest_len.
    rewrite (walk_step fuel cfg pre (encode_records rest ++ repeat NUL k) r
                       c res output target l oi ci);
      try assumption; try lia.
    + cbn [find]. destruct (record_matches target ci r); [reflexivity|].
      apply (IH fuel D cfg (pre ++ encode_record r) k c res output target l oi ci);
        try assumption.
      * rewrite Hmem. same_bytes.
      * rewrite Hsize, Zlength_app. lia.
      * simpl in Hfuel. lia.
    + rewrite Hmem. same_bytes.
Qed.

(** On a file of well-formed records whose mapping ends with the file, a
    walk that finds no record for the output ends in a read outside the
    mapping. *)
Lemma walk_records_without_room rs :
  forall fuel D cfg pre c res output target l oi ci,
    config_file cfg = pre ++ encode_records rs ->
    config_file_size cfg = Zlength' pre + Zlength' (encode_records rs) ->
    Forall well_formed_record rs ->
    Forall (fun r => (depth (rec_plan r) <= D)%nat) rs ->
    real_output_info c output (sr_config_timestamp (sr_header res)) = Some oi ->
    real_crtc_info c (oi_crtc (oi_header oi)) (sr_config_timestamp (sr_header res)) = Some ci ->
    is_u16 (ci_width ci) -> is_u16 (ci_height ci) ->
    config_file_size cfg + 4 < 2 ^ 31 ->
    (length rs + 1 + D <= fuel)%nat ->
    config_handle_output_from fuel cfg c res output target (Zlength' pre) l
    = match find (record_matches target ci) rs with
      | Some r =>
          apply_record {| resources := res; output := output;
                          output_info := oi; crtc_info := ci |} r l
      | None => (l, Fault OutOfBounds)
      end.
Proof.
  induction rs as [| r rest IH];
    intros fuel D cfg pre c res output target l oi ci
           Hmem Hsize Hwf Hdepth Hoi Hci Hcw Hch Hbound Hfuel.
  - destruct fuel as [| fuel]; [simpl in Hfuel; lia|].
    cbn [encode_records flat_map app] in Hmem, Hsize.
    rewrite app_nil_r in Hmem.
    change (Zlength' (@nil byte)) with 0 in Hsize. rewrite Z.add_0_r in Hsize.
    cbn [find]. rewrite <- Hmem in *.
    apply walk_end_without_room; [exact Hsize | lia].
  - destruct fuel as [| fuel]; [simpl in Hfuel; lia|].
    inversion Hwf as [| r' rest' Hr Hrest]; subst r' rest'.
    inversion Hdepth as [| r' rest' Dr Drest]; subst r' rest'.
    cbn [encode_records flat_map] in Hmem, Hsize.
    fold (encode_records rest) in Hmem, Hsize.
    rewrite Zlength_app in Hsize.
    pose proof (Zlength_nonneg (encode_records rest)) as Hrest_len.
    rewrite (walk_step fuel cfg pre (encode_records rest) r
                       c res output target l oi ci);
      try assumption; try lia.
    + cbn [find]. destruct (record_matches target ci r); [reflexivity|].
      apply (IH fuel D cfg (pre ++ encode_record r) c res output target l oi ci);
        try assumption.
      * rewrite Hmem. same_bytes.
      * rewrite Hsize, Zlength_app. lia.
      * simpl in Hfuel. lia.
Qed.

(** [config_handle_output] on a well-formed file with room after it: the
    first record, in file order, whose EDID equals the output's and whose
    size equals the size of the output's CRTC decides; its plan is applied
    and the result is 1.  Without such a record the result is 0 and the
    lists are untouched. *)
Lemma first_match_decides rs fuel D k c res output target l oi ci :
  Forall well_formed_record rs ->
  Forall (fun r => (depth (rec_plan r) <= D)%nat) rs ->
  (912 <= k)%nat ->
  hd NUL target <> NUL ->
  real_output_info c output (sr_config_timestamp (sr_header res)) = Some oi ->
  real_crtc_info c (oi_crtc (oi_header oi)) (sr_config_timestamp (sr_header res)) = Some ci ->
  is_u16 (ci_width ci) -> is_u16 (ci_height ci) ->
  Zlength' (encode_records rs) + 4 < 2 ^ 31 ->
  (length rs + 2 + D <= fuel)%nat ->
  config_handle_output fuel
    {| config_file := encode_records rs ++ repeat NUL k;
       config_file_size := Zlength' (encode_records rs) |}
    c res output target l
  = match find (record_matches target ci) rs with
    | Some r =>
        apply_record {| resources := res; output := output;
                        output_info := oi; crtc_info := ci |} r l
    | None => (l, Done 0)
    end.
Proof.
  intros Hwf Hdepth Hk Htarget Hoi Hci Hcw Hch Hbound Hfuel.
  unfold config_handle_output.
  change 0 with (Zlength' (@nil byte)) at 1.
  apply (walk_records rs fuel D _ [] k c res output target l oi ci); auto.
Qed.

(** The same file mapped without room: the first matching record still
    decides, and without one the walk reads outside the mapping. *)
Lemma no_match_without_room_faults rs fuel D c res output target l oi ci :
  Forall well_formed_record rs ->
  Forall (fun r => (depth (rec_plan r) <= D)%nat) rs ->
  real_output_info c output (sr_config_timestamp (sr_header res)) = Some oi ->
  real_crtc_info c (oi_crtc (oi_header oi)) (sr_config_timestamp (sr_header res)) = Some ci ->
  is_u16 (ci_width ci) -> is_u16 (ci_height ci) ->
  Zlength' (encode_records rs) + 4 < 2 ^ 31 ->
  (length rs + 1 + D <= fuel)%nat ->
  config_handle_output fuel
    {| config_file := encode_records rs;
       config_file_size := Zlength' (encode_records rs) |}
    c res output target l
  = match find (record_matches target ci) rs with
    | Some r =>
        apply_record {| resources := res; output := output;
                        output_info := oi; crtc_info := ci |} r l
    | None => (l, Fault OutOfBounds)
    end.
Proof.
  intros Hwf Hdepth Hoi Hci Hcw Hch Hbound Hfuel.
  unfold config_handle_output.
  change 0 with (Zlength' (@nil byte)) at 1.
  apply (walk_records_without_room rs fuel D _ [] c res output target l oi ci); auto.
Qed.

(** The sample deployment is an instance: the record of the monitor is
    found and its plan applied. *)
Example sample_record_is_applied :
  exists l,
    config_handle_output 10 Sample.mapping Sample.library Sample.screen_resources
                         0x42 (hex_encode Sample.edid_42) no_fakes
    = (l, Done 1)
    /\ map crtc_rect (fake_crtcs l) = [rect_of 0 0 1920 1080; rect_of 1920 0 1920 1080]
    /\ map fo_xid (fake_outputs l) = [augmentXID 0x42 1; augmentXID 0x42 2]
    /\ map fo_name (fake_outputs l) = [Sample.bytes "DP-1~1"; Sample.bytes "DP-1~2"].
Proof.
  eexists. split; [vm_compute; reflexivity|].
  repeat split.
Qed.

(* ================================================================== *)
(** * Further properties of the code *)

(** ** The cookie tables *)

Lemma find_from_shift key pairs :
  forall pos,
    AssocList.find_from (S pos) key pairs
    = option_map (fun iv => (S (fst iv), snd iv)) (AssocList.find_from pos key pairs).
Proof.
  induction pairs as [| [k v] rest IH]; intros pos; cbn [AssocList.find_from].
  - reflexivity.
  - destruct (k =? key); [reflexivity | apply IH].
Qed.

Lemma find_cons k0 v0 rest key :
  AssocList.find key ((k0, v0) :: rest)
  = if k0 =? key then Some (0%nat, v0)
    else option_map (fun iv => (S (fst iv), snd iv)) (AssocList.find key rest).
Proof.
  unfold AssocList.find. cbn [AssocList.find_from].
  destruct (k0 =? key); [reflexivity | apply find_from_shift].
Qed.

Lemma find_absent key pairs :
  ~ In key (map fst pairs) -> AssocList.find key pairs = None.
Proof.
  induction pairs as [| [k v] rest IH]; intros Hn; [reflexivity|].
  rewrite find_cons. cbn [map fst In] in Hn.
  destruct (Z.eqb_spec k key); [exfalso; auto|].
  rewrite IH by tauto. reflexivity.
Qed.

Lemma find_present key v pairs :
  distinct_sequences pairs -> In (key, v) pairs ->
  exists item, AssocList.find key pairs = Some (item, v).
Proof.
  unfold distinct_sequences.
  induction pairs as [| [k0 v0] rest IH]; intros Hd Hin; [destruct Hin|].
  rewrite find_cons. cbn [map fst] in Hd. inversion Hd as [| ? ? Hfresh Hrest]; subst.
  destruct Hin as [E | Hin].
  - injection E as -> ->. rewrite Z.eqb_refl. eauto.
  - destruct (Z.eqb_spec k0 key) as [-> | Hne].
    + exfalso. apply Hfresh. change key with (fst (key, v)). now apply in_map.
    + destruct (IH Hrest Hin) as [item E]. rewrite E. cbn. eauto.
Qed.

(** Erasing the item that [find] returned takes that sequence number out
    of a table of distinct sequence numbers and leaves the other pairs. *)
Lemma erase_found key item v pairs :
  distinct_sequences pairs ->
  AssocList.find key pairs = Some (item, v) ->
  distinct_sequences (AssocList.erase item pairs)
  /\ ~ In key (map fst (AssocList.erase item pairs))
  /\ forall k' v', k' <> key -> In (k', v') pairs -> In (k', v') (AssocList.erase item pairs).
Proof.
  unfold distinct_sequences. revert item.
  induction pairs as [| [k0 v0] rest IH]; intros item Hd Hf; [discriminate|].
  rewrite find_cons in Hf. cbn [map fst] in Hd.
  inversion Hd as [| ? ? Hfresh Hrest]; subst.
  destruct (Z.eqb_spec k0 key) as [-> | Hne].
  - injection Hf as <- <-. cbn [AssocList.erase].
    repeat split; try assumption.
    intros k' v' Hk [E | Hin]; [injection E as -> ->; contradiction | exact Hin].
  - destruct (AssocList.find key rest) as [[i w] |] eqn:E; [|discriminate].
    cbn in Hf. injection Hf as <- <-. cbn [AssocList.erase].
    destruct (IH i Hrest eq_refl) as [Hd' [Hgone Hkeep]].
    repeat split.
    + cbn [map fst]. constructor; [|exact Hd'].
      intros Hin. apply Hfresh.
      apply in_map_iff in Hin. destruct Hin as [[k1 v1] [E1 Hin1]]. cbn in E1. subst k1.
      clear - Hin1. revert i Hin1.
      induction rest as [| p rest IHr]; intros i Hin1; [destruct i; destruct Hin1|].
      destruct i as [| i]; cbn [AssocList.erase] in Hin1.
      * cbn [map]. right. change k0 with (fst (k0, v1)). now apply in_map.
      * destruct Hin1 as [-> | Hin1]; [now left | right; eapply IHr; eassumption].
    + cbn [map fst In]. intros [E1 | Hin]; [congruence | exact (Hgone Hin)].
    + intros k' v' Hk [E1 | Hin]; [left; exact E1 | right; now apply Hkeep].
Qed.

Lemma find_insert key v pairs :
  AssocList.find key (AssocList.insert key v pairs) = Some (0%nat, v).
Proof. unfold AssocList.insert. rewrite find_cons, Z.eqb_refl. reflexivity. Qed.

Lemma output_reply_consumes lib cookie xid g :
  fst (xcb_randr_get_output_info_reply lib cookie
         (set_output_info_cookies
            (AssocList.insert cookie xid (output_info_cookies g)) g)) = g.
Proof.
  unfold xcb_randr_get_output_info_reply.
  cbn [output_info_cookies set_output_info_cookies].
  rewrite find_insert. unfold AssocList.insert. cbn [AssocList.erase].
  destruct g as [cm fsr cc oc].
  cbn [set_output_info_cookies fakeScreenResources config_mapping
       crtc_info_cookies output_info_cookies].
  destruct fsr as [| snapshot |]; try reflexivity.
  destruct (negb (is_fake_xid xid)).
  - destruct (xid_in_list _ _); [|reflexivity].
    destruct (real_output_info_reply lib cookie); reflexivity.
  - destruct (find _ _); reflexivity.
Qed.

Lemma crtc_reply_consumes lib cookie xid g :
  fst (xcb_randr_get_crtc_info_reply lib cookie
         (set_crtc_info_cookies
            (AssocList.insert cookie xid (crtc_info_cookies g)) g)) = g.
Proof.
  unfold xcb_randr_get_crtc_info_reply.
  cbn [crtc_info_cookies set_crtc_info_cookies].
  rewrite find_insert. unfold AssocList.insert. cbn [AssocList.erase].
  destruct g as [cm fsr cc oc].
  cbn [set_crtc_info_cookies fakeScreenResources config_mapping
       crtc_info_cookies output_info_cookies].
  destruct fsr as [| snapshot |]; try reflexivity.
  destruct (negb (is_fake_xid xid)).
  - destruct (existsb _ _); [|reflexivity].
    destruct (real_crtc_info_reply lib cookie); reflexivity.
  - destruct (find _ _); reflexivity.
Qed.

(** X1: a detail query and the fetch of its reply are a round trip on the
    cookie table.  After any of the four issue functions, the table of the
    call's kind resolves the returned cookie to the identifier that was
    passed in (fake or real, whatever the table held before), and the reply
    function of that kind consumes the entry: the globals are again what
    they were before the query was issued. *)
Theorem issue_then_fetch_round_trip call c g lib :
  let '(cookie, _, g1) := issue call c g in
  AssocList.find cookie (pending_of call g1) = Some (0%nat, call_xid call)
  /\ after_fetch call lib cookie g1 = g.
Proof.
  destruct call as [crtc ts | crtc ts | out ts | out ts];
    cbn [issue call_xid];
    unfold xcb_randr_get_crtc_info, xcb_randr_get_crtc_info_unchecked,
           xcb_randr_get_output_info, xcb_randr_get_output_info_unchecked, real_send;
    cbn [pending_of after_fetch];
    (split; [apply find_insert|]);
    first [apply crtc_reply_consumes | apply output_reply_consumes].
Qed.

Lemma output_reply_table lib cookie g :
  output_info_cookies (fst (xcb_randr_get_output_info_reply lib cookie g))
  = match AssocList.find cookie (output_info_cookies g) with
    | Some (item, _) => AssocList.erase item (output_info_cookies g)
    | None => output_info_cookies g
    end.
Proof.
  unfold xcb_randr_get_output_info_reply.
  destruct (AssocList.find cookie (output_info_cookies g)) as [[item xid] |]; [|reflexivity].
  cbn [fakeScreenResources set_output_info_cookies].
  destruct (fakeScreenResources g) as [| snapshot |]; try reflexivity.
  destruct (negb (is_fake_xid xid)).
  - destruct (xid_in_list _ _); [|reflexivity].
    destruct (real_output_info_reply lib cookie); reflexivity.
  - destruct (find _ _); reflexivity.
Qed.

Lemma crtc_reply_table lib cookie g :
  crtc_info_cookies (fst (xcb_randr_get_crtc_info_reply lib cookie g))
  = match AssocList.find cookie (crtc_info_cookies g) with
    | Some (item, _) => AssocList.erase item (crtc_info_cookies g)
    | None => crtc_info_cookies g
    end.
Proof.
  unfold xcb_randr_get_crtc_info_reply.
  destruct (AssocList.find cookie (crtc_info_cookies g)) as [[item xid] |]; [|reflexivity].
  cbn [fakeScreenResources set_crtc_info_cookies].
  destruct (fakeScreenResources g) as [| snapshot |]; try reflexivity.
  destruct (negb (is_fake_xid xid)).
  - destruct (existsb _ _); [|reflexivity].
    destruct (real_crtc_info_reply lib cookie); reflexivity.
  - destruct (find _ _); reflexivity.
Qed.

Lemma table_after_fetch cookie pairs key v :
  distinct_sequences pairs ->
  key <> cookie ->
  In (key, v) pairs ->
  exists item,
    AssocList.find key
      match AssocList.find cookie pairs with
      | Some (i, _) => AssocList.erase i pairs
      | None => pairs
      end = Some (item, v).
Proof.
  intros Hd Hne Hin.
  destruct (AssocList.find cookie pairs) as [[i w] |] eqn:E.
  - destruct (erase_found cookie i w pairs Hd E) as [Hd' [_ Hkeep]].
    apply find_present; [exact Hd' | now apply Hkeep].
  - now apply find_present.
Qed.

Lemma cookie_gone_after_fetch cookie pairs :
  distinct_sequences pairs ->
  AssocList.find cookie
    match AssocList.find cookie pairs with
    | Some (i, _) => AssocList.erase i pairs
    | None => pairs
    end = None.
Proof.
  intros Hd.
  destruct (AssocList.find cookie pairs) as [[i w] |] eqn:E; [|exact E].
  destruct (erase_found cookie i w pairs Hd E) as [_ [Hgone _]].
  now apply find_absent.
Qed.

(** X2: queries that are outstanding together do not disturb each other.
    When the sequence numbers in the two cookie tables are pairwise
    different, fetching the reply for one cookie, of either kind and
    whether or not the cookie is known, leaves every other outstanding
    query resolving to the identifier it was issued for, and the fetched
    cookie itself is no longer in the table. *)
Theorem fetch_leaves_other_queries lib cookie g key xid :
  distinct_sequences (output_info_cookies g) ->
  distinct_sequences (crtc_info_cookies g) ->
  key <> cookie ->
  (In (key, xid) (output_info_cookies g) ->
   exists item,
     AssocList.find key
       (output_info_cookies (fst (xcb_randr_get_output_info_reply lib cookie g)))
     = Some (item, xid))
  /\ (In (key, xid) (crtc_info_cookies g) ->
      exists item,
        AssocList.find key
          (crtc_info_cookies (fst (xcb_randr_get_crtc_info_reply lib cookie g)))
        = Some (item, xid))
  /\ AssocList.find cookie
       (output_info_cookies (fst (xcb_randr_get_output_info_reply lib cookie g))) = None
  /\ AssocList.find cookie
       (crtc_info_cookies (fst (xcb_randr_get_crtc_info_reply lib cookie g))) = None.
Proof.
  intros Ho Hc Hne.
  rewrite output_reply_table, crtc_reply_table.
  repeat split.
  - now apply table_after_fetch.
  - now apply table_after_fetch.
  - now apply cookie_gone_after_fetch.
  - now apply cookie_gone_after_fetch.
Qed.

Lemma fetch_leaves_other_queries_witness :
  (exists item,
     AssocList.find 11
       (output_info_cookies
          (fst (xcb_randr_get_output_info_reply Sample.library 12
                  SamplePending.globals_with_queries)))
     = Some (item, 0x42))
  /\ AssocList.find 12
       (output_info_cookies
          (fst (xcb_randr_get_output_info_reply Sample.library 12
                  SamplePending.globals_with_queries))) = None.
Proof.
  assert (Ho : distinct_sequences (output_info_cookies SamplePending.globals_with_queries)).
  { unfold distinct_sequences.
    let l := eval vm_compute in (map fst (output_info_cookies SamplePending.globals_with_queries)) in
    change (NoDup l).
    repeat constructor; cbn [In]; lia. }
  assert (Hc : distinct_sequences (crtc_info_cookies SamplePending.globals_with_queries)).
  { unfold distinct_sequences.
    let l := eval vm_compute in (map fst (crtc_info_cookies SamplePending.globals_with_queries)) in
    change (NoDup l).
    repeat constructor; cbn [In]; lia. }
  destruct (fetch_leaves_other_queries Sample.library 12 SamplePending.globals_with_queries
              11 0x42 Ho Hc ltac:(lia)) as [H1 [_ [H3 _]]].
  split; [|exact H3].
  apply H1. vm_compute. right. left. reflexivity.
Defined.

(** ** CRTC-info replies and replies for fake identifiers *)

Lemma existsb_parent_crtc l crtcId :
  existsb (fun o => Z.land (oi_crtc (fo_orig_output_info o)) (Z.lnot XID_SPLIT_MASK)
                    =? crtcId) l = true
  <-> exists o, In o l /\ parent_crtc o = crtcId.
Proof.
  rewrite existsb_exists. unfold parent_crtc.
  split; intros [o [Hin H]]; exists o; (split; [exact Hin|]); now apply Z.eqb_eq.
Qed.

(** X3: the CRTC-info reply for a real CRTC.  When the cookie resolves to a
    real identifier (split field zero) and a snapshot is live: for a CRTC
    that one of the fake outputs was split from, a reply of the real
    library is returned with its mode, x, y, width and height set to zero,
    and with every other field of the header and both arrays as the real
    library gave them, and a null reply of the real library is written
    through; for a CRTC that no fake output was split from, what the real
    library hands back is returned as it is, reply or null pointer. *)
Theorem crtc_info_reply_of_real_crtc lib cookie g item crtcId snapshot :
  AssocList.find cookie (crtc_info_cookies g) = Some (item, crtcId) ->
  fakeScreenResources g = LivePtr snapshot ->
  Z.land crtcId XID_SPLIT_MASK = 0 ->
  ((exists o, In o (fake_outputs (fakes snapshot)) /\ parent_crtc o = crtcId) ->
   (forall info,
      real_crtc_info_reply lib cookie = Some info ->
      snd (xcb_randr_get_crtc_info_reply lib cookie g)
      = Done (Some {| ci_header :=
                        {| ci_response_type := ci_response_type (ci_header info);
                           ci_status := ci_status (ci_header info);
                           ci_sequence := ci_sequence (ci_header info);
                           ci_length := ci_length (ci_header info);
                           ci_timestamp := ci_timestamp (ci_header info);
                           ci_x := 0;
                           ci_y := 0;
                           ci_width := 0;
                           ci_height := 0;
                           ci_mode := 0;
                           ci_rotation := ci_rotation (ci_header info);
                           ci_rotations := ci_rotations (ci_header info);
                           ci_num_outputs := ci_num_outputs (ci_header info);
                           ci_num_possible_outputs :=
                             ci_num_possible_outputs (ci_header info) |};
                      ci_outputs := ci_outputs info;
                      ci_possible := ci_possible info |}))
   /\ (real_crtc_info_reply lib cookie = None ->
       snd (xcb_randr_get_crtc_info_reply lib cookie g) = Fault NullDereference))
  /\ ((forall o, In o (fake_outputs (fakes snapshot)) -> parent_crtc o <> crtcId) ->
      snd (xcb_randr_get_crtc_info_reply lib cookie g)
      = Done (real_crtc_info_reply lib cookie)).
Proof.
  intros Hfind Hlive Hreal.
  unfold xcb_randr_get_crtc_info_reply.
  rewrite Hfind. cbn [fakeScreenResources set_crtc_info_cookies].
  rewrite Hlive, (real_xid_not_fake crtcId Hreal). cbn [negb].
  split.
  - intros Hex. apply existsb_parent_crtc in Hex. rewrite Hex.
    split.
    + intros info Hinfo. rewrite Hinfo. reflexivity.
    + intros Hnone. rewrite Hnone. reflexivity.
  - intros Hnone.
    destruct (existsb _ (fake_outputs (fakes snapshot))) eqn:E; [|reflexivity].
    apply existsb_parent_crtc in E. destruct E as [o [Hin Hp]].
    exfalso. exact (Hnone o Hin Hp).
Qed.

Lemma crtc_info_reply_of_real_crtc_witness :
  snd (xcb_randr_get_crtc_info_reply Sample.library 13 SamplePending.globals_with_queries)
  = Done (Some {| ci_header :=
                    {| ci_response_type := 1; ci_status := 0; ci_sequence := 9;
                       ci_length := 2; ci_timestamp := 1000;
                       ci_x := 0; ci_y := 0; ci_width := 0; ci_height := 0; ci_mode := 0;
                       ci_rotation := 1; ci_rotations := 63;
                       ci_num_outputs := 1; ci_num_possible_outputs := 1 |};
                  ci_outputs := [0x42]; ci_possible := [0x42] |})
  /\ snd (xcb_randr_get_crtc_info_reply Sample.library 15 SamplePending.globals_with_queries)
     = Done (Some {| ci_header := Sample.crtc_info_3f;
                     ci_outputs := [0x42]; ci_possible := [0x42] |}).
Proof.
  assert (Hlive : fakeScreenResources SamplePending.globals_with_queries
                  = LivePtr SampleRun.snapshot) by (vm_compute; reflexivity).
  split.
  - destruct (crtc_info_reply_of_real_crtc
                Sample.library 13 SamplePending.globals_with_queries
                2%nat 0x3f SampleRun.snapshot
                ltac:(vm_compute; reflexivity) Hlive
                ltac:(vm_compute; reflexivity)) as [Hsplit _].
    destruct Hsplit as [Hreply _].
    + exists (hd (FakeOutputInfo_ctor 0 0 Sample.output_info_42 0 0 0 0 0 [] [])
                 (fake_outputs (fakes SampleRun.snapshot))).
      split; [vm_compute; left; reflexivity | vm_compute; reflexivity].
    + exact (Hreply _ eq_refl).
  - destruct (crtc_info_reply_of_real_crtc
                Sample.library 15 SamplePending.globals_with_queries
                0%nat 0x40 SampleRun.snapshot
                ltac:(vm_compute; reflexivity) Hlive
                ltac:(vm_compute; reflexivity)) as [_ Hwhole].
    apply Hwhole.
    intros o Hin. vm_compute in Hin.
    destruct Hin as [<- | [<- | []]]; vm_compute; discriminate.
Defined.

Lemma find_by_unique_key {A} (f : A -> Z) (l : list A) (a : A) :
  NoDup (map f l) -> In a l -> find (fun x => f x =? f a) l = Some a.
Proof.
  induction l as [| b l IH]; intros Hd Hin; [destruct Hin|].
  cbn [map] in Hd. inversion Hd as [| ? ? Hfresh Hrest]; subst.
  cbn [find]. destruct Hin as [-> | Hin].
  - now rewrite Z.eqb_refl.
  - destruct (Z.eqb_spec (f b) (f a)) as [E | _]; [|now apply IH].
    exfalso. apply Hfresh. rewrite E. now apply in_map.
Qed.

Lemma find_by_absent_key {A} (f : A -> Z) (l : list A) (k : Z) :
  (forall a, In a l -> f a <> k) -> find (fun x => f x =? k) l = None.
Proof.
  induction l as [| b l IH]; intros Hn; [reflexivity|].
  cbn [find]. destruct (Z.eqb_spec (f b) k) as [E | _].
  - exfalso. exact (Hn b (or_introl eq_refl) E).
  - apply IH. intros a Ha. apply Hn. now right.
Qed.

(** X4: replies for fake identifiers come from the snapshot alone.  When a
    cookie resolves to a fake identifier (split field not zero) and a
    snapshot is live, the output-info and the CRTC-info reply functions do
    not look at the real library's reply.  If no fake object of the
    snapshot has the identifier (it is stale), the result is a null
    pointer; if the fake identifiers of the snapshot are pairwise different
    and an object has the identifier, the result is the reply built from
    that object: a reply with one CRTC (resp. one output), as many modes
    and clones as the fake output holds, and the object's own header. *)
Theorem replies_for_fake_ids lib cookie g item xid snapshot :
  fakeScreenResources g = LivePtr snapshot ->
  is_fake_xid xid = true ->
  (AssocList.find cookie (output_info_cookies g) = Some (item, xid) ->
   ((forall o, In o (fake_outputs (fakes snapshot)) -> fo_xid o <> xid) ->
    snd (xcb_randr_get_output_info_reply lib cookie g) = Done None)
   /\ (forall o,
         NoDup (map fo_xid (fake_outputs (fakes snapshot))) ->
         In o (fake_outputs (fakes snapshot)) -> fo_xid o = xid ->
         snd (xcb_randr_get_output_info_reply lib cookie g)
         = Done (Some (FakeOutputInfo_makeReturnValue o))
         /\ oi_header (FakeOutputInfo_makeReturnValue o) = fo_orig_output_info o
         /\ oi_crtcs (FakeOutputInfo_makeReturnValue o)
            = [oi_crtc (fo_orig_output_info o)]))
  /\ (AssocList.find cookie (crtc_info_cookies g) = Some (item, xid) ->
      ((forall k, In k (fake_crtcs (fakes snapshot)) -> fc_xid k <> xid) ->
       snd (xcb_randr_get_crtc_info_reply lib cookie g) = Done None)
      /\ (forall k,
            NoDup (map fc_xid (fake_crtcs (fakes snapshot))) ->
            In k (fake_crtcs (fakes snapshot)) -> fc_xid k = xid ->
            snd (xcb_randr_get_crtc_info_reply lib cookie g)
            = Done (Some (FakeCrtcInfo_makeReturnValue k))
            /\ ci_header (FakeCrtcInfo_makeReturnValue k) = fc_orig_crtc_info k
            /\ ci_outputs (FakeCrtcInfo_makeReturnValue k) = [fc_output k]
            /\ ci_possible (FakeCrtcInfo_makeReturnValue k) = [fc_output k])).
Proof.
  intros Hlive Hfake. split; intros Hfind.
  - unfold xcb_randr_get_output_info_reply.
    rewrite Hfind. cbn [fakeScreenResources set_output_info_cookies].
    rewrite Hlive, Hfake. cbn [negb]. split.
    + intros Hnone. now rewrite (find_by_absent_key fo_xid _ xid Hnone).
    + intros o Hd Hin <-. now rewrite (find_by_unique_key fo_xid _ o Hd Hin).
  - unfold xcb_randr_get_crtc_info_reply.
    rewrite Hfind. cbn [fakeScreenResources set_crtc_info_cookies].
    rewrite Hlive, Hfake. cbn [negb]. split.
    + intros Hnone. now rewrite (find_by_absent_key fc_xid _ xid Hnone).
    + intros k Hd Hin <-. now rewrite (find_by_unique_key fc_xid _ k Hd Hin).
Qed.

Lemma replies_for_fake_ids_witness :
  exists o,
    snd (xcb_randr_get_output_info_reply Sample.library 12 SamplePending.globals_with_queries)
    = Done (Some (FakeOutputInfo_makeReturnValue o))
    /\ oi_name (FakeOutputInfo_makeReturnValue o) = Sample.bytes "DP-1~1"
    /\ oi_crtcs (FakeOutputInfo_makeReturnValue o) = [augmentXID 0x3f 1].
Proof.
  exists (hd (FakeOutputInfo_ctor 0 0 Sample.output_info_42 0 0 0 0 0 [] [])
             (fake_outputs (fakes SampleRun.snapshot))).
  assert (Hlive : fakeScreenResources SamplePending.globals_with_queries
                  = LivePtr SampleRun.snapshot) by (vm_compute; reflexivity).
  destruct (replies_for_fake_ids Sample.library 12 SamplePending.globals_with_queries
              0%nat (augmentXID 0x42 1) SampleRun.snapshot Hlive
              ltac:(vm_compute; reflexivity)) as [Hout _].
  destruct (Hout ltac:(vm_compute; reflexivity)) as [_ Hfound].
  destruct (Hfound (hd (FakeOutputInfo_ctor 0 0 Sample.output_info_42 0 0 0 0 0 [] [])
                       (fake_outputs (fakes SampleRun.snapshot)))) as [E _].
  - let l := eval vm_compute in (map fo_xid (fake_outputs (fakes SampleRun.snapshot))) in
    change (NoDup l).
    repeat constructor; cbn [In]; lia.
  - vm_compute. left. reflexivity.
  - vm_compute. reflexivity.
  - split; [exact E|]. split; vm_compute; reflexivity.
Defined.

(** ** The identifiers of the fake objects of a plan *)

Lemma emit_leaves_app t a :
  forall b s,
    emit_leaves t (a ++ b) s
    = match emit_leaves t a s with
      | (s', Done _) => emit_leaves t b s'
      | stopped => stopped
      end.
Proof.
  induction a as [| q a IH]; intros b s; cbn [emit_leaves app]; [reflexivity|].
  destruct (define_fakes t (rx q) (ry q) (rw q) (rh q) s) as [s1 [u | f |]];
    [apply IH | reflexivity | reflexivity].
Qed.

(** The walk over a plan is the walk over its leaf rectangles: the tree
    matters only through them. *)
Lemma walk_is_emit p :
  forall t x y width height s,
    walk_plan t p x y width height s = emit_leaves t (leaf_rects p x y width height) s.
Proof.
  induction p as [| z a IHa b IHb | z a IHa b IHb]; intros t x y width height s;
    cbn [walk_plan leaf_rects].
  - cbn [emit_leaves rx ry rw rh].
    destruct (define_fakes t x y width height s) as [s1 [[] | f |]]; reflexivity.
  - rewrite emit_leaves_app, IHa.
    destruct (emit_leaves t _ s) as [s1 [u | f |]]; [apply IHb | reflexivity | reflexivity].
  - rewrite emit_leaves_app, IHa.
    destruct (emit_leaves t _ s) as [s1 [u | f |]]; [apply IHb | reflexivity | reflexivity].
Qed.

Lemma length_leaf_rects p :
  forall x y width height, length (leaf_rects p x y width height) = leaf_count p.
Proof.
  induction p as [| z a IHa b IHb | z a IHa b IHb]; intros x y width height;
    cbn [leaf_rects leaf_count]; [reflexivity | |];
    now rewrite length_app, IHa, IHb.
Qed.

Lemma leaf_numbers_succ c n :
  leaf_numbers c (S n) = (c + 1) :: leaf_numbers (c + 1) n.
Proof.
  unfold leaf_numbers. cbn [seq map]. f_equal.
  rewrite <- seq_shift, map_map. apply map_ext. intros k. lia.
Qed.

(** What one leaf appends, with the identifiers that tie the three
    objects together. *)
Lemma define_fakes_ids t x y width height s :
  has_area t ->
  exists s' o c ms,
    define_fakes t x y width height s = (s', Done tt)
    /\ counter s' = wrap32 (counter s + 1)
    /\ fake_outputs (lists s') = fake_outputs (lists s) ++ [o]
    /\ fake_crtcs (lists s') = fake_crtcs (lists s) ++ [c]
    /\ fake_modes (lists s') = fake_modes (lists s) ++ ms
    /\ fo_xid o = augmentXID (output t) (counter s')
    /\ fc_xid c = augmentXID (oi_crtc (oi_header (output_info t))) (counter s')
    /\ fc_output c = fo_xid o
    /\ oi_crtc (fo_orig_output_info o) = fc_xid c
    /\ fo_modes o = [fc_xid c]
    /\ ci_mode (fc_orig_crtc_info c) = fc_xid c
    /\ map mode_id ms = match find_mode (resources t) (ci_mode (crtc_info t)) with
                        | Some _ => [fc_xid c]
                        | None => []
                        end.
Proof.
  intros [Hw Hh]. unfold define_fakes.
  apply Z.eqb_neq in Hw, Hh. rewrite Hw, Hh. cbn [orb].
  destruct (find_mode (resources t) (ci_mode (crtc_info t))) as [m |].
  - eexists. eexists. eexists. eexists.
    split; [reflexivity|].
    cbn [counter lists append_mode append_crtc append_output
         fake_outputs fake_crtcs fake_modes].
    repeat split.
  - eexists. eexists. eexists. exists [].
    rewrite app_nil_r.
    split; [reflexivity|].
    cbn [counter lists append_mode append_crtc append_output
         fake_outputs fake_crtcs fake_modes].
    repeat split.
Qed.

Lemma emit_leaves_ids t rs :
  forall s,
    has_area t ->
    0 <= counter s ->
    counter s + Z.of_nat (length rs) < 2 ^ 32 ->
    exists s' os cs ms,
      emit_leaves t rs s = (s', Done tt)
      /\ counter s' = counter s + Z.of_nat (length rs)
      /\ fake_outputs (lists s') = fake_outputs (lists s) ++ os
      /\ fake_crtcs (lists s') = fake_crtcs (lists s) ++ cs
      /\ fake_modes (lists s') = fake_modes (lists s) ++ ms
      /\ map fo_xid os = map (augmentXID (output t)) (leaf_numbers (counter s) (length rs))
      /\ map fc_xid cs
         = map (augmentXID (oi_crtc (oi_header (output_info t))))
               (leaf_numbers (counter s) (length rs))
      /\ map fc_output cs = map fo_xid os
      /\ map (fun o => oi_crtc (fo_orig_output_info o)) os = map fc_xid cs
      /\ map fo_modes os = map (fun c => [fc_xid c]) cs
      /\ map (fun c => ci_mode (fc_orig_crtc_info c)) cs = map fc_xid cs
      /\ map mode_id ms = match find_mode (resources t) (ci_mode (crtc_info t)) with
                          | Some _ => map fc_xid cs
                          | None => []
                          end.
Proof.
  induction rs as [| q rs IH]; intros s Ht Hc Hb.
  - exists s, [], [], []. cbn [emit_leaves length map]. rewrite !app_nil_r.
    unfold leaf_numbers. cbn [seq map].
    repeat split; try lia. now destruct (find_mode _ _).
  - cbn [length] in Hb. rewrite Nat2Z.inj_succ in Hb.
    destruct (define_fakes_ids t (rx q) (ry q) (rw q) (rh q) s Ht)
      as (s1 & o & c & ms1 & E1 & Hn & Ho & Hcs & Hms & X1 & X2 & X3 & X4 & X5 & X6 & X7).
    rewrite wrap32_small in Hn by (unfold is_u32; lia).
    destruct (IH s1 Ht ltac:(lia) ltac:(lia))
      as (s2 & os & cs & ms & E2 & Hn2 & Ho2 & Hcs2 & Hms2 & Y1 & Y2 & Y3 & Y4 & Y5 & Y6 & Y7).
    rewrite Hn in *.
    exists s2, (o :: os), (c :: cs), (ms1 ++ ms).
    cbn [emit_leaves length]. rewrite E1, E2, Ho2, Ho, Hcs2, Hcs, Hms2, Hms, <- !app_assoc.
    rewrite leaf_numbers_succ, map_app. cbn [map app].
    rewrite Nat2Z.inj_succ.
    split; [reflexivity|]. split; [lia|].
    split; [reflexivity|]. split; [reflexivity|]. split; [reflexivity|].
    split; [now rewrite X1, Y1|]. split; [now rewrite X2, Y2|].
    split; [now rewrite X3, Y3|]. split; [now rewrite X4, Y4|].
    split; [now rewrite X5, Y5|]. split; [now rewrite X6, Y6|].
    rewrite X7, Y7.
    destruct (find_mode (resources t) (ci_mode (crtc_info t))); reflexivity.
Qed.

(** X5: the leaves of a plan are numbered in document order and the
    numbers tie the fake objects together.  When the parent CRTC has an
    area and the counter stays below 2^32, the traversal of a serialised
    plan with L leaves, started at counter c, ends at counter c + L and
    appends, for k = 1..L in document order, a fake output with the
    identifier augmentXID(output, c + k) and a fake CRTC with the
    identifier augmentXID(crtc of the output, c + k).  The CRTC names that
    output as its only output, the output names that CRTC as its CRTC and
    as its only mode, the CRTC's current mode is the CRTC's own identifier,
    and the fake modes, present when the parent's mode is in the mode
    table, carry the identifiers of the fake CRTCs. *)
Theorem leaves_numbered_in_document_order p fuel pre post t x y width height s :
  has_area t ->
  (depth p <= fuel)%nat ->
  0 <= counter s ->
  counter s + Z.of_nat (leaf_count p) < 2 ^ 32 ->
  exists s' os cs ms,
    _config_foreach_split fuel (pre ++ encode_plan p ++ post) t (Zlength' pre)
                          x y width height s
    = (s', Done (Zlength' pre + Zlength' (encode_plan p)))
    /\ counter s' = counter s + Z.of_nat (leaf_count p)
    /\ fake_outputs (lists s') = fake_outputs (lists s) ++ os
    /\ fake_crtcs (lists s') = fake_crtcs (lists s) ++ cs
    /\ fake_modes (lists s') = fake_modes (lists s) ++ ms
    /\ map fo_xid os = map (augmentXID (output t)) (leaf_numbers (counter s) (leaf_count p))
    /\ map fc_xid cs
       = map (augmentXID (oi_crtc (oi_header (output_info t))))
             (leaf_numbers (counter s) (leaf_count p))
    /\ map fc_output cs = map fo_xid os
    /\ map (fun o => oi_crtc (fo_orig_output_info o)) os = map fc_xid cs
    /\ map fo_modes os = map (fun c => [fc_xid c]) cs
    /\ map (fun c => ci_mode (fc_orig_crtc_info c)) cs = map fc_xid cs
    /\ map mode_id ms = match find_mode (resources t) (ci_mode (crtc_info t)) with
                        | Some _ => map fc_xid cs
                        | None => []
                        end.
Proof.
  intros Ht Hfuel Hc Hb.
  rewrite traversal_of_encoding by exact Hfuel.
  rewrite walk_is_emit.
  rewrite <- (length_leaf_rects p x y width height) in Hb |- *.
  destruct (emit_leaves_ids t (leaf_rects p x y width height) s Ht Hc Hb)
    as (s' & os & cs & ms & E & H).
  exists s', os, cs, ms. rewrite E. split; [reflexivity | exact H].
Qed.

Lemma leaves_numbered_in_document_order_witness :
  exists s' os cs ms,
    _config_foreach_split 2 ([] ++ encode_plan Sample.two_halves ++ []) Sample.target
                          (Zlength' (@nil byte)) 0 0 3840 1080 Sample.start
    = (s', Done (Zlength' (@nil byte) + Zlength' (encode_plan Sample.two_halves)))
    /\ counter s' = 2
    /\ fake_outputs (lists s') = os
    /\ fake_crtcs (lists s') = cs
    /\ fake_modes (lists s') = ms
    /\ map fo_xid os = [augmentXID 0x42 1; augmentXID 0x42 2]
    /\ map fc_xid cs = [augmentXID 0x3f 1; augmentXID 0x3f 2]
    /\ map fc_output cs = map fo_xid os
    /\ map mode_id ms = map fc_xid cs.
Proof.
  destruct (leaves_numbered_in_document_order
              Sample.two_halves 2 [] [] Sample.target 0 0 3840 1080 Sample.start)
    as (s' & os & cs & ms & E & Hn & Ho & Hc & Hm & X1 & X2 & X3 & _ & _ & _ & X7).
  - split; vm_compute; discriminate.
  - simpl. lia.
  - simpl. lia.
  - simpl. lia.
  - exists s', os, cs, ms.
    repeat split; try assumption.
Defined.

(** ** The split field of an augmented identifier *)

Lemma split_field_of_augmented xid n :
  Z.land (augmentXID xid n) XID_SPLIT_MASK = Z.shiftl (n mod 2 ^ 10) XID_SPLIT_SHIFT.
Proof.
  unfold augmentXID, wrap32, XID_SPLIT_SHIFT.
  apply Z.bits_inj'. intros k Hk.
  rewrite Z.land_spec, Z.lor_spec, Z.land_spec, Z.lnot_spec, XID_SPLIT_MASK_bits by lia.
  rewrite (Z.shiftl_spec (n mod 2 ^ 10)) by lia.
  destruct (Z.leb_spec 21 k) as [H21 | H21].
  - destruct (Z.ltb_spec k 31) as [H31 | H31]; cbn [andb negb].
    + rewrite andb_false_r, andb_true_r. cbn [orb].
      rewrite Z.mod_pow2_bits_low by lia.
      rewrite Z.shiftl_spec by lia.
      rewrite Z.mod_pow2_bits_low by lia. reflexivity.
    + rewrite andb_false_r. symmetry. apply Z.mod_pow2_bits_high. lia.
  - cbn [andb]. rewrite andb_false_r. symmetry. apply Z.testbit_neg_r. lia.
Qed.

Lemma augmentXID_index_injective xid n m :
  valid_split_index n -> valid_split_index m ->
  augmentXID xid n = augmentXID xid m -> n = m.
Proof.
  unfold valid_split_index. intros Hn Hm E.
  apply (f_equal (fun z => Z.land z XID_SPLIT_MASK)) in E.
  rewrite !split_field_of_augmented in E.
  rewrite !Z.mod_small in E by lia.
  unfold XID_SPLIT_SHIFT in E. rewrite !Z.shiftl_mul_pow2 in E by lia. lia.
Qed.

(** X6: which augmented identifiers are recognised as fake.  The split
    field of augmentXID(xid, n) holds n modulo 1024, whatever xid is, so
    the test of the reply functions takes the identifier for a fake one
    exactly when n is not a multiple of 1024; and masking the split field
    out again gives the same identifier as masking xid. *)
Theorem augmented_id_is_fake_unless_multiple_of_1024 xid n :
  is_u32 xid ->
  is_u32 n ->
  is_fake_xid (augmentXID xid n) = negb (n mod 1024 =? 0)
  /\ Z.land (augmentXID xid n) XID_SPLIT_MASK = (n mod 1024) * 2 ^ 21
  /\ (n < 1024 -> original_xid (augmentXID xid n) = original_xid xid).
Proof.
  unfold is_u32. intros Hx Hn.
  assert (E := split_field_of_augmented xid n).
  unfold XID_SPLIT_SHIFT in E. rewrite Z.shiftl_mul_pow2 in E by lia.
  change (2 ^ 10) with 1024 in E.
  split; [|split; [exact E|]].
  - unfold is_fake_xid. rewrite E. f_equal.
    assert (0 <= n mod 1024 < 1024) by (apply Z.mod_pos_bound; lia).
    destruct (Z.eqb_spec (n mod 1024) 0) as [-> | Hne]; [reflexivity|].
    apply Z.eqb_neq. lia.
  - intros Hs. unfold original_xid, augmentXID.
    assert (Hi : valid_split_index n) by (unfold valid_split_index; lia).
    rewrite (shifted_index_fits n Hi).
    apply Z.bits_inj'. intros k Hk.
    rewrite !Z.land_spec, Z.lor_spec, Z.land_spec, Z.lnot_spec, XID_SPLIT_MASK_bits by lia.
    unfold XID_SPLIT_SHIFT. rewrite Z.shiftl_spec by lia.
    destruct (Z.leb_spec 21 k) as [H21 | H21].
    + destruct (Z.ltb_spec k 31) as [H31 | H31]; cbn [andb negb].
      * rewrite !andb_false_r. reflexivity.
      * rewrite (index_bits n (k - 21) Hi) by lia.
        rewrite orb_false_r, !andb_true_r. reflexivity.
    + rewrite (Z.testbit_neg_r n (k - 21)) by lia.
      cbn [andb negb]. rewrite orb_false_r, !andb_true_r. reflexivity.
Qed.

Lemma augmented_id_is_fake_unless_multiple_of_1024_witness :
  is_fake_xid (augmentXID 0x42 1024) = negb (1024 mod 1024 =? 0)
  /\ Z.land (augmentXID 0x42 1024) XID_SPLIT_MASK = (1024 mod 1024) * 2 ^ 21
  /\ (1024 < 1024 -> original_xid (augmentXID 0x42 1024) = original_xid 0x42).
Proof.
  apply (augmented_id_is_fake_unless_multiple_of_1024 0x42 1024);
    unfold is_u32; lia.
Defined.

Lemma leaf_numbers_range c n k :
  In k (leaf_numbers c n) -> c + 1 <= k <= c + Z.of_nat n.
Proof.
  unfold leaf_numbers. rewrite in_map_iff. intros [i [<- Hi]].
  apply in_seq in Hi. lia.
Qed.

Lemma leaf_numbers_distinct c n : NoDup (leaf_numbers c n).
Proof.
  unfold leaf_numbers.
  apply NoDup_map_NoDup_ForallPairs; [|apply seq_NoDup].
  intros i j _ _ E. lia.
Qed.

Lemma augmented_leaf_ids_distinct xid c n :
  0 <= c -> c + Z.of_nat n < 2 ^ 10 ->
  NoDup (map (augmentXID xid) (leaf_numbers c n))
  /\ Forall (fun id => is_fake_xid id = true) (map (augmentXID xid) (leaf_numbers c n)).
Proof.
  intros Hc Hb. split.
  - apply NoDup_map_NoDup_ForallPairs; [|apply leaf_numbers_distinct].
    intros i j Hi Hj E.
    apply leaf_numbers_range in Hi, Hj.
    apply (augmentXID_index_injective xid); unfold valid_split_index; auto; lia.
  - apply Forall_forall. intros id Hid.
    apply in_map_iff in Hid. destruct Hid as [k [<- Hk]].
    apply leaf_numbers_range in Hk.
    apply augmented_xid_is_fake. lia.
Qed.

(** X7: the fake identifiers of a plan do not collide.  When the parent
    CRTC has an area and the counter stays below 1024, the fake outputs
    that the traversal of a serialised plan appends have pairwise different
    identifiers, and so have the fake CRTCs; every one of them is
    recognised as fake by the reply functions, so that none equals an
    identifier whose split field is zero. *)
Theorem fake_ids_of_a_plan_are_distinct p fuel pre post t x y width height s :
  has_area t ->
  (depth p <= fuel)%nat ->
  0 <= counter s ->
  counter s + Z.of_nat (leaf_count p) < 2 ^ 10 ->
  exists s' os cs,
    fst (_config_foreach_split fuel (pre ++ encode_plan p ++ post) t (Zlength' pre)
                               x y width height s) = s'
    /\ fake_outputs (lists s') = fake_outputs (lists s) ++ os
    /\ fake_crtcs (lists s') = fake_crtcs (lists s) ++ cs
    /\ NoDup (map fo_xid os)
    /\ NoDup (map fc_xid cs)
    /\ (forall o real, In o os -> Z.land real XID_SPLIT_MASK = 0 -> fo_xid o <> real)
    /\ (forall c real, In c cs -> Z.land real XID_SPLIT_MASK = 0 -> fc_xid c <> real).
Proof.
  intros Ht Hfuel Hc Hb.
  rewrite traversal_of_encoding by exact Hfuel.
  rewrite walk_is_emit.
  rewrite <- (length_leaf_rects p x y width height) in Hb.
  destruct (emit_leaves_ids t (leaf_rects p x y width height) s Ht Hc ltac:(lia))
    as (s' & os & cs & ms & E & _ & Ho & Hcs & _ & X1 & X2 & _).
  exists s', os, cs. rewrite E. cbn [located fst].
  destruct (augmented_leaf_ids_distinct (output t) (counter s) _ Hc Hb) as [D1 F1].
  destruct (augmented_leaf_ids_distinct (oi_crtc (oi_header (output_info t)))
              (counter s) _ Hc Hb) as [D2 F2].
  rewrite <- X1 in D1, F1. rewrite <- X2 in D2, F2.
  repeat split; try assumption.
  - intros o real Hin Hreal E'.
    rewrite Forall_forall in F1.
    specialize (F1 (fo_xid o) (in_map fo_xid os o Hin)).
    rewrite E', (real_xid_not_fake real Hreal) in F1. discriminate.
  - intros c real Hin Hreal E'.
    rewrite Forall_forall in F2.
    specialize (F2 (fc_xid c) (in_map fc_xid cs c Hin)).
    rewrite E', (real_xid_not_fake real Hreal) in F2. discriminate.
Qed.

Lemma fake_ids_of_a_plan_are_distinct_witness :
  exists s' os cs,
    fst (_config_foreach_split 2 ([] ++ encode_plan Sample.two_halves ++ []) Sample.target
                               (Zlength' (@nil byte)) 0 0 3840 1080 Sample.start) = s'
    /\ fake_outputs (lists s') = os
    /\ fake_crtcs (lists s') = cs
    /\ NoDup (map fo_xid os)
    /\ NoDup (map fc_xid cs).
Proof.
  destruct (fake_ids_of_a_plan_are_distinct
              Sample.two_halves 2 [] [] Sample.target 0 0 3840 1080 Sample.start)
    as (s' & os & cs & E & Ho & Hc & D1 & D2 & _).
  - split; vm_compute; discriminate.
  - simpl. lia.
  - simpl. lia.
  - simpl. lia.
  - exists s', os, cs. repeat split; assumption.
Defined.

(** ** The hexadecimal EDID *)

Lemma hex_pair_decodes b :
  hex_digit_value (hex_char (Z.land (Z.shiftr (byte_val b) 4) 0xf)) 
  = Some (Z.land (Z.shiftr (byte_val b) 4) 0xf)
  /\ hex_digit_value (hex_char (Z.land (byte_val b) 0xf)) = Some (Z.land (byte_val b) 0xf)
  /\ byte_of_Z (16 * Z.land (Z.shiftr (byte_val b) 4) 0xf + Z.land (byte_val b) 0xf) = b.
Proof. destruct b; vm_compute; repeat split. Qed.

Lemma hex_decode_encode prop : hex_decode (hex_encode prop) = Some prop.
Proof.
  induction prop as [| b prop IH]; [reflexivity|].
  unfold hex_encode in *. cbn [flat_map app hex_decode].
  destruct (hex_pair_decodes b) as [Hh [Hl Hb]].
  rewrite Hh, Hl, IH, Hb. reflexivity.
Qed.

Lemma length_hex_encode prop : length (hex_encode prop) = (2 * length prop)%nat.
Proof.
  induction prop as [| b prop IH]; [reflexivity|].
  unfold hex_encode in *. cbn [flat_map app length]. rewrite IH. lia.
Qed.

Lemma hex_encode_digits prop :
  Forall (fun ch => hex_digit_value ch <> None) (hex_encode prop).
Proof.
  induction prop as [| b prop IH]; [constructor|].
  unfold hex_encode in *. cbn [flat_map app].
  destruct (hex_pair_decodes b) as [Hh [Hl _]].
  constructor; [congruence|]. constructor; [congruence | exact IH].
Qed.

(** X8: what [get_output_edid] hands to the matcher.  For an EDID property
    of 1 to 383 bytes the function returns twice the number of bytes,
    which is positive, and the string it writes has that many characters,
    every one of them a lower-case hexadecimal digit (so none is NUL), and
    reads back as the property itself: two outputs get the same string
    only when their properties are byte for byte the same.  For a property
    of 384 bytes or more the function writes past the end of the 768-byte
    buffer: it stores twice the number of bytes and one more, and returns
    twice the number of bytes all the same. *)
Theorem get_output_edid_hex c output atom prop :
  real_edid_atom c = Some atom ->
  real_output_property c output atom = Some prop ->
  (0 < length prop)%nat ->
  ((length prop < 384)%nat ->
   get_output_edid c output = Done (2 * Zlength' prop, hex_encode prop)
   /\ 0 < 2 * Zlength' prop
   /\ Zlength' (hex_encode prop) = 2 * Zlength' prop
   /\ Forall (fun ch => hex_digit_value ch <> None) (hex_encode prop)
   /\ NUL_free (hex_encode prop)
   /\ hex_decode (hex_encode prop) = Some prop
   /\ (forall prop', hex_encode prop' = hex_encode prop -> prop' = prop))
  /\ ((384 <= length prop)%nat ->
      get_output_edid_stores c output = 2 * Zlength' prop + 1
      /\ output_edid_size < get_output_edid_stores c output
      /\ get_output_edid c output = Done (to_int32 (Zlength' prop * 2), hex_encode prop)).
Proof.
  intros Hatom Hprop Hpos.
  unfold get_output_edid, get_output_edid_stores, output_edid_size.
  rewrite Hatom, Hprop.
  unfold Zlength'.
  destruct (Z.gtb_spec (Z.of_nat (length prop)) 0) as [_ | H0]; [|lia].
  split.
  - intros Hlen.
    rewrite to_int32_small by lia.
    replace (Z.of_nat (length prop) * 2) with (2 * Z.of_nat (length prop)) by lia.
    split; [reflexivity|]. split; [lia|].
    split; [rewrite length_hex_encode; lia|].
    split; [apply hex_encode_digits|].
    split.
    + unfold NUL_free. eapply Forall_impl; [|apply hex_encode_digits].
      intros ch Hd. destruct ch; try reflexivity. exfalso. apply Hd. reflexivity.
    + split; [apply hex_decode_encode|].
      intros prop' E.
      assert (D := hex_decode_encode prop'). rewrite E, hex_decode_encode in D.
      congruence.
  - intros Hlen. split; [reflexivity|]. split; [lia | reflexivity].
Qed.

Lemma get_output_edid_hex_witness :
  get_output_edid Sample.library 0x42
  = Done (2 * Zlength' Sample.edid_42, hex_encode Sample.edid_42)
  /\ hex_decode (hex_encode Sample.edid_42) = Some Sample.edid_42.
Proof.
  destruct (get_output_edid_hex Sample.library 0x42
              77 Sample.edid_42)
    as [Hsmall _].
  - vm_compute. reflexivity.
  - vm_compute. reflexivity.
  - vm_compute. lia.
  - destruct Hsmall as (E & _ & _ & _ & _ & D & _).
    + vm_compute. lia.
    + split; [exact E | exact D].
Defined.

(** ** Rebuilding the snapshot *)

Lemma open_configuration_ignores_old env old old' :
  open_configuration env old = open_configuration env old'.
Proof. reflexivity. Qed.

(** What a successful call of a screen-resources entry point has done. *)
Lemma rebuild_success current fuel env c cookie g g1 r :
  get_screen_resources_reply current fuel env c cookie g = (g1, Done r) ->
  exists cfg res l,
    fakeScreenResources g <> DanglingPtr
    /\ open_configuration env None = (Some cfg, 0)
    /\ real_screen_resources_reply c cookie = Some res
    /\ handle_outputs fuel cfg c res
         (firstn (Z.to_nat (sr_num_outputs (sr_header res))) (sr_outputs res)) no_fakes
       = (l, Done tt)
    /\ g1 = {| config_mapping := Some cfg;
               fakeScreenResources := LivePtr (FakeScreenResources_ctor res l);
               crtc_info_cookies := crtc_info_cookies g;
               output_info_cookies := output_info_cookies g |}
    /\ r = FakeScreenResources_makeReturnValue (FakeScreenResources_ctor res l).
Proof.
  unfold get_screen_resources_reply, delete_snapshot, updateFakeResources, return_snapshot.
  intros H.
  destruct (fakeScreenResources g) as [| old |] eqn:Hp; [| |discriminate].
  - rewrite (open_configuration_ignores_old env _ None) in H.
    destruct (open_configuration env None) as [[cfg |] [| z | z]] eqn:Ho;
      cbn [fakeScreenResources set_config] in H; rewrite ?Hp in H; try discriminate.
    destruct (real_screen_resources_reply c cookie) as [res |]; [|discriminate].
    destruct (handle_outputs fuel cfg c res _ no_fakes) as [l [[] | f |]] eqn:Hh;
      try discriminate.
    cbn [fakeScreenResources set_fakeScreenResources set_config] in H.
    injection H as <- <-.
    exists cfg, res, l. repeat split; try assumption; discriminate.
  - rewrite (open_configuration_ignores_old env _ None) in H.
    destruct (open_configuration env None) as [[cfg |] [| z | z]] eqn:Ho;
      cbn [fakeScreenResources set_config set_fakeScreenResources] in H; try discriminate.
    destruct (real_screen_resources_reply c cookie) as [res |]; [|discriminate].
    destruct (handle_outputs fuel cfg c res _ no_fakes) as [l [[] | f |]] eqn:Hh;
      try discriminate.
    cbn [fakeScreenResources set_fakeScreenResources set_config] in H.
    injection H as <- <-.
    exists cfg, res, l. repeat split; try assumption; discriminate.
Qed.

(** X9: a rebuild does not depend on what came before it.  When a
    screen-resources entry point has returned a reply, a later call of
    either entry point, from any state whose snapshot pointer is not
    dangling, in the same environment and with the same answers of the
    real library, returns the same reply and installs the same snapshot and
    mapping; it leaves the two tables of pending detail queries as they
    were.  In particular the call repeated on the state it left changes
    nothing: the fake objects are replaced, not accumulated. *)
Theorem rebuild_is_repeatable current current' fuel env c cookie cookie' g g1 r :
  get_screen_resources_reply current fuel env c cookie g = (g1, Done r) ->
  real_screen_resources_reply c cookie' = real_screen_resources_reply c cookie ->
  (forall g',
     fakeScreenResources g' <> DanglingPtr ->
     exists g1',
       get_screen_resources_reply current' fuel env c cookie' g' = (g1', Done r)
       /\ fakeScreenResources g1' = fakeScreenResources g1
       /\ config_mapping g1' = config_mapping g1
       /\ crtc_info_cookies g1' = crtc_info_cookies g'
       /\ output_info_cookies g1' = output_info_cookies g')
  /\ get_screen_resources_reply current' fuel env c cookie' g1 = (g1, Done r)
  /\ crtc_info_cookies g1 = crtc_info_cookies g
  /\ output_info_cookies g1 = output_info_cookies g.
Proof.
  intros H Hsame.
  destruct (rebuild_success current fuel env c cookie g g1 r H)
    as (cfg & res & l & _ & Ho & Hr & Hh & -> & ->).
  assert (General : forall g',
             fakeScreenResources g' <> DanglingPtr ->
             get_screen_resources_reply current' fuel env c cookie' g'
             = ({| config_mapping := Some cfg;
                   fakeScreenResources := LivePtr (FakeScreenResources_ctor res l);
                   crtc_info_cookies := crtc_info_cookies g';
                   output_info_cookies := output_info_cookies g' |},
                Done (FakeScreenResources_makeReturnValue (FakeScreenResources_ctor res l)))).
  { intros g' Hp.
    unfold get_screen_resources_reply, delete_snapshot, updateFakeResources, return_snapshot.
    destruct (fakeScreenResources g') as [| old |] eqn:Hp'; [| |congruence];
      rewrite (open_configuration_ignores_old env _ None), Ho, Hsame, Hr, Hh;
      reflexivity. }
  split; [|split; [|split; reflexivity]].
  - intros g' Hp. eexists. split; [apply (General g' Hp)|]. repeat split.
  - rewrite General by (cbn [fakeScreenResources]; discriminate). reflexivity.
Qed.

Lemma rebuild_is_repeatable_witness :
  get_screen_resources_reply true 100 Sample.env Sample.library 6
                             SampleRun.globals_after_rebuild
  = (SampleRun.globals_after_rebuild,
     Done (FakeScreenResources_makeReturnValue SampleRun.snapshot)).
Proof.
  assert (H : get_screen_resources_reply false 100 Sample.env Sample.library 5 initial_globals
              = (SampleRun.globals_after_rebuild,
                 Done (FakeScreenResources_makeReturnValue SampleRun.snapshot)))
    by (vm_compute; reflexivity).
  exact (proj1 (proj2 (rebuild_is_repeatable false true 100 Sample.env Sample.library 5 6
                         initial_globals _ _ H eq_refl))).
Defined.

(** ** Which record of the file is applied *)

Lemma find_first_match {A} (f : A -> bool) before r after :
  Forall (fun r' => f r' = false) before -> f r = true ->
  find f (before ++ r :: after) = Some r.
Proof.
  induction before as [| b before IH]; intros Hb Hr; cbn [app find].
  - now rewrite Hr.
  - inversion Hb as [| ? ? Hf Hrest]; subst. rewrite Hf. now apply IH.
Qed.

Lemma find_no_match {A} (f : A -> bool) rs :
  Forall (fun r' => f r' = false) rs -> find f rs = None.
Proof.
  induction rs as [| b rs IH]; intros Hb; cbn [find]; [reflexivity|].
  inversion Hb as [| ? ? Hf Hrest]; subst. rewrite Hf. now apply IH.
Qed.

(** X10: the first matching record wins.  On a file of well-formed records
    mapped with zero-filled room after it, for an output whose two real
    queries are answered and whose CRTC has an area: when no record has
    both the EDID of the output and the size of its CRTC,
    [config_handle_output] returns 0 and appends nothing; otherwise it
    returns 1 and appends the fake objects of the plan of the first such
    record in file order, one fake output and one fake CRTC per leaf, the
    CRTCs placed on the leaf rectangles of that plan, whatever records for
    the same monitor follow it. *)
Theorem first_matching_record_wins rs fuel D k c res output target l oi ci :
  Forall well_formed_record rs ->
  Forall (fun r => (depth (rec_plan r) <= D)%nat) rs ->
  (912 <= k)%nat ->
  hd NUL target <> NUL ->
  real_output_info c output (sr_config_timestamp (sr_header res)) = Some oi ->
  real_crtc_info c (oi_crtc (oi_header oi)) (sr_config_timestamp (sr_header res)) = Some ci ->
  is_u16 (ci_width ci) -> is_u16 (ci_height ci) ->
  ci_width ci <> 0 -> ci_height ci <> 0 ->
  Zlength' (encode_records rs) + 4 < 2 ^ 31 ->
  (length rs + 2 + D <= fuel)%nat ->
  let cfg := {| config_file := encode_records rs ++ repeat NUL k;
                config_file_size := Zlength' (encode_records rs) |} in
  let t := {| resources := res; output := output; output_info := oi; crtc_info := ci |} in
  (Forall (fun r => record_matches target ci r = false) rs ->
   config_handle_output fuel cfg c res output target l = (l, Done 0))
  /\ (forall before r after,
        rs = before ++ r :: after ->
        Forall (fun r' => record_matches target ci r' = false) before ->
        record_matches target ci r = true ->
        exists l' os cs,
          config_handle_output fuel cfg c res output target l = (l', Done 1)
          /\ fake_outputs l' = fake_outputs l ++ os
          /\ fake_crtcs l' = fake_crtcs l ++ cs
          /\ length os = leaf_count (rec_plan r)
          /\ length cs = leaf_count (rec_plan r)
          /\ Forall (fun o => fo_parent_xid o = output) os
          /\ map crtc_rect cs
             = map (placed t) (leaf_rects (rec_plan r) 0 0 (ci_width ci) (ci_height ci))).
Proof.
  intros Hwf Hdepth Hk Htarget Hoi Hci Hcw Hch Hw0 Hh0 Hbound Hfuel cfg t.
  assert (E := first_match_decides rs fuel D k c res output target l oi ci
                 Hwf Hdepth Hk Htarget Hoi Hci Hcw Hch Hbound Hfuel).
  fold cfg in E. split.
  - intros Hnone. rewrite E, (find_no_match _ rs Hnone). reflexivity.
  - intros before r after -> Hbefore Hr.
    rewrite E, (find_first_match _ before r after Hbefore Hr).
    unfold apply_record. fold t.
    unfold record_matches in Hr.
    apply andb_prop in Hr. destruct Hr as [Hr Hhr].
    apply andb_prop in Hr. destruct Hr as [_ Hwr].
    apply Z.eqb_eq in Hwr, Hhr. rewrite <- Hwr, <- Hhr.
    assert (Ht : has_area t) by (split; assumption).
    destruct (walk_plan_spec (rec_plan r) t 0 0 (ci_width ci) (ci_height ci)
                             {| counter := 0; lists := l |} Ht)
      as (s' & os & cs & Ew & Ho & Hc & _ & Lo & Lc & _ & Hrect & Hpar).
    rewrite Ew. exists (lists s'), os, cs.
    cbn [lists] in Ho, Hc.
    repeat split; assumption.
Qed.

Lemma first_matching_record_wins_witness :
  exists l' os cs,
    config_handle_output 10 SampleSelection.mapping Sample.library Sample.screen_resources
                         0x42 (hex_encode Sample.edid_42) no_fakes
    = (l', Done 1)
    /\ fake_outputs l' = fake_outputs no_fakes ++ os
    /\ fake_crtcs l' = fake_crtcs no_fakes ++ cs
    /\ length os = 2%nat
    /\ length cs = 2%nat.
Proof.
  assert (Hoi : real_output_info Sample.library 0x42
                  (sr_config_timestamp (sr_header Sample.screen_resources))
                = Some Sample.output_info_42) by reflexivity.
  assert (Hci : real_crtc_info Sample.library
                  (oi_crtc (oi_header Sample.output_info_42))
                  (sr_config_timestamp (sr_header Sample.screen_resources))
                = Some Sample.crtc_info_3f) by reflexivity.
  destruct (first_matching_record_wins
              SampleSelection.records 10 2 912 Sample.library Sample.screen_resources
              0x42 (hex_encode Sample.edid_42) no_fakes
              Sample.output_info_42 Sample.crtc_info_3f) as [_ Hfirst];
    try assumption.
  - repeat (apply Forall_cons || apply Forall_nil);
      (split; [vm_compute; reflexivity|]); (split; [vm_compute; reflexivity|]);
      split; vm_compute; split; congruence.
  - repeat (apply Forall_cons || apply Forall_nil); vm_compute; lia.
  - lia.
  - vm_compute. discriminate.
  - vm_compute. split; congruence.
  - vm_compute. split; congruence.
  - vm_compute. discriminate.
  - vm_compute. discriminate.
  - vm_compute. reflexivity.
  - vm_compute. lia.
  - destruct (Hfirst [SampleFiles.other_monitor "HDMI-1" "00ffffffffffff0010ac" Leaf]
                     Sample.the_record [SampleFiles.overlong_record])
      as (l' & os & cs & E & Ho & Hc & Lo & Lc & _).
    + reflexivity.
    + constructor; [vm_compute; reflexivity | constructor].
    + vm_compute. reflexivity.
    + exists l', os, cs. repeat split; assumption.
Defined.

(** ** A screen without a matching record *)






(** ** The output-info replies of the fake outputs *)

Lemma print_d_short n : 0 <= n < 1024 -> (length (print_d n) <= 4)%nat.
Proof.
  intros Hn.
  assert (H : forallb (fun k => (length (print_d (Z.of_nat k)) <=? 4)%nat) (seq 0 1024) = true)
    by (vm_compute; reflexivity).
  rewrite forallb_forall in H.
  specialize (H (Z.to_nat n)). rewrite Z2Nat.id in H by lia.
  apply Nat.leb_le, H, in_seq. lia.
Qed.

(** The reply of the fake output of one leaf. *)
Lemma define_fakes_output_reply t x y width height s :
  has_area t ->
  0 <= counter s -> counter s + 1 < 2 ^ 10 ->
  oi_name_len (oi_header (output_info t)) = Zlength' (oi_name (output_info t)) ->
  oi_num_clones (oi_header (output_info t)) = Zlength' (oi_clones (output_info t)) ->
  NUL_free (oi_name (output_info t)) ->
  oi_after_name (output_info t) = [] ->
  Zlength' (oi_name (output_info t)) + 5 < 2 ^ 16 ->
  exists s' o,
    define_fakes t x y width height s = (s', Done tt)
    /\ counter s' = counter s + 1
    /\ fake_outputs (lists s') = fake_outputs (lists s) ++ [o]
    /\ reply_of_leaf t (counter s + 1) o.
Proof.
  intros [Hw Hh] Hc Hb Hlen Hclones Hnul Hafter Hroom.
  unfold define_fakes.
  apply Z.eqb_neq in Hw, Hh. rewrite Hw, Hh. cbn [orb].
  rewrite (wrap32_small (counter s + 1)) by (unfold is_u32; lia).
  set (n := counter s + 1).
  assert (Hfmt : format_output_name (oi_name_len (oi_header (output_info t)))
                   (cstring (oi_name (output_info t) ++ oi_after_name (output_info t))) n
                 = oi_name (output_info t) ++ ["~"%byte] ++ print_d n).
  { rewrite Hafter, app_nil_r, (cstring_NUL_free _ Hnul), Hlen.
    unfold format_output_name, print_star_s, Zlength'.
    rewrite Nat2Z.id, Nat.sub_diag, (to_int32_small n) by (subst n; lia).
    reflexivity. }
  assert (Hshort := print_d_short n ltac:(subst n; lia)).
  assert (Hsize : is_u16 (Zlength' (oi_name (output_info t) ++ ["~"%byte] ++ print_d n))).
  { unfold is_u16, Zlength' in *. rewrite !length_app. cbn [length]. lia. }
  destruct (find_mode (resources t) (ci_mode (crtc_info t)));
    (eexists; eexists; split; [reflexivity|]);
    cbn [counter lists append_mode append_crtc append_output fake_outputs];
    (split; [reflexivity|]); (split; [reflexivity|]);
    unfold reply_of_leaf, well_formed_output_info,
      FakeOutputInfo_makeReturnValue, FakeOutputInfo_ctor;
    cbn [fo_xid fo_orig_output_info fo_modes fo_clones fo_name set_output_crtc
         oi_header oi_crtcs oi_modes oi_clones oi_name
         oi_num_crtcs oi_num_modes oi_num_clones oi_name_len oi_crtc
         oi_num_preferred oi_connection oi_timestamp];
    fold n; rewrite Hfmt, (wrap16_small _ Hsize), !firstn_Zlength, Hclones, firstn_Zlength;
    change (Z.to_nat 1) with 1%nat; cbn [firstn];
    rewrite (firstn_all2 (n := Z.to_nat (Zlength' (oi_clones (output_info t)))))
      by (unfold Zlength'; rewrite Nat2Z.id, length_map; lia);
    unfold Zlength'; rewrite length_map;
    repeat split.
Qed.

Lemma emit_leaves_output_replies t rs :
  forall s,
    has_area t ->
    0 <= counter s -> counter s + Z.of_nat (length rs) < 2 ^ 10 ->
    oi_name_len (oi_header (output_info t)) = Zlength' (oi_name (output_info t)) ->
    oi_num_clones (oi_header (output_info t)) = Zlength' (oi_clones (output_info t)) ->
    NUL_free (oi_name (output_info t)) ->
    oi_after_name (output_info t) = [] ->
    Zlength' (oi_name (output_info t)) + 5 < 2 ^ 16 ->
    exists s' os,
      emit_leaves t rs s = (s', Done tt)
      /\ fake_outputs (lists s') = fake_outputs (lists s) ++ os
      /\ length os = length rs
      /\ Forall (fun o => exists k,
                   counter s < k <= counter s + Z.of_nat (length rs)
                   /\ reply_of_leaf t k o) os.
Proof.
  induction rs as [| q rs IH]; intros s Ht Hc Hb Hlen Hclones Hnul Hafter Hroom.
  - exists s, []. cbn [emit_leaves]. rewrite app_nil_r. repeat split. constructor.
  - cbn [length] in Hb |- *. rewrite Nat2Z.inj_succ in Hb |- *.
    destruct (define_fakes_output_reply t (rx q) (ry q) (rw q) (rh q) s Ht Hc
                ltac:(lia) Hlen Hclones Hnul Hafter Hroom)
      as (s1 & o & E1 & Hn & Ho & Hreply).
    destruct (IH s1 Ht ltac:(lia) ltac:(lia) Hlen Hclones Hnul Hafter Hroom)
      as (s2 & os & E2 & Ho2 & Hl & Hall).
    exists s2, (o :: os). cbn [emit_leaves]. rewrite E1, E2, Ho2, Ho, <- app_assoc.
    split; [reflexivity|]. split; [reflexivity|]. split; [cbn [length]; lia|].
    constructor.
    + exists (counter s + 1). split; [lia | exact Hreply].
    + eapply Forall_impl; [|exact Hall].
      intros o' (k & Hk & Hr). exists k. split; [lia | exact Hr].
Qed.

(** X12: the output-info reply of a fake output.  For a parent reply
    whose name has its stated length, holds no NUL byte and is followed by
    a NUL, and whose clone count is the length of its clone array, every
    fake output that the traversal of a plan appends (the counter staying
    below 1024) is the one of some leaf number k of the walk: its reply is
    well-formed (each count is the length of its array), its name is the
    parent's name, a tilde and k in decimal, its only CRTC and its only
    mode are augmentXID(crtc of the parent, k), its clones are the parent's
    clones augmented with k, it has no preferred mode, and its connection
    state and timestamp are the parent's. *)
Theorem fake_output_replies p fuel pre post t x y width height s :
  has_area t ->
  (depth p <= fuel)%nat ->
  0 <= counter s ->
  counter s + Z.of_nat (leaf_count p) < 2 ^ 10 ->
  oi_name_len (oi_header (output_info t)) = Zlength' (oi_name (output_info t)) ->
  oi_num_clones (oi_header (output_info t)) = Zlength' (oi_clones (output_info t)) ->
  NUL_free (oi_name (output_info t)) ->
  oi_after_name (output_info t) = [] ->
  Zlength' (oi_name (output_info t)) + 5 < 2 ^ 16 ->
  exists s' os,
    _config_foreach_split fuel (pre ++ encode_plan p ++ post) t (Zlength' pre)
                          x y width height s
    = (s', Done (Zlength' pre + Zlength' (encode_plan p)))
    /\ fake_outputs (lists s') = fake_outputs (lists s) ++ os
    /\ length os = leaf_count p
    /\ Forall (fun o => exists k,
                 counter s < k <= counter s + Z.of_nat (leaf_count p)
                 /\ reply_of_leaf t k o) os.
Proof.
  intros Ht Hfuel Hc Hb Hlen Hclones Hnul Hafter Hroom.
  rewrite traversal_of_encoding by exact Hfuel.
  rewrite walk_is_emit.
  rewrite <- (length_leaf_rects p x y width height) in Hb |- *.
  destruct (emit_leaves_output_replies t (leaf_rects p x y width height) s
              Ht Hc Hb Hlen Hclones Hnul Hafter Hroom)
    as (s' & os & E & H).
  exists s', os. rewrite E. split; [reflexivity | exact H].
Qed.

Lemma fake_output_replies_witness :
  exists s' os,
    _config_foreach_split 2 ([] ++ encode_plan Sample.two_halves ++ []) Sample.target
                          (Zlength' (@nil byte)) 0 0 3840 1080 Sample.start
    = (s', Done (Zlength' (@nil byte) + Zlength' (encode_plan Sample.two_halves)))
    /\ fake_outputs (lists s') = fake_outputs (lists Sample.start) ++ os
    /\ length os = 2%nat
    /\ Forall (fun o => exists k, 0 < k <= 2 /\ reply_of_leaf Sample.target k o) os.
Proof.
  apply (fake_output_replies Sample.two_halves 2 [] [] Sample.target 0 0 3840 1080
                             Sample.start).
  - split; vm_compute; discriminate.
  - simpl. lia.
  - simpl. lia.
  - simpl. lia.
  - reflexivity.
  - reflexivity.
  - unfold NUL_free. forall_by_evaluation.
  - reflexivity.
  - vm_compute. reflexivity.
Defined.

(** ** A record whose size field makes the walk stand still *)

(** X13: a size field of 0xFFFFFFFC stops the walk over the records for
    good.  The loop advances by [4 + size] computed in 32 bits, which is 0
    for this size, so a record with this size field whose EDID is not the
    output's is read again and again: whatever the number of turns allowed,
    [config_handle_output] has not returned, and nothing has been
    appended. *)
Theorem wrapped_record_size_never_ends fuel cfg c res out target config l width height count :
  0 <= config <= config_file_size cfg ->
  config_file_size cfg < 2 ^ 31 ->
  read_u32 (config_file cfg) config = Some 0xFFFFFFFC ->
  read_u32 (config_file cfg) (config + (4 + 128 + 768)) = Some width ->
  read_u32 (config_file cfg) (config + (4 + 128 + 768 + 4)) = Some height ->
  read_u32 (config_file cfg) (config + (4 + 128 + 768 + 4 + 4)) = Some count ->
  strncmp_eq (config_file cfg) (config + (4 + 128)) target 768 = Some false ->
  config_handle_output_from fuel cfg c res out target config l = (l, OutOfFuel).
Proof.
  intros Hc Hs Hsize Hw Hh Hn Hcmp.
  induction fuel as [| fuel IH]; [reflexivity|].
  cbn [config_handle_output_from].
  rewrite (to_int32_small config), (to_int32_small (config_file_size cfg)) by lia.
  destruct (Z.leb_spec config (config_file_size cfg)) as [_ | Hlt]; [|lia].
  rewrite Hsize, Hw, Hh, Hn, Hcmp.
  change (wrap32 (4 + 0xFFFFFFFC)) with 0. rewrite Z.add_0_r.
  exact IH.
Qed.

Lemma wrapped_record_size_never_ends_witness :
  config_handle_output 1000 SampleWrappedSize.mapping Sample.library Sample.screen_resources
                       0x42 (hex_encode Sample.edid_42) no_fakes
  = (no_fakes, OutOfFuel).
Proof.
  apply (wrapped_record_size_never_ends
           1000 SampleWrappedSize.mapping Sample.library Sample.screen_resources
           0x42 (hex_encode Sample.edid_42) 0 no_fakes 0 0 0).
  - vm_compute. split; congruence.
  - vm_compute. reflexivity.
  - vm_compute. reflexivity.
  - vm_compute. reflexivity.
  - vm_compute. reflexivity.
  - vm_compute. reflexivity.
  - vm_compute. reflexivity.
Defined.

(** ** Queries that the server does not answer *)

(** One turn of the loop at a well-formed record when one of the two
    queries fails: the walk stops with 0 at a record with the EDID of the
    output and goes on behind any other. *)
Lemma walk_step_unanswered fuel cfg pre tail r c res output target l :
  config_file cfg = pre ++ encode_record r ++ tail ->
  Zlength' pre + Zlength' (encode_record r) <= config_file_size cfg ->
  config_file_size cfg + 4 < 2 ^ 31 ->
  well_formed_record r ->
  unanswered c res output ->
  config_handle_output_from (S fuel) cfg c res output target (Zlength' pre) l
  = if strn_equal (rec_edid r) target 768 then (l, Done 0)
    else config_handle_output_from fuel cfg c res output target
                                   (Zlength' (pre ++ encode_record r)) l.
Proof.
  intros Hmem Hsize Hbound Hr Hsilent.
  rewrite (Zlength_record r Hr) in Hsize.
  pose proof (Zlength_nonneg pre) as Hpre.
  pose proof (Zlength_nonneg (encode_plan (rec_plan r))) as Hplan.
  destruct (record_fields pre tail r target Hr) as [Fsize [Fw [Fh [[count Fc] Fcmp]]]].
  cbn [config_handle_output_from].
  rewrite (to_int32_small (Zlength' pre)) by lia.
  rewrite (to_int32_small (config_file_size cfg)) by lia.
  destruct (Z.leb_spec (Zlength' pre) (config_file_size cfg)) as [_ | Hlt]; [|lia].
  rewrite Hmem, Fsize, Fw, Fh, Fc, Fcmp.
  rewrite <- Hmem.
  assert (Hnext : Zlength' pre
                  + wrap32 (4 + wrap32 (128 + 768 + 4 + 4 + 4
                                        + Zlength' (encode_plan (rec_plan r))))
                  = Zlength' (pre ++ encode_record r)).
  { rewrite Zlength_app, (Zlength_record r Hr).
    rewrite !wrap32_small by (unfold is_u32; rewrite ?wrap32_small by (unfold is_u32; lia); lia).
    lia. }
  rewrite Hnext.
  destruct (strn_equal (rec_edid r) target 768); [|reflexivity].
  destruct Hsilent as [Hoi | (oi & Hoi & Hci)].
  - rewrite Hoi. reflexivity.
  - rewrite Hoi, Hci. reflexivity.
Qed.

Lemma walk_records_unanswered rs :
  forall fuel cfg pre k c res output target l,
    config_file cfg = pre ++ encode_records rs ++ repeat NUL k ->
    config_file_size cfg = Zlength' pre + Zlength' (encode_records rs) ->
    Forall well_formed_record rs ->
    (912 <= k)%nat ->
    hd NUL target <> NUL ->
    unanswered c res output ->
    config_file_size cfg + 4 < 2 ^ 31 ->
    (length rs + 2 <= fuel)%nat ->
    config_handle_output_from fuel cfg c res output target (Zlength' pre) l = (l, Done 0).
Proof.
  induction rs as [| r rest IH];
    intros fuel cfg pre k c res output target l Hmem Hsize Hwf Hk Htarget Hsilent Hbound Hfuel.
  - destruct fuel as [| [| fuel]]; [simpl in Hfuel; lia | simpl in Hfuel; lia |].
    cbn [encode_records flat_map app] in Hmem, Hsize.
    change (Zlength' (@nil byte)) with 0 in Hsize. rewrite Z.add_0_r in Hsize.
    apply (walk_end_with_room fuel cfg pre k); assumption.
  - destruct fuel as [| fuel]; [simpl in Hfuel; lia|].
    inversion Hwf as [| r' rest' Hr Hrest]; subst r' rest'.
    cbn [encode_records flat_map] in Hmem, Hsize.
    fold (encode_records rest) in Hmem, Hsize.
    rewrite Zlength_app in Hsize.
    pose proof (Zlength_nonneg (encode_records rest)) as Hrest_len.
    rewrite (walk_step_unanswered fuel cfg pre (encode_records rest ++ repeat NUL k) r
                                  c res output target l);
      try assumption; try lia.
    + destruct (strn_equal (rec_edid r) target 768); [reflexivity|].
      apply (IH fuel cfg (pre ++ encode_record r) k c res output target l);
        try assumption.
      * rewrite Hmem. same_bytes.
      * rewrite Hsize, Zlength_app. lia.
      * simpl in Hfuel. lia.
    + rewrite Hmem. same_bytes.
Qed.

(** X14: an output whose queries the server does not answer is not
    split.  On a file of well-formed records mapped with zero-filled room
    after it, when the output-info query for the output, or the CRTC-info
    query for its CRTC, comes back with a null pointer,
    [config_handle_output] returns 0 and appends nothing, whatever records
    the file holds and whatever their plans are: the turn of the rebuild
    for this output leaves it alone. *)
Theorem unanswered_output_is_not_split rs fuel k c res output target l :
  Forall well_formed_record rs ->
  (912 <= k)%nat ->
  hd NUL target <> NUL ->
  unanswered c res output ->
  Zlength' (encode_records rs) + 4 < 2 ^ 31 ->
  (length rs + 2 <= fuel)%nat ->
  config_handle_output fuel
    {| config_file := encode_records rs ++ repeat NUL k;
       config_file_size := Zlength' (encode_records rs) |}
    c res output target l
  = (l, Done 0).
Proof.
  intros Hwf Hk Htarget Hsilent Hbound Hfuel.
  unfold config_handle_output.
  change 0 with (Zlength' (@nil byte)) at 1.
  apply (walk_records_unanswered rs fuel _ [] k c res output target l); auto.
Qed.

Lemma unanswered_output_is_not_split_witness :
  config_handle_output 10 SampleSelection.mapping SampleSilent.library
                       Sample.screen_resources 0x42 (hex_encode Sample.edid_42) no_fakes
  = (no_fakes, Done 0).
Proof.
  apply (unanswered_output_is_not_split SampleSelection.records 10 912 SampleSilent.library
           Sample.screen_resources 0x42 (hex_encode Sample.edid_42) no_fakes).
  - repeat (apply Forall_cons || apply Forall_nil);
      (split; [vm_compute; reflexivity|]); (split; [vm_compute; reflexivity|]);
      split; vm_compute; split; congruence.
  - lia.
  - vm_compute. discriminate.
  - right. exists Sample.output_info_42. split; reflexivity.
  - vm_compute. reflexivity.
  - vm_compute. lia.
Defined.

(** ** A parent CRTC without an area *)

Lemma walk_plan_without_area p :
  forall t x y width height s,
    ci_width (crtc_info t) = 0 \/ ci_height (crtc_info t) = 0 ->
    walk_plan t p x y width height s = (s, Fault DivisionByZero).
Proof.
  induction p as [| z a IHa b IHb | z a IHa b IHb]; intros t x y width height s Hz;
    cbn [walk_plan].
  - unfold define_fakes.
    destruct Hz as [-> | ->]; [reflexivity|].
    rewrite orb_true_r. reflexivity.
  - now rewrite IHa.
  - now rewrite IHa.
Qed.

(** X15: a parent CRTC whose width or height is zero stops the split at
    its first leaf.  The physical size of a fake output is computed by a
    division by the width and by the height of the parent CRTC, before
    anything is allocated: for every plan the traversal ends in a division
    by zero, and the lists and the counter are as they were. *)
Theorem split_of_crtc_without_area p fuel pre post t x y width height s :
  ci_width (crtc_info t) = 0 \/ ci_height (crtc_info t) = 0 ->
  (depth p <= fuel)%nat ->
  _config_foreach_split fuel (pre ++ encode_plan p ++ post) t (Zlength' pre)
                        x y width height s
  = (s, Fault DivisionByZero).
Proof.
  intros Hz Hfuel.
  rewrite traversal_of_encoding by exact Hfuel.
  rewrite (walk_plan_without_area p t x y width height s Hz). reflexivity.
Qed.

Lemma split_of_crtc_without_area_witness :
  _config_foreach_split 2 ([] ++ encode_plan Sample.two_halves ++ []) SampleZero.target
                        (Zlength' (@nil byte)) 0 0 0 1080 Sample.start
  = (Sample.start, Fault DivisionByZero).
Proof.
  apply (split_of_crtc_without_area Sample.two_halves 2 [] [] SampleZero.target
                                    0 0 0 1080 Sample.start).
  - left. reflexivity.
  - simpl. lia.
Defined.

(** ** The fake modes of a plan *)

Lemma all_from_spec check n :
  forall z, all_from check n z = true ->
            forall v, z <= v < z + Z.of_nat n -> check v = true.
Proof.
  induction n as [| n IH]; intros z H v Hv; [lia|].
  cbn [all_from] in H. apply andb_prop in H. destruct H as [Hz Hrest].
  destruct (Z.eq_dec v z) as [-> | Hne]; [exact Hz|].
  apply (IH (z + 1) Hrest). lia.
Qed.

(** The decimal form of a 16-bit value has at most five characters, and
    none of them is NUL. *)
Lemma print_d_u16 v :
  (length (print_d (wrap16 v)) <= 5)%nat /\ NUL_free (print_d (wrap16 v)).
Proof.
  assert (H : all_from (fun v => (length (print_d v) <=? 5)%nat
                                 && forallb (fun b => negb (is_NUL b)) (print_d v))
                       (Z.to_nat 65536) 0 = true)
    by (vm_compute; reflexivity).
  assert (Hv : 0 <= wrap16 v < 0 + Z.of_nat (Z.to_nat 65536)).
  { unfold wrap16. rewrite Z2Nat.id by lia. apply Z.mod_pos_bound. reflexivity. }
  apply (all_from_spec _ _ _ H) in Hv. cbv beta in Hv.
  apply andb_prop in Hv. destruct Hv as [Hl Hn].
  split; [now apply Nat.leb_le|].
  unfold NUL_free. apply Forall_forall. intros b Hb.
  rewrite forallb_forall in Hn. specialize (Hn b Hb).
  now apply negb_true_iff.
Qed.

Lemma define_fakes_mode t x y width height s pm :
  has_area t ->
  find_mode (resources t) (ci_mode (crtc_info t)) = Some pm ->
  exists s' m,
    define_fakes t x y width height s = (s', Done tt)
    /\ fake_modes (lists s') = fake_modes (lists s) ++ [m]
    /\ mode_of_leaf pm (rect_of x y width height) m.
Proof.
  intros [Hw Hh] Hpm. unfold define_fakes.
  apply Z.eqb_neq in Hw, Hh. rewrite Hw, Hh, Hpm. cbn [orb].
  eexists. eexists. split; [reflexivity|].
  cbn [lists append_mode append_crtc append_output fake_modes].
  split; [reflexivity|].
  destruct (print_d_u16 width) as [Lw Nw]. destruct (print_d_u16 height) as [Lh Nh].
  assert (Hsize : is_u16 (Zlength' (format_mode_name (wrap16 width) (wrap16 height)))).
  { unfold is_u16, Zlength', format_mode_name. rewrite !length_app. cbn [length]. lia. }
  unfold mode_of_leaf, FakeModeInfo_ctor, rect_of.
  cbn [fm_base fm_name rw rh mi_width mi_height mi_name_len mi_dot_clock mi_hsync_start
       mi_hsync_end mi_htotal mi_hskew mi_vsync_start mi_vsync_end mi_vtotal mi_mode_flags].
  rewrite (wrap16_small _ Hsize), firstn_Zlength.
  unfold format_mode_name.
  repeat split.
  unfold NUL_free in *. apply Forall_app. split; [exact Nw|].
  apply Forall_app. split; [|exact Nh].
  constructor; [reflexivity | constructor].
Qed.

Lemma emit_leaves_modes t pm rs :
  forall s,
    has_area t ->
    find_mode (resources t) (ci_mode (crtc_info t)) = Some pm ->
    exists s' ms,
      emit_leaves t rs s = (s', Done tt)
      /\ fake_modes (lists s') = fake_modes (lists s) ++ ms
      /\ Forall2 (mode_of_leaf pm) rs ms.
Proof.
  induction rs as [| q rs IH]; intros s Ht Hpm.
  - exists s, []. cbn [emit_leaves]. rewrite app_nil_r. repeat split. constructor.
  - destruct (define_fakes_mode t (rx q) (ry q) (rw q) (rh q) s pm Ht Hpm)
      as (s1 & m & E1 & Hm & Hleaf).
    destruct (IH s1 Ht Hpm) as (s2 & ms & E2 & Hm2 & Hall).
    exists s2, (m :: ms). cbn [emit_leaves]. rewrite E1, E2, Hm2, Hm, <- app_assoc.
    split; [reflexivity|]. split; [reflexivity|].
    constructor; [|exact Hall].
    destruct q as [qx qy qw qh]. exact Hleaf.
Qed.

(** X16: the fake modes of a plan.  When the parent CRTC has an area and
    its mode is in the mode table, the traversal appends one fake mode per
    leaf, in document order: its size is the size of the leaf rectangle cut
    to 16 bits, its name is that width and that height in decimal with an x
    between them, the name holds no NUL byte and the name length is the
    length of the name, and the dot clock, the sync and total fields, the
    skew and the flags are those of the parent's mode. *)
Theorem fake_modes_of_a_plan p fuel pre post t x y width height s pm :
  has_area t ->
  (depth p <= fuel)%nat ->
  find_mode (resources t) (ci_mode (crtc_info t)) = Some pm ->
  exists s' ms,
    _config_foreach_split fuel (pre ++ encode_plan p ++ post) t (Zlength' pre)
                          x y width height s
    = (s', Done (Zlength' pre + Zlength' (encode_plan p)))
    /\ fake_modes (lists s') = fake_modes (lists s) ++ ms
    /\ Forall2 (mode_of_leaf pm) (leaf_rects p x y width height) ms.
Proof.
  intros Ht Hfuel Hpm.
  rewrite traversal_of_encoding by exact Hfuel.
  rewrite walk_is_emit.
  destruct (emit_leaves_modes t pm (leaf_rects p x y width height) s Ht Hpm)
    as (s' & ms & E & H).
  exists s', ms. rewrite E. split; [reflexivity | exact H].
Qed.

Lemma fake_modes_of_a_plan_witness :
  exists s' ms,
    _config_foreach_split 2 ([] ++ encode_plan Sample.two_halves ++ []) Sample.target
                          (Zlength' (@nil byte)) 0 0 3840 1080 Sample.start
    = (s', Done (Zlength' (@nil byte) + Zlength' (encode_plan Sample.two_halves)))
    /\ fake_modes (lists s') = fake_modes (lists Sample.start) ++ ms
    /\ Forall2 (mode_of_leaf Sample.wide_mode)
               (leaf_rects Sample.two_halves 0 0 3840 1080) ms.
Proof.
  apply (fake_modes_of_a_plan Sample.two_halves 2 [] [] Sample.target 0 0 3840 1080
                              Sample.start Sample.wide_mode).
  - split; vm_compute; discriminate.
  - simpl. lia.
  - vm_compute. reflexivity.
Defined.

(** ** Which file [open_configuration] maps *)

Lemma length_append (s1 s2 : string) :
  String.length (s1 ++ s2) = (String.length s1 + String.length s2)%nat.
Proof. induction s1 as [| ch s1 IH]; cbn; [reflexivity | now rewrite IH]. Qed.

(** X17: the file that is mapped.  [open_configuration] returns 0 with a
    mapping exactly when the directory, which is XDG_CONFIG_HOME when that
    is set and otherwise HOME followed by /.config, has at most 496
    characters and the file fakexrandr.bin in it is readable, opens and
    maps; the mapping is then that file with its size.  In every other
    case it returns 1 and leaves no mapping, whatever was mapped before. *)
Theorem open_configuration_maps_the_file env old :
  (forall cfg,
     open_configuration env old = (Some cfg, 0)
     <-> exists dir,
           (getenv_XDG_CONFIG_HOME env = Some dir
            \/ (getenv_XDG_CONFIG_HOME env = None
                /\ exists home, getenv_HOME env = Some home
                                /\ dir = (home ++ "/.config")%string))
           /\ strlen dir <= 496
           /\ file_at env (dir ++ "/fakexrandr.bin")%string
              = Mapped (config_file_size cfg) (config_file cfg))
  /\ ((exists cfg, open_configuration env old = (Some cfg, 0))
      \/ open_configuration env old = (None, 1)).
Proof.
  assert (Hpath : forall dir,
             (strlen (dir ++ "/fakexrandr.bin") >=? 512) = negb (strlen dir <=? 496)).
  { intros dir. unfold strlen. rewrite length_append. cbn [String.length].
    destruct (Z.geb_spec (Z.of_nat (String.length dir + 15)) 512);
      destruct (Z.leb_spec (Z.of_nat (String.length dir)) 496); try reflexivity; lia. }
  assert (Hhome : forall home,
             strlen (home ++ "/.config") <= 496 ->
             (strlen (home ++ "/.config") >=? 512) = false).
  { intros home H. destruct (Z.geb_spec (strlen (home ++ "/.config")) 512); [lia|reflexivity]. }
  assert (Hfar : forall home,
             (strlen (home ++ "/.config") >=? 512) = true ->
             ~ strlen (home ++ "/.config") <= 496).
  { intros home H. destruct (Z.geb_spec (strlen (home ++ "/.config")) 512); [lia|discriminate]. }
  unfold open_configuration. split.
  - intros [region size]. cbn [config_file config_file_size]. split.
    + intros H.
      destruct (getenv_XDG_CONFIG_HOME env) as [dir |] eqn:Hx.
      * rewrite Hpath in H.
        destruct (Z.leb_spec (strlen dir) 496) as [Hle | Hgt]; cbn [negb] in H;
          [|discriminate].
        destruct (file_at env (dir ++ "/fakexrandr.bin")) eqn:Hf; try discriminate.
        injection H as <- <-. exists dir. auto.
      * destruct (getenv_HOME env) as [home |] eqn:Hh; [|discriminate].
        destruct (strlen (home ++ "/.config") >=? 512) eqn:Hlong; [discriminate|].
        rewrite Hpath in H.
        destruct (Z.leb_spec (strlen (home ++ "/.config")) 496) as [Hle | Hgt];
          cbn [negb] in H; [|discriminate].
        destruct (file_at env ((home ++ "/.config") ++ "/fakexrandr.bin")) eqn:Hf;
          try discriminate.
        injection H as <- <-. exists (home ++ "/.config")%string.
        split; [right; split; [reflexivity | exists home; auto] | auto].
    + intros (dir & [Hx | (Hx & home & Hh & ->)] & Hle & Hf); rewrite Hx.
      * rewrite Hpath, Hf. destruct (Z.leb_spec (strlen dir) 496); [reflexivity | lia].
      * rewrite Hh, (Hhome home Hle), Hpath, Hf.
        destruct (Z.leb_spec (strlen (home ++ "/.config")) 496); [reflexivity | lia].
  - destruct (getenv_XDG_CONFIG_HOME env) as [dir |].
    + destruct (strlen (dir ++ "/fakexrandr.bin") >=? 512); [now right|].
      destruct (file_at env (dir ++ "/fakexrandr.bin")); eauto.
    + destruct (getenv_HOME env) as [home |]; [|now right].
      destruct (strlen (home ++ "/.config") >=? 512); [now right|].
      destruct (strlen ((home ++ "/.config") ++ "/fakexrandr.bin") >=? 512); [now right|].
      destruct (file_at env ((home ++ "/.config") ++ "/fakexrandr.bin")); eauto.
Qed.

(** ** The outputs of a screen are split one by one *)

Lemma append_no_fakes l : append_lists l no_fakes = l.
Proof. destruct l. unfold append_lists. cbn. now rewrite !app_nil_r. Qed.

Lemma append_lists_assoc a b c :
  append_lists (append_lists a b) c = append_lists a (append_lists b c).
Proof. unfold append_lists. cbn. now rewrite !app_assoc. Qed.

Lemma define_fakes_after t x y width height n l :
  define_fakes t x y width height {| counter := n; lists := l |}
  = state_after_lists l (define_fakes t x y width height {| counter := n; lists := no_fakes |}).
Proof.
  unfold define_fakes, state_after_lists.
  destruct ((ci_width (crtc_info t) =? 0) || (ci_height (crtc_info t) =? 0)).
  - cbn. now rewrite append_no_fakes.
  - cbn [counter lists fst snd].
    destruct (find_mode (resources t) (ci_mode (crtc_info t)));
      unfold append_lists, append_mode, append_crtc, append_output;
      cbn [fake_crtcs fake_outputs fake_modes no_fakes app];
      rewrite ?app_nil_r; reflexivity.
Qed.

Lemma state_after_after {A} a b (r : split_state * outcome A) :
  state_after_lists a (state_after_lists b r) = state_after_lists (append_lists a b) r.
Proof. unfold state_after_lists. cbn. now rewrite append_lists_assoc. Qed.

Lemma traversal_after fuel mem t :
  forall config x y width height n l,
    _config_foreach_split fuel mem t config x y width height {| counter := n; lists := l |}
    = state_after_lists l
        (_config_foreach_split fuel mem t config x y width height
                               {| counter := n; lists := no_fakes |}).
Proof.
  induction fuel as [| fuel IH]; intros config x y width height n l;
    cbn [_config_foreach_split].
  - unfold state_after_lists. cbn. now rewrite append_no_fakes.
  - assert (Hstop : forall A (o : outcome A),
               ({| counter := n; lists := l |}, o)
               = state_after_lists l ({| counter := n; lists := no_fakes |}, o)).
    { intros A o. unfold state_after_lists. cbn. now rewrite append_no_fakes. }
    assert (Hboth : forall c1 x1 y1 w1 h1 x2 y2 w2 h2,
               match _config_foreach_split fuel mem t c1 x1 y1 w1 h1
                                           {| counter := n; lists := l |} with
               | (s', Done config') => _config_foreach_split fuel mem t config' x2 y2 w2 h2 s'
               | stopped => stopped
               end
               = state_after_lists l
                   match _config_foreach_split fuel mem t c1 x1 y1 w1 h1
                                               {| counter := n; lists := no_fakes |} with
                   | (s', Done config') =>
                       _config_foreach_split fuel mem t config' x2 y2 w2 h2 s'
                   | stopped => stopped
                   end).
    { intros c1 x1 y1 w1 h1 x2 y2 w2 h2.
      rewrite (IH c1 x1 y1 w1 h1 n l).
      destruct (_config_foreach_split fuel mem t c1 x1 y1 w1 h1
                                      {| counter := n; lists := no_fakes |})
        as [[n1 l1] [c' | f |]]; unfold state_after_lists at 1; cbn [fst snd counter lists];
        try reflexivity.
      rewrite (IH c' x2 y2 w2 h2 n1 (append_lists l l1)), (IH c' x2 y2 w2 h2 n1 l1).
      now rewrite state_after_after. }
    destruct (read_u8 mem config) as [tag |]; [|apply Hstop].
    destruct (Byte.eqb tag "N").
    + rewrite define_fakes_after.
      destruct (define_fakes t x y width height {| counter := n; lists := no_fakes |})
        as [[n1 l1] [u | f |]]; reflexivity.
    + destruct (read_u32 mem (config + 1)) as [split_pos |]; [|apply Hstop].
      destruct (Byte.eqb tag "H"); [apply Hboth|].
      destruct (Byte.eqb tag "V"); [apply Hboth | apply Hstop].
Qed.

Lemma config_handle_output_after fuel cfg c res out target :
  forall config l,
    config_handle_output_from fuel cfg c res out target config l
    = after_lists l (config_handle_output_from fuel cfg c res out target config no_fakes).
Proof.
  assert (Hstop : forall l (o : outcome Z), (l, o) = after_lists l (no_fakes, o)).
  { intros l o. unfold after_lists. cbn. now rewrite append_no_fakes. }
  induction fuel as [| fuel IH]; intros config l; cbn [config_handle_output_from];
    [apply Hstop|].
  destruct (to_int32 config <=? to_int32 (config_file_size cfg)); [|apply Hstop].
  destruct (read_u32 (config_file cfg) config) as [size |]; [|apply Hstop].
  destruct (read_u32 (config_file cfg) (config + (4 + 128 + 768))) as [width |];
    [|apply Hstop].
  destruct (read_u32 (config_file cfg) (config + (4 + 128 + 768 + 4))) as [height |];
    [|apply Hstop].
  destruct (read_u32 (config_file cfg) (config + (4 + 128 + 768 + 4 + 4))) as [count |];
    [|apply Hstop].
  destruct (strncmp_eq (config_file cfg) (config + (4 + 128)) target 768) as [[|] |];
    [|apply IH|apply Hstop].
  destruct (real_output_info c out _) as [oi |]; [|apply Hstop].
  destruct (real_crtc_info c _ _) as [ci |]; [|apply Hstop].
  destruct ((ci_width ci =? to_int32 width) && (ci_height ci =? to_int32 height));
    [|apply IH].
  rewrite traversal_after.
  destruct (_config_foreach_split (S fuel) _ _ _ 0 0 width height
                                  {| counter := 0; lists := no_fakes |})
    as [[n1 l1] [u | f |]]; reflexivity.
Qed.

(** X18: the outputs of a screen are split one by one.  What
    [config_handle_output] appends for an output, and what it returns, do
    not depend on the fake objects of the outputs handled before: its
    result on any lists is its result on empty lists put after them.  The
    loop of [updateFakeResources] over the outputs of one part of the
    screen followed by another is the loop over the first part and then,
    unless it failed, the loop over the second; and its result on any
    lists is its result on empty lists put after them. *)
Theorem outputs_are_split_one_by_one fuel cfg c res :
  (forall out target l,
     config_handle_output fuel cfg c res out target l
     = after_lists l (config_handle_output fuel cfg c res out target no_fakes))
  /\ (forall outs l,
        handle_outputs fuel cfg c res outs l
        = after_lists l (handle_outputs fuel cfg c res outs no_fakes))
  /\ (forall outs1 outs2 l,
        handle_outputs fuel cfg c res (outs1 ++ outs2) l
        = match handle_outputs fuel cfg c res outs1 l with
          | (l', Done _) => handle_outputs fuel cfg c res outs2 l'
          | stopped => stopped
          end).
Proof.
  assert (Hone : forall out target l,
             config_handle_output fuel cfg c res out target l
             = after_lists l (config_handle_output fuel cfg c res out target no_fakes))
    by (intros; apply config_handle_output_after).
  assert (Hstop : forall A l (o : outcome A), (l, o) = after_lists l (no_fakes, o)).
  { intros A l o. unfold after_lists. cbn. now rewrite append_no_fakes. }
  split; [exact Hone|]. split.
  - induction outs as [| out outs IH]; intros l; cbn [handle_outputs]; [apply Hstop|].
    destruct (get_output_edid c out) as [[ret edid] | f |]; [|apply Hstop|apply Hstop].
    destruct (ret >? 0); [|apply IH].
    rewrite (Hone out edid l).
    destruct (config_handle_output fuel cfg c res out edid no_fakes) as [l1 [z | f |]];
      unfold after_lists at 1; cbn [fst snd]; try reflexivity.
    rewrite (IH (append_lists l l1)), (IH l1).
    unfold after_lists. cbn [fst snd]. now rewrite append_lists_assoc.
  - induction outs1 as [| out outs1 IH]; intros outs2 l; cbn [handle_outputs app];
      [reflexivity|].
    destruct (get_output_edid c out) as [[ret edid] | f |]; try reflexivity.
    destruct (ret >? 0); [|apply IH].
    destruct (config_handle_output fuel cfg c res out edid l) as [l1 [z | f |]];
      try reflexivity.
    apply IH.
Qed.

(** ** Querying the fake objects that a reply lists *)

(** X19: every fake object of the live snapshot answers its own query.
    When the fake identifiers of the snapshot are pairwise different, a
    client that passes the identifier of one of its fake outputs (or fake
    CRTCs) to the issue function and the returned cookie to the reply
    function gets the reply built from exactly that object, whatever the
    real library would answer; the request handed to the real library is
    the one for the identifier with its split field cleared, and the
    globals are afterwards what they were before. *)
Theorem fake_objects_answer_their_queries lib c g snapshot ts :
  fakeScreenResources g = LivePtr snapshot ->
  NoDup (map fo_xid (fake_outputs (fakes snapshot))) ->
  NoDup (map fc_xid (fake_crtcs (fakes snapshot))) ->
  (forall o,
     In o (fake_outputs (fakes snapshot)) -> is_fake_xid (fo_xid o) = true ->
     let '(cookie, c', g1) := xcb_randr_get_output_info c (fo_xid o) ts g in
     xcb_randr_get_output_info_reply lib cookie g1
     = (g, Done (Some (FakeOutputInfo_makeReturnValue o)))
     /\ forwarded c' = forwarded c ++ [GetOutputInfo true (original_xid (fo_xid o)) ts])
  /\ (forall k,
        In k (fake_crtcs (fakes snapshot)) -> is_fake_xid (fc_xid k) = true ->
        let '(cookie, c', g1) := xcb_randr_get_crtc_info c (fc_xid k) ts g in
        xcb_randr_get_crtc_info_reply lib cookie g1
        = (g, Done (Some (FakeCrtcInfo_makeReturnValue k)))
        /\ forwarded c' = forwarded c ++ [GetCrtcInfo true (original_xid (fc_xid k)) ts]).
Proof.
  intros Hlive Do Dc. split.
  - intros o Hin Hfake.
    unfold xcb_randr_get_output_info, real_send. split; [|reflexivity].
    rewrite (surjective_pairing (xcb_randr_get_output_info_reply _ _ _)).
    rewrite output_reply_consumes. f_equal.
    unfold xcb_randr_get_output_info_reply.
    cbn [output_info_cookies set_output_info_cookies].
    rewrite find_insert.
    cbn [fakeScreenResources set_output_info_cookies].
    rewrite Hlive, Hfake. cbn [negb].
    now rewrite (find_by_unique_key fo_xid _ o Do Hin).
  - intros k Hin Hfake.
    unfold xcb_randr_get_crtc_info, real_send. split; [|reflexivity].
    rewrite (surjective_pairing (xcb_randr_get_crtc_info_reply _ _ _)).
    rewrite crtc_reply_consumes. f_equal.
    unfold xcb_randr_get_crtc_info_reply.
    cbn [crtc_info_cookies set_crtc_info_cookies].
    rewrite find_insert.
    cbn [fakeScreenResources set_crtc_info_cookies].
    rewrite Hlive, Hfake. cbn [negb].
    now rewrite (find_by_unique_key fc_xid _ k Dc Hin).
Qed.

Lemma fake_objects_answer_their_queries_witness :
  (forall o,
     In o (fake_outputs (fakes SampleRun.snapshot)) -> is_fake_xid (fo_xid o) = true ->
     let '(cookie, c', g1) :=
       xcb_randr_get_output_info SampleRun.connection (fo_xid o) 900
                                 SampleRun.globals_after_rebuild in
     xcb_randr_get_output_info_reply Sample.library cookie g1
     = (SampleRun.globals_after_rebuild, Done (Some (FakeOutputInfo_makeReturnValue o)))
     /\ forwarded c'
        = forwarded SampleRun.connection ++ [GetOutputInfo true (original_xid (fo_xid o)) 900])
  /\ (forall k,
        In k (fake_crtcs (fakes SampleRun.snapshot)) -> is_fake_xid (fc_xid k) = true ->
        let '(cookie, c', g1) :=
          xcb_randr_get_crtc_info SampleRun.connection (fc_xid k) 900
                                  SampleRun.globals_after_rebuild in
        xcb_randr_get_crtc_info_reply Sample.library cookie g1
        = (SampleRun.globals_after_rebuild, Done (Some (FakeCrtcInfo_makeReturnValue k)))
        /\ forwarded c'
           = forwarded SampleRun.connection ++ [GetCrtcInfo true (original_xid (fc_xid k)) 900]).
Proof.
  apply (fake_objects_answer_their_queries Sample.library SampleRun.connection
           SampleRun.globals_after_rebuild SampleRun.snapshot 900).
  - vm_compute. reflexivity.
  - let l := eval vm_compute in (map fo_xid (fake_outputs (fakes SampleRun.snapshot))) in
    change (NoDup l).
    repeat constructor; cbn [In]; lia.
  - let l := eval vm_compute in (map fc_xid (fake_crtcs (fakes SampleRun.snapshot))) in
    change (NoDup l).
    repeat constructor; cbn [In]; lia.
Defined.

(** ** A screen-resources request that the server refuses *)

(** X20: a null screen-resources reply of the real library is not handed
    on to the client.  In a process that has no snapshot yet, the call ends
    in a null-pointer dereference in every environment: when the
    configuration opens, [updateFakeResources] reads the number of outputs
    through the null reply, and when it does not, the entry point calls
    [makeReturnValue] through the null snapshot pointer.  With a live
    snapshot and a configuration that opens, the call ends in the same
    dereference of the null reply, and by then the old snapshot has been
    deleted and the configuration mapped anew; the tables of pending
    queries are as they were. *)
Theorem null_screen_resources_reply_is_dereferenced current fuel env c cookie g :
  real_screen_resources_reply c cookie = None ->
  (fakeScreenResources g = NullPtr ->
   snd (get_screen_resources_reply current fuel env c cookie g) = Fault NullDereference)
  /\ (forall old cfg,
        fakeScreenResources g = LivePtr old ->
        open_configuration env (config_mapping g) = (Some cfg, 0) ->
        get_screen_resources_reply current fuel env c cookie g
        = ({| config_mapping := Some cfg;
              fakeScreenResources := DanglingPtr;
              crtc_info_cookies := crtc_info_cookies g;
              output_info_cookies := output_info_cookies g |},
           Fault NullDereference)).
Proof.
  intros Hnone.
  unfold get_screen_resources_reply, delete_snapshot, updateFakeResources, return_snapshot.
  split.
  - intros Hp. rewrite Hp, Hnone.
    destruct (open_configuration env (config_mapping g)) as [[cfg |] [| z | z]];
      cbn [fakeScreenResources set_config snd]; rewrite ?Hp; reflexivity.
  - intros old cfg Hp Ho. rewrite Hp, Hnone.
    rewrite (open_configuration_ignores_old env _ (config_mapping g)), Ho.
    reflexivity.
Qed.

Lemma null_screen_resources_reply_is_dereferenced_witness :
  snd (get_screen_resources_reply true 100 Sample.env SampleNoScreen.library 5 initial_globals)
  = Fault NullDereference
  /\ snd (get_screen_resources_reply false 100 Sample.env SampleNoScreen.library 6
            SampleRun.globals_after_rebuild)
     = Fault NullDereference
  /\ fakeScreenResources
       (fst (get_screen_resources_reply false 100 Sample.env SampleNoScreen.library 6
               SampleRun.globals_after_rebuild))
     = DanglingPtr.
Proof.
  split.
  - apply (proj1 (null_screen_resources_reply_is_dereferenced
                    true 100 Sample.env SampleNoScreen.library 5 initial_globals eq_refl)).
    reflexivity.
  - rewrite (proj2 (null_screen_resources_reply_is_dereferenced
                      false 100 Sample.env SampleNoScreen.library 6
                      SampleRun.globals_after_rebuild eq_refl)
                   SampleRun.snapshot Sample.mapping
                   ltac:(vm_compute; reflexivity) ltac:(vm_compute; reflexivity)).
    split; reflexivity.
Defined.

(** ** Detail replies when the real library has none *)

(** X21: a null reply of the real library for a real identifier.  With a
    live snapshot and a cookie that resolves to a real identifier (split
    field zero) for which the real library hands back a null pointer: the
    output-info reply function writes the connection state through the null
    pointer when a fake output of the snapshot has that identifier as its
    parent (or as its own), and returns the null pointer when none has; the
    CRTC-info reply function writes through the null pointer when a fake
    output was split from that CRTC, and returns the null pointer when none
    was. *)
Theorem null_real_reply_for_real_id lib cookie g item xid snapshot :
  fakeScreenResources g = LivePtr snapshot ->
  Z.land xid XID_SPLIT_MASK = 0 ->
  (AssocList.find cookie (output_info_cookies g) = Some (item, xid) ->
   real_output_info_reply lib cookie = None ->
   ((exists o, In o (fake_outputs (fakes snapshot))
               /\ (fo_xid o = xid \/ fo_parent_xid o = xid)) ->
    snd (xcb_randr_get_output_info_reply lib cookie g) = Fault NullDereference)
   /\ ((forall o, In o (fake_outputs (fakes snapshot)) ->
                  fo_xid o <> xid /\ fo_parent_xid o <> xid) ->
       snd (xcb_randr_get_output_info_reply lib cookie g) = Done None))
  /\ (AssocList.find cookie (crtc_info_cookies g) = Some (item, xid) ->
      real_crtc_info_reply lib cookie = None ->
      ((exists o, In o (fake_outputs (fakes snapshot)) /\ parent_crtc o = xid) ->
       snd (xcb_randr_get_crtc_info_reply lib cookie g) = Fault NullDereference)
      /\ ((forall o, In o (fake_outputs (fakes snapshot)) -> parent_crtc o <> xid) ->
          snd (xcb_randr_get_crtc_info_reply lib cookie g) = Done None)).
Proof.
  intros Hlive Hreal. split; intros Hfind Hnone.
  - unfold xcb_randr_get_output_info_reply.
    rewrite Hfind. cbn [fakeScreenResources set_output_info_cookies].
    rewrite Hlive, (real_xid_not_fake xid Hreal), Hnone. cbn [negb]. split.
    + intros Hex. apply xid_in_list_true in Hex. now rewrite Hex.
    + intros Hno.
      destruct (xid_in_list (fake_outputs (fakes snapshot)) xid) eqn:E; [|reflexivity].
      apply xid_in_list_true in E. destruct E as (o & Hin & Hor).
      destruct (Hno o Hin) as [H1 H2]. destruct Hor; contradiction.
  - unfold xcb_randr_get_crtc_info_reply.
    rewrite Hfind. cbn [fakeScreenResources set_crtc_info_cookies].
    rewrite Hlive, (real_xid_not_fake xid Hreal), Hnone. cbn [negb]. split.
    + intros Hex. apply existsb_parent_crtc in Hex. now rewrite Hex.
    + intros Hno.
      destruct (existsb _ (fake_outputs (fakes snapshot))) eqn:E; [|reflexivity].
      apply existsb_parent_crtc in E. destruct E as (o & Hin & Hp).
      exfalso. exact (Hno o Hin Hp).
Qed.

Lemma null_real_reply_for_real_id_witness :
  snd (xcb_randr_get_output_info_reply SampleNoReply.library 11
         SamplePending.globals_with_queries) = Fault NullDereference
  /\ snd (xcb_randr_get_crtc_info_reply SampleNoReply.library 13
            SamplePending.globals_with_queries) = Fault NullDereference.
Proof.
  assert (Hlive : fakeScreenResources SamplePending.globals_with_queries
                  = LivePtr SampleRun.snapshot) by (vm_compute; reflexivity).
  split.
  - destruct (null_real_reply_for_real_id SampleNoReply.library 11
                SamplePending.globals_with_queries 1%nat 0x42 SampleRun.snapshot
                Hlive ltac:(vm_compute; reflexivity)) as [Hout _].
    destruct (Hout ltac:(vm_compute; reflexivity) eq_refl) as [Hcrash _].
    apply Hcrash.
    exists (hd (FakeOutputInfo_ctor 0 0 Sample.output_info_42 0 0 0 0 0 [] [])
               (fake_outputs (fakes SampleRun.snapshot))).
    split; [vm_compute; left; reflexivity | right; vm_compute; reflexivity].
  - destruct (null_real_reply_for_real_id SampleNoReply.library 13
                SamplePending.globals_with_queries 2%nat 0x3f SampleRun.snapshot
                Hlive ltac:(vm_compute; reflexivity)) as [_ Hcrtc].
    destruct (Hcrtc ltac:(vm_compute; reflexivity) eq_refl) as [Hcrash _].
    apply Hcrash.
    exists (hd (FakeOutputInfo_ctor 0 0 Sample.output_info_42 0 0 0 0 0 [] [])
               (fake_outputs (fakes SampleRun.snapshot))).
    split; [vm_compute; left; reflexivity | vm_compute; reflexivity].
Defined.
